(** * pydust: the entity store and its SQL persistence engine

    A shallow embedding of [dust/__init__.py], [dust/entity.py] and
    [dust/persist/sqlpersist.py] (with the statement templates of
    [dust/persist/mysqlpersist.py] as the relational backend), followed by
    the properties the specification states about them.

    Conventions of the embedding

    - Python values are the closed variant [Value]: an [Atom] or a flat
      container of atoms.  [bool] is a subclass of [int] in Python
      ([True == 1], same hash), so booleans are the integers 0 and 1.
      Floats are not represented.
    - A [str] of the shape [unit:int:type] is the atom [AGid]; every other
      [str] is [AStr].  Unit, type and field names contain no colon.
    - An [Entity] object is the handle [Entity.t]: the name of its unit
      ([enum_map[self.unit]]), its id and its meta-type member
      ([enum_map[self.meta_type]]).  The store creates one object per
      global id, so the mutable attribute [committed] lives in the slot
      of [_entity_map] that holds the object.
    - [_enum_map] is one dictionary in the source; here it is split by the
      type of its keys.
    - Exceptions are results: every function of the source that can raise
      runs in the monad [M], which returns the state reached so far
      together with [Ok v] or [Raise e]. *)

From stdpp Require Import gmap strings list fin_maps.
From Stdlib Require Import ZArith Lia Ascii Sorted.

Open Scope Z_scope.
Open Scope string_scope.

(* ===================================================================== *)
(** ** dust/__init__.py *)
(* ===================================================================== *)

Module Datatypes.
Inductive t := INT | NUMERIC | BOOL | STRING | BYTES | JSON | ENTITY.
#[global] Instance eq_dec : EqDecision t.
  Proof. solve_decision. Defined.
Definition tag (d : t) : nat :=
    match d with
    | INT => 0 | NUMERIC => 2 | BOOL => 3 | STRING => 4
    | BYTES => 5 | JSON => 9 | ENTITY => 10
    end%nat.
Definition of_tag (n : nat) : t :=
    match n with
    | 0 => INT | 2 => NUMERIC | 3 => BOOL | 4 => STRING
    | 5 => BYTES | 9 => JSON | _ => ENTITY
    end%nat.
#[global] Instance countable : Countable t.
  Proof. refine (inj_countable' tag of_tag _); by intros []. Defined.
End Datatypes.

Module ValueTypes.
Inductive t := SINGLE | SET | LIST | MAP.
#[global] Instance eq_dec : EqDecision t.
  Proof. solve_decision. Defined.
Definition tag (d : t) : nat :=
    match d with SINGLE => 0 | SET => 1 | LIST => 2 | MAP => 3 end%nat.
Definition of_tag (n : nat) : t :=
    match n with 0 => SINGLE | 1 => SET | 2 => LIST | _ => MAP end%nat.
#[global] Instance countable : Countable t.
  Proof. refine (inj_countable' tag of_tag _); by intros []. Defined.
  (** [valuetype in [ValueTypes.LIST, ValueTypes.SET]] *)
Definition multivalued (v : t) : bool :=
    match v with SET | LIST => true | _ => false end.
End ValueTypes.

Module Operation.
Inductive t := SET | ADD | GET | PEEK | VISIT | CHANGE | DEL | WALK.
#[global] Instance eq_dec : EqDecision t.
  Proof. solve_decision. Defined.
End Operation.

Module Committed.
Inductive t := CREATED | UPDATED | DELETED | SAVED.
#[global] Instance eq_dec : EqDecision t.
  Proof. solve_decision. Defined.
Definition tag (d : t) : nat :=
    match d with CREATED => 0 | UPDATED => 1 | DELETED => 2 | SAVED => 3 end%nat.
Definition of_tag (n : nat) : t :=
    match n with 0 => CREATED | 1 => UPDATED | 2 => DELETED | _ => SAVED end%nat.
#[global] Instance countable : Countable t.
  Proof. refine (inj_countable' tag of_tag _); by intros []. Defined.
End Committed.

(** A member of a [MetaProps] enumeration: one field descriptor.  The
    member's value is the tuple (datatype, valuetype, order, id). *)
Module MetaProps.
Record t := Member {
    enum_class : string;
    name : string;
    datatype : Datatypes.t;
    valuetype : ValueTypes.t;
    order_value : Z;
    id_value : Z
  }.
#[global] Instance eq_dec : EqDecision t.
  Proof. solve_decision. Defined.
  (** The identity of a member: its enumeration and its name. *)
Definition key (m : t) : string * string := (enum_class m, name m).
Definition to_tuple (m : t) :=
    (enum_class m, name m, datatype m, valuetype m, order_value m, id_value m).
Definition of_tuple '(c, n, d, v, o, i) := Member c n d v o i.
#[global] Instance countable : Countable t.
  Proof. refine (inj_countable' to_tuple of_tuple _); by intros []. Defined.
End MetaProps.

(** A member of a [FieldProps] enumeration: one meta-type.  The member's
    value is the tuple (unit name, fields enumeration, id). *)
Module FieldProps.
Record t := Member {
    enum_class : string;
    name : string;
    unit_name : string;
    fields_enum : list MetaProps.t;
    id_value : Z
  }.
Definition type_name (m : t) : string := name m.
  (** The identity of a member: its enumeration and its name. *)
Definition key (m : t) : string * string := (enum_class m, name m).
#[global] Instance eq_dec : EqDecision t.
  Proof. solve_decision. Defined.
Definition to_tuple (m : t) := (enum_class m, name m, unit_name m, fields_enum m, id_value m).
Definition of_tuple '(c, n, u, f, i) := Member c n u f i.
#[global] Instance countable : Countable t.
  Proof. refine (inj_countable' to_tuple of_tuple _); by intros []. Defined.
End FieldProps.

(* ===================================================================== *)
(** ** Python values *)
(* ===================================================================== *)

(** The global id [unit:entity_id:meta_type_name]. *)
Abbreviation GlobalId := (string * Z * string)%type (only parsing).

(** The qualified field name [unit:type:field]. *)
Abbreviation FieldName := (string * string * string)%type (only parsing).

Module Entity.
  (** [Entity.__init__] also sets [self.committed = False]; that
      attribute is the [committed] component of the entity's slot. *)
Record t := Obj {
    unit : string;
    entity_id : Z;
    meta_type : FieldProps.t
  }.
#[global] Instance eq_dec : EqDecision t.
  Proof. solve_decision. Defined.
Definition to_tuple (e : t) := (unit e, entity_id e, meta_type e).
Definition of_tuple '(u, i, m) := Obj u i m.
#[global] Instance countable : Countable t.
  Proof. refine (inj_countable' to_tuple of_tuple _); by intros []. Defined.

  (** [Entity._ref] on an entity's own parts, hence [Entity.global_id]. *)
Definition global_id (e : t) : GlobalId :=
    (unit e, entity_id e, FieldProps.name (meta_type e)).
End Entity.

Inductive Atom :=
| ANone
| AInt (z : Z)
| AStr (s : string)
| AGid (g : GlobalId)
| AEntity (e : Entity.t)
| AType (m : FieldProps.t)
| AField (f : MetaProps.t)
| ACommitted (c : Committed.t).

#[global] Instance Atom_eq_dec : EqDecision Atom.
Proof. solve_decision. Defined.

Definition Atom_to_sum (a : Atom) :
  unit + Z + string + GlobalId + Entity.t + FieldProps.t + MetaProps.t + Committed.t :=
  match a with
  | ANone => inl (inl (inl (inl (inl (inl (inl tt))))))
  | AInt z => inl (inl (inl (inl (inl (inl (inr z))))))
  | AStr s => inl (inl (inl (inl (inl (inr s)))))
  | AGid g => inl (inl (inl (inl (inr g))))
  | AEntity e => inl (inl (inl (inr e)))
  | AType m => inl (inl (inr m))
  | AField f => inl (inr f)
  | ACommitted c => inr c
  end.

Definition Atom_of_sum
  (s : unit + Z + string + GlobalId + Entity.t + FieldProps.t + MetaProps.t + Committed.t) : Atom :=
  match s with
  | inl (inl (inl (inl (inl (inl (inl _)))))) => ANone
  | inl (inl (inl (inl (inl (inl (inr z)))))) => AInt z
  | inl (inl (inl (inl (inl (inr s))))) => AStr s
  | inl (inl (inl (inl (inr g)))) => AGid g
  | inl (inl (inl (inr e))) => AEntity e
  | inl (inl (inr m)) => AType m
  | inl (inr f) => AField f
  | inr c => ACommitted c
  end.

#[global] Instance Atom_countable : Countable Atom.
Proof. refine (inj_countable' Atom_to_sum Atom_of_sum _); by intros []. Defined.

Inductive Value :=
| VAtom (a : Atom)
| VList (l : list Atom)
| VSet (s : gset Atom)
| VDict (d : gmap Atom Atom).

#[global] Instance Value_eq_dec : EqDecision Value.
Proof. solve_decision. Defined.

Definition VNone : Value := VAtom ANone.
Definition VFalse : Value := VAtom (AInt 0).

(** Truth value of an object, as tested by [if x:]. *)
Definition truthy (v : Value) : bool :=
  match v with
  | VAtom ANone => false
  | VAtom (AInt z) => negb (Z.eqb z 0)
  | VAtom (AStr s) => negb (String.eqb s "")
  | VAtom _ => true
  | VList l => match l with [] => false | _ => true end
  | VSet s => negb (bool_decide (s = ∅))
  | VDict d => negb (bool_decide (d = ∅))
  end.

(** [a != b] *)
Definition py_ne (a b : Value) : bool := negb (bool_decide (a = b)).

(* ===================================================================== *)
(** ** Insertion-ordered dictionaries *)
(* ===================================================================== *)

Section Dict.
Context {K V : Type} `{EqDecision K}.

Fixpoint dict_get (k : K) (d : list (K * V)) : option V :=
    match d with
    | [] => None
    | (k', v) :: d' => if decide (k = k') then Some v else dict_get k d'
    end.

  (** [d[k] = v]: an existing key keeps its position, a new one goes last. *)
Fixpoint dict_set (k : K) (v : V) (d : list (K * V)) : list (K * V) :=
    match d with
    | [] => [(k, v)]
    | (k', v') :: d' =>
        if decide (k = k') then (k, v) :: d' else (k', v') :: dict_set k v d'
    end.

Definition dict_mem (k : K) (d : list (K * V)) : bool :=
    match dict_get k d with Some _ => true | None => false end.
End Dict.


(* ===================================================================== *)
(** ** Exceptions and the state monad of the embedding *)
(* ===================================================================== *)

Inductive Exn :=
| AttributeError
| KeyError
| IndexError
| TypeError
| NameError
| PyException      (* [raise Exception(...)] *)
| DatabaseError    (* raised by the backend's [execute] *)
| Unmodelled.      (* behaviour outside the embedded fragment *)

Inductive Res (A : Type) :=
| Ok (a : A)
| Raise (e : Exn).
Arguments Ok {A} a.
Arguments Raise {A} e.

Definition M (S A : Type) : Type := S → Res A * S.

Definition ret {S A} (a : A) : M S A := λ s, (Ok a, s).
Definition raise {S A} (e : Exn) : M S A := λ s, (Raise e, s).
Definition bind {S A B} (m : M S A) (k : A → M S B) : M S B :=
  λ s, match m s with
       | (Ok a, s') => k a s'
       | (Raise e, s') => (Raise e, s')
       end.
Definition get {S} : M S S := λ s, (Ok s, s).
Definition modify {S} (f : S → S) : M S () := λ s, (Ok tt, f s).

(** [try: body finally: fin] *)
Definition try_finally {S A} (body : M S A) (fin : M S ()) : M S A :=
  λ s, match body s with
       | (r, s1) =>
           match fin s1 with
           | (Ok _, s2) => (r, s2)
           | (Raise e, s2) => (Raise e, s2)
           end
       end.

(** A computation that only returns or raises. *)
Definition of_res {S A} (r : Res A) : M S A := λ s, (r, s).

(** [d[k]] on an optional lookup result. *)
Definition getitem {S A} (o : option A) : M S A :=
  match o with Some a => ret a | None => raise KeyError end.

Declare Scope py_scope.
Delimit Scope py_scope with py.
Notation "x <- m ;; k" := (bind m (λ x, k))
  (at level 100, m at next level, right associativity) : py_scope.
Notation "m ;;; k" := (bind m (λ _, k))
  (at level 100, right associativity) : py_scope.
Open Scope py_scope.

(** [for x in l: body x] *)
Fixpoint for_each {S A} (l : list A) (body : A → M S ()) : M S () :=
  match l with
  | [] => ret tt
  | x :: l' => body x ;;; for_each l' body
  end.

(** [for x in l: a = body(a, x)] *)
Fixpoint foldM {S A B} (body : A → B → M S A) (a : A) (l : list B) : M S A :=
  match l with
  | [] => ret a
  | x :: l' => a' <- body a x ;; foldM body a' l'
  end.

Definition is_ok {A} (r : Res A) : bool :=
  match r with Ok _ => true | Raise _ => false end.

(* ===================================================================== *)
(** ** dust/entity.py: the foundational schema *)
(* ===================================================================== *)

Definition UNIT_ENTITY : string := "entity".
Definition UNIT_ENTITY_META : string := "entity_meta".

Module UnitMeta.
Definition name := MetaProps.Member "UnitMeta" "name" Datatypes.STRING ValueTypes.SINGLE 1 100.
Definition id_cnt := MetaProps.Member "UnitMeta" "id_cnt" Datatypes.INT ValueTypes.SINGLE 2 101.
Definition meta_types := MetaProps.Member "UnitMeta" "meta_types" Datatypes.ENTITY ValueTypes.SET 3 102.
Definition members := [name; id_cnt; meta_types].
End UnitMeta.

Module TypeMeta.
Definition name := MetaProps.Member "TypeMeta" "name" Datatypes.STRING ValueTypes.SINGLE 1 200.
Definition fields := MetaProps.Member "TypeMeta" "fields" Datatypes.ENTITY ValueTypes.SET 2 201.
Definition members := [name; fields].
End TypeMeta.

Module MetaField.
Definition name := MetaProps.Member "MetaField" "name" Datatypes.STRING ValueTypes.SINGLE 1 300.
Definition global_name := MetaProps.Member "MetaField" "global_name" Datatypes.STRING ValueTypes.SINGLE 2 301.
Definition order := MetaProps.Member "MetaField" "order" Datatypes.INT ValueTypes.SINGLE 3 302.
Definition members := [name; global_name; order].
End MetaField.

Module EntityBaseMeta.
Definition unit := MetaProps.Member "EntityBaseMeta" "unit" Datatypes.ENTITY ValueTypes.SINGLE 1 400.
Definition meta_type := MetaProps.Member "EntityBaseMeta" "meta_type" Datatypes.ENTITY ValueTypes.SINGLE 2 401.
Definition entity_id := MetaProps.Member "EntityBaseMeta" "entity_id" Datatypes.INT ValueTypes.SINGLE 3 402.
Definition committed := MetaProps.Member "EntityBaseMeta" "committed" Datatypes.BOOL ValueTypes.SINGLE 4 403.
Definition members := [unit; meta_type; entity_id; committed].
End EntityBaseMeta.

Module EntityTypes.
Definition type_meta := FieldProps.Member "EntityTypes" "type_meta" UNIT_ENTITY_META TypeMeta.members 1.
Definition _entity_base := FieldProps.Member "EntityTypes" "_entity_base" UNIT_ENTITY_META EntityBaseMeta.members 2.
Definition unit := FieldProps.Member "EntityTypes" "unit" UNIT_ENTITY_META UnitMeta.members 3.
Definition meta_field := FieldProps.Member "EntityTypes" "meta_field" UNIT_ENTITY_META MetaField.members 4.
Definition members := [type_meta; _entity_base; unit; meta_field].
End EntityTypes.

(* ===================================================================== *)
(** ** dust/entity.py: the process-wide tables *)
(* ===================================================================== *)

(** [enum_map[global_name] = {"datatype": .., "valuetype": .., "id": ..,
    "order": .., "_enum": field}] *)
Record FieldConfig := mkFieldConfig {
  cfg_datatype : Datatypes.t;
  cfg_valuetype : ValueTypes.t;
  cfg_id : Z;
  cfg_order : Z;
  cfg_enum : MetaProps.t
}.

(** One call of [dust.messages.create_message(message_type, params,
    entities)]: the operation, the touched path and the affected ids. *)
Record Message := mkMessage {
  msg_op : Operation.t;
  msg_path : list Atom;
  msg_entities : list Atom
}.

(** [_entity_map[global_id] = (e_map, e)], with [e.committed]. *)
Record Slot := mkSlot {
  e_map : list (FieldName * Value);
  entity : Entity.t;
  committed : Value
}.

Record World := mkWorld {
  _entity_map : gmap GlobalId Slot;
  enum_units : gmap string Entity.t;           (* unit name -> unit entity *)
  enum_types : gmap (string * string) Entity.t;  (* meta-type member -> its entity *)
  enum_type_gids : gmap GlobalId FieldProps.t; (* global id of a meta-type entity -> member *)
  enum_fields : gmap (string * string) FieldName;  (* field member -> qualified name *)
  enum_configs : gmap FieldName FieldConfig;   (* qualified name -> configuration *)
  _messages_create_message : bool;             (* is the bus handler installed *)
  _UNIT_MESSAGE : string;                      (* dust.messages.UNIT_MESSAGES *)
  outbox : list Message                        (* messages handed to the bus *)
}.

Definition with_entity_map (f : gmap GlobalId Slot → gmap GlobalId Slot) (w : World) : World :=
  mkWorld (f (_entity_map w)) (enum_units w) (enum_types w) (enum_type_gids w)
          (enum_fields w) (enum_configs w) (_messages_create_message w)
          (_UNIT_MESSAGE w) (outbox w).

Definition with_outbox (f : list Message → list Message) (w : World) : World :=
  mkWorld (_entity_map w) (enum_units w) (enum_types w) (enum_type_gids w)
          (enum_fields w) (enum_configs w) (_messages_create_message w)
          (_UNIT_MESSAGE w) (f (outbox w)).

Definition with_e_map (f : list (FieldName * Value) → list (FieldName * Value)) (s : Slot) : Slot :=
  mkSlot (f (e_map s)) (entity s) (committed s).

Definition with_committed (c : Value) (s : Slot) : Slot :=
  mkSlot (e_map s) (entity s) c.

(* ===================================================================== *)
(** ** dust/entity.py: class Store *)
(* ===================================================================== *)

Module Store.

  (** [Store._global_field_name] on three strings. *)
Definition _global_field_name (unit meta_type field_name : string) : FieldName :=
    (unit, meta_type, field_name).

  (** [Store._get_base_fields]: the qualified names of the members of
      [EntityBaseMeta], in definition order. *)
Definition unit_field : FieldName :=
    _global_field_name UNIT_ENTITY_META (FieldProps.name EntityTypes._entity_base) "unit".
Definition meta_type_field : FieldName :=
    _global_field_name UNIT_ENTITY_META (FieldProps.name EntityTypes._entity_base) "meta_type".
Definition entity_id_field : FieldName :=
    _global_field_name UNIT_ENTITY_META (FieldProps.name EntityTypes._entity_base) "entity_id".
Definition committed_field : FieldName :=
    _global_field_name UNIT_ENTITY_META (FieldProps.name EntityTypes._entity_base) "committed".

  (** [entities[gid]] *)
Definition slot_of (gid : GlobalId) : M World Slot :=
    w <- get ;; getitem (_entity_map w !! gid).

Definition update_slot (gid : GlobalId) (f : Slot → Slot) : M World () :=
    modify (with_entity_map (λ m, match m !! gid with
                                  | Some s => <[gid := f s]> m
                                  | None => m
                                  end)).

  (** [e_map[name] = v] on the dictionary of the entity stored at [gid]. *)
Definition set_item (gid : GlobalId) (name : FieldName) (v : Value) : M World () :=
    update_slot gid (with_e_map (dict_set name v)).

  (** [Store._add_entity_to_store], given the unit and meta-type objects
      the new entity refers to. *)
Definition _add_entity_to_store (e unit meta_type : Entity.t) : M World () :=
    modify (with_entity_map
      <[Entity.global_id e :=
          mkSlot [ (unit_field, VAtom (AGid (Entity.global_id unit)));
                   (entity_id_field, VAtom (AInt (Entity.entity_id e)));
                   (meta_type_field, VAtom (AGid (Entity.global_id meta_type)));
                   (committed_field, VFalse) ]
                 e VFalse ]>).

  (** [Store._create_entity(unit, entity_id, meta_type)] as [Store.access]
      calls it: with a unit name and a [FieldProps] member.  An empty unit
      name is falsy: the object is built from the bare string, is not
      stored, and its [global_id()] fails on [meta_type.name]. *)
Definition _create_entity (unit : string) (entity_id : Z) (meta_type : FieldProps.t)
    : M World Entity.t :=
    w <- get ;;
    if String.eqb unit "" then
      _ <- getitem (enum_types w !! FieldProps.key meta_type) ;;
      raise AttributeError
    else
      u <- getitem (enum_units w !! unit) ;;
      mt <- getitem (enum_types w !! FieldProps.key meta_type) ;;
      let e := Entity.Obj unit entity_id meta_type in
      _add_entity_to_store e u mt ;;;
      ret e.

  (** [Entity._resolve_global_id]: [None] stands for the triple
      [(None, None, None)]. *)
Definition _resolve_global_id (value : Value)
    : M World (option (Entity.t * Z * FieldProps.t)) :=
    match value with
    | VAtom (AGid (u, i, t)) =>
        w <- get ;;
        match enum_units w !! u with
        | Some unit =>
            if decide (Entity.meta_type unit = EntityTypes.unit) then
              match _entity_map w !! (u, i, t) with
              | Some sl => ret (Some (unit, i, Entity.meta_type (entity sl)))
              | None => raise AttributeError     (* [entity] is [None] *)
              end
            else ret None
        | None => ret None
        end
    | _ => ret None
    end.

  (** [enum_map[key]] for a key used as a field: the qualified name of a
      registered field member.  Other registered keys map to objects that
      are no qualified names ([None] here); anything else is a
      [KeyError]. *)
Definition known_entity (w : World) (e : Entity.t) : bool :=
    existsb (λ p, bool_decide (p.2 = e)) (map_to_list (enum_units w))
    || existsb (λ p, bool_decide (p.2 = e)) (map_to_list (enum_types w)).

Definition known_key (w : World) (key : Atom) : bool :=
    match key with
    | AStr s => bool_decide (is_Some (enum_units w !! s))
    | AType t => bool_decide (is_Some (enum_types w !! FieldProps.key t))
    | AGid g => bool_decide (is_Some (enum_type_gids w !! g))
    | AEntity e => known_entity w e
    | _ => false
    end.

Definition enum_field_name (key : Atom) : M World (option FieldName) :=
    w <- get ;;
    match key with
    | AField f => g <- getitem (enum_fields w !! MetaProps.key f) ;; ret (Some g)
    | _ => if known_key w key then ret None else raise KeyError
    end.

  (** [obj[key]] on a list, with Python's negative indices. *)
Definition list_getitem (l : list Atom) (key : Z) : M World Value :=
    let n := Z.of_nat (length l) in
    let i := if Z.ltb key 0 then key + n else key in
    if Z.ltb i 0 then raise IndexError
    else match l !! Z.to_nat i with
         | Some a => ret (VAtom a)
         | None => raise IndexError
         end.

  (** [Store._access_data_get_value] *)
Definition _access_data_get_value (obj : Value) (key : Atom) (default_value : Value)
    : M World Value :=
    match obj with
    | VAtom (AEntity o) =>
        global_name <- enum_field_name key ;;
        sl <- slot_of (Entity.global_id o) ;;
        match global_name with
        | Some g =>
            match dict_get g (e_map sl) with
            | Some v =>
                r <- _resolve_global_id v ;;
                match r, v with
                | Some (_, entity_id, _), VAtom (AGid gid) =>
                    if truthy (VAtom (AInt entity_id))
                    then sl' <- slot_of gid ;; ret (VAtom (AEntity (entity sl')))
                    else ret v
                | _, _ => ret v
                end
            | None => ret default_value
            end
        | None => ret default_value
        end
    | VList l =>
        match key with
        | AInt k => if Z.ltb k (Z.of_nat (length l)) then list_getitem l k
                    else ret default_value
        | _ => ret default_value
        end
    | VDict d =>
        match d !! key with
        | Some a => ret (VAtom a)
        | None => ret default_value
        end
    | VSet _ => raise PyException
    | VAtom _ => ret default_value
    end.

  (** [Store._access_data_create_container]: the [SET] branch stores an
      empty set and falls off the end; the [LIST] branch stores an empty
      list and then reads the undefined name [global_name]. *)
Definition _access_data_create_container (obj : Value) (field key : Atom)
    : M World Value :=
    match obj with
    | VAtom (AEntity o) =>
        w <- get ;;
        match field with
        | AField f =>
            g <- getitem (enum_fields w !! MetaProps.key f) ;;
            field_config <- getitem (enum_configs w !! g) ;;
            _ <- slot_of (Entity.global_id o) ;;
            match cfg_valuetype field_config with
            | ValueTypes.SET =>
                set_item (Entity.global_id o) g (VSet ∅) ;;; ret VNone
            | ValueTypes.LIST =>
                set_item (Entity.global_id o) g (VList []) ;;; raise NameError
            | _ => ret VNone
            end
        | _ =>
            (* the looked-up object is no qualified name: indexing it
               with ["valuetype"] fails *)
            if known_key w field then raise TypeError else raise KeyError
        end
    | _ => ret VNone
    end.

  (** [Store._set_uncommitted] on the entity stored at [gid]. *)
Definition _set_uncommitted (gid : GlobalId) : M World bool :=
    update_slot gid (with_committed VFalse) ;;;
    set_item gid committed_field VFalse ;;;
    ret true.

  (** [x in container] *)
Definition py_in (x : Atom) (container : Value) : M World bool :=
    match container with
    | VList l => ret (bool_decide (x ∈ l))
    | VSet s => ret (bool_decide (x ∈ s))
    | VDict d => ret (bool_decide (is_Some (d !! x)))
    | VAtom (AStr _) | VAtom (AGid _) =>
        match x with
        | AStr _ | AGid _ => raise Unmodelled    (* substring test *)
        | _ => raise TypeError
        end
    | VAtom _ => raise TypeError                 (* not iterable *)
    end.

  (** [value.global_id in container]: the attribute is not called, so the
      left operand is a bound method, which no container of the store
      holds. *)
Definition method_in (container : Value) : M World bool :=
    match container with
    | VList _ | VSet _ | VDict _ => ret false
    | VAtom _ => raise TypeError
    end.

  (** [e_map.setdefault(name, []).append(x)] *)
Definition setdefault_append (gid : GlobalId) (name : FieldName) (x : Atom) : M World () :=
    sl <- slot_of gid ;;
    match dict_get name (e_map sl) with
    | None => set_item gid name (VList [x])
    | Some (VList l) => set_item gid name (VList (l ++ [x]))
    | Some _ => raise AttributeError
    end.

  (** [e_map.setdefault(name, set()).add(x)] *)
Definition setdefault_add (gid : GlobalId) (name : FieldName) (x : Atom) : M World () :=
    sl <- slot_of gid ;;
    match dict_get name (e_map sl) with
    | None => set_item gid name (VSet {[ x ]})
    | Some (VSet s) => set_item gid name (VSet (s ∪ {[ x ]}))
    | Some _ => raise AttributeError
    end.

  (** [e_map.setdefault(name, set()).update(l)] *)
Definition setdefault_update (gid : GlobalId) (name : FieldName) (l : list Atom) : M World () :=
    sl <- slot_of gid ;;
    match dict_get name (e_map sl) with
    | None => set_item gid name (VSet (list_to_set l))
    | Some (VSet s) => set_item gid name (VSet (s ∪ list_to_set l))
    | Some (VDict _) => raise Unmodelled
    | Some _ => raise AttributeError
    end.

  (** [a += b] *)
Definition py_iadd (a b : Value) : M World Value :=
    match a, b with
    | VAtom (AInt x), VAtom (AInt y) => ret (VAtom (AInt (x + y)))
    | VAtom (AStr x), VAtom (AStr y) => ret (VAtom (AStr (x ++ y)))
    | VList x, VList y => ret (VList (x ++ y))
    | VList _, _ => raise Unmodelled
    | VAtom (AGid _), _ | _, VAtom (AGid _) => raise Unmodelled
    | _, _ => raise TypeError
    end.

  (** [all_included] of the bulk branch: the loop over [value] that stops
      at the first element missing from [old_values]. *)
Fixpoint all_in (old_values : Value) (value : list Atom) : M World bool :=
    match value with
    | [] => ret true
    | v :: rest =>
        b <- py_in v old_values ;;
        if b then all_in old_values rest else ret false
    end.

  (** [Store._access_data_set_value] *)
Definition _access_data_set_value (obj : Value) (field : Atom) (value : Value)
      (operation : Operation.t) : M World (bool * Value) :=
    match obj with
    | VAtom (AEntity o) =>
        let gid := Entity.global_id o in
        sl <- slot_of gid ;;
        w <- get ;;
        match field with
        | AField f =>
            g <- getitem (enum_fields w !! MetaProps.key f) ;;
            _ <- getitem (enum_configs w !! g) ;;
            match MetaProps.datatype f, value with
            | Datatypes.ENTITY, VAtom (AEntity ve) =>
                match MetaProps.valuetype f with
                | ValueTypes.LIST =>
                    changed <- _set_uncommitted gid ;;
                    setdefault_append gid g (AGid (Entity.global_id ve)) ;;;
                    ret (changed, value)
                | ValueTypes.SET =>
                    present <- match dict_get g (e_map sl) with
                               | None => ret false
                               | Some old => method_in old
                               end ;;
                    if negb present then
                      setdefault_add gid g (AGid (Entity.global_id ve)) ;;;
                      changed <- _set_uncommitted gid ;;
                      ret (changed, value)
                    else ret (false, value)
                | _ =>
                    if py_ne (default VNone (dict_get g (e_map sl))) value then
                      set_item gid g (VAtom (AGid (Entity.global_id ve))) ;;;
                      changed <- _set_uncommitted gid ;;
                      ret (changed, value)
                    else ret (false, value)
                end
            | _, _ =>
                match MetaProps.valuetype f, value with
                | ValueTypes.LIST, VAtom a =>
                    changed <- _set_uncommitted gid ;;
                    setdefault_append gid g a ;;;
                    ret (changed, value)
                | ValueTypes.LIST, (VSet _ | VDict _) =>
                    _ <- _set_uncommitted gid ;;
                    raise Unmodelled             (* a container inside a list *)
                | ValueTypes.SET, VList l =>
                    all_included <- match dict_get g (e_map sl) with
                                    | None => ret false
                                    | Some old_values => all_in old_values l
                                    end ;;
                    if negb all_included then
                      setdefault_update gid g l ;;;
                      changed <- _set_uncommitted gid ;;
                      ret (changed, value)
                    else ret (false, value)
                | ValueTypes.SET, VAtom a =>
                    present <- match dict_get g (e_map sl) with
                               | None => ret false
                               | Some old => py_in a old
                               end ;;
                    if negb present then
                      setdefault_add gid g a ;;;
                      changed <- _set_uncommitted gid ;;
                      ret (changed, value)
                    else ret (false, value)
                | ValueTypes.SET, VDict _ =>
                    match dict_get g (e_map sl) with
                    | None | Some (VSet _) => raise TypeError   (* unhashable *)
                    | Some _ => raise Unmodelled
                    end
                | _, _ =>
                    match operation with
                    | Operation.CHANGE =>
                        old <- getitem (dict_get g (e_map sl)) ;;
                        new <- py_iadd old value ;;
                        set_item gid g new ;;;
                        changed <- _set_uncommitted gid ;;
                        ret (changed, new)
                    | _ =>
                        if py_ne (default VNone (dict_get g (e_map sl))) value then
                          set_item gid g value ;;;
                          changed <- _set_uncommitted gid ;;
                          ret (changed, value)
                        else ret (false, value)
                    end
                end
            end
        | _ =>
            (* [field.datatype] on an object that is no field member *)
            if known_key w field then raise AttributeError else raise KeyError
        end
    | _ => ret (false, VNone)
    end.

  (** [unit_name.endswith("_meta")] *)
Definition ends_with_meta (s : string) : bool :=
    let n := String.length s in
    (5 <=? n)%nat && String.eqb (String.substring (n - 5) 5 s) "_meta".

  (** The path of a message: enumeration members by name, entities by
      global id, anything else dropped. *)
Definition message_path (path : list Atom) : list Atom :=
    omap (λ a, match a with
               | AField f => Some (AStr (MetaProps.name f))
               | AType t => Some (AStr (FieldProps.name t))
               | AEntity e => Some (AGid (Entity.global_id e))
               | _ => None
               end) path.

Definition notifying (operation : Operation.t) : bool :=
    match operation with
    | Operation.ADD | Operation.SET | Operation.DEL | Operation.CHANGE => true
    | _ => false
    end.

  (** [_create_message(MessageType.ENTITY_ACCESS, {"path": path, "op":
      operation}, entities)].  [enum_map[unit]] is the name the unit was
      found under, the first part of the global id. *)
Definition _create_message (operation : Operation.t) (path : list Atom)
      (entities : list Atom) : M World () :=
    w <- get ;;
    if _messages_create_message w && notifying operation then
      reserved <- match entities with
                  | [] | ANone :: _ => ret false
                  | e0 :: _ =>
                      r <- _resolve_global_id (VAtom e0) ;;
                      match r, e0 with
                      | Some _, AGid (unit_name, _, _) =>
                          ret (bool_decide (unit_name = _UNIT_MESSAGE w)
                               || bool_decide (unit_name = UNIT_ENTITY)
                               || ends_with_meta unit_name)
                      | _, _ => raise KeyError       (* [enum_map[None]] *)
                      end
                  end ;;
      if reserved then ret tt
      else modify (with_outbox (λ o, (o ++ [mkMessage operation (message_path path) entities])%list))
    else ret tt.

  (** The loop variables of [Store.access]. *)
Record Cursor := mkCursor {
    last_obj : Value;
    parent : Value;
    last_global_id : Atom;
    last_entity_path : list Atom
  }.

  (** The body of [for last_idx in range(path_length)], iterated over the
      keys that are left; [prev] is [remaining_path[last_idx - 1]]. *)
Fixpoint walk (path : list Atom) (prev : Atom) (last_idx : nat)
      (keys : list Atom) (c : Cursor) : M World Cursor :=
    match keys with
    | [] => ret c
    | key :: rest =>
        c1 <- match last_obj c with
              | VAtom ANone =>
                  lo <- _access_data_create_container (parent c) prev key ;;
                  ret (mkCursor lo (parent c) (last_global_id c) (last_entity_path c))
              | VAtom (AEntity e) =>
                  ret (mkCursor (last_obj c) (parent c)
                                (AGid (Entity.global_id e)) (drop last_idx path))
              | _ => ret c
              end ;;
        par <- match last_obj c1 with
               | VAtom (AGid g) =>
                   r <- _resolve_global_id (last_obj c1) ;;
                   match r with
                   | Some (_, entity_id, _) =>
                       if truthy (VAtom (AInt entity_id))
                       then sl <- slot_of g ;; ret (VAtom (AEntity (entity sl)))
                       else ret (last_obj c1)
                   | None => ret (last_obj c1)
                   end
               | v => ret v
               end ;;
        lo <- _access_data_get_value par key VNone ;;
        walk path key (S last_idx) rest
             (mkCursor lo par (last_global_id c1) (last_entity_path c1))
    end.

  (** Where the first segments of a path lead. *)
Inductive Located :=
  | NotLocated                                         (* [local_ref = None], [idx = 0] *)
  | Found (local_ref : GlobalId)                       (* [path[0]] is a known id, [idx = 1] *)
  | Triple (unit : string) (entity_id : Z) (meta_type : FieldProps.t).  (* [idx = 3] *)

  (** [Entity._ref(path[0], entity_id, path[2])] in [Store.access],
      together with what follows for a first segment that is no unit
      name: the concatenation either fails at once, or yields a string
      that is no key of the entity table, and [_create_entity] fails on
      it. *)
Definition _ref (p0 : Atom) (entity_id : Value) (meta_type : FieldProps.t)
    : M World Located :=
    match p0 with
    | AStr unit =>
        match entity_id with
        | VAtom (AInt i) => ret (Triple unit i meta_type)
        | _ => raise Unmodelled
        end
    | AGid g =>
        w <- get ;;
        _ <- getitem (enum_type_gids w !! g) ;;
        _ <- getitem (enum_types w !! FieldProps.key meta_type) ;;
        raise TypeError
    | _ => raise TypeError
    end.

Definition locate (incr : Atom → M World Value) (path : list Atom) : M World Located :=
    match path with
    | [] => ret NotLocated
    | p0 :: rest =>
        r <- _resolve_global_id (VAtom p0) ;;
        match r, p0 with
        | Some _, AGid g => ret (Found g)
        | _, _ =>
            match rest with
            | ANone :: AType t :: _ => entity_id <- incr p0 ;; _ref p0 entity_id t
            | AInt i :: AType t :: _ => _ref p0 (VAtom (AInt i)) t
            | _ => ret NotLocated
            end
        end
    end.

Definition idx_of (l : Located) : nat :=
    match l with NotLocated => 0 | Found _ => 1 | Triple _ _ _ => 3 end%nat.

Definition all_entities (w : World) : Value :=
    VList ((λ p, AEntity (entity p.2)) <$> map_to_list (_entity_map w)).

  (** [Store.access], with the unit-counter increment as a parameter. *)
Definition access_body (incr : Atom → M World Value) (operation : Operation.t)
      (value : Value) (path : list Atom) : M World Value :=
    loc <- locate incr path ;;
    let remaining_path := drop (idx_of loc) path in
    last_obj0 <- match loc with
                 | NotLocated => ret VNone
                 | Found local_ref =>
                     sl <- slot_of local_ref ;; ret (VAtom (AEntity (entity sl)))
                 | Triple unit entity_id meta_type =>
                     w <- get ;;
                     match _entity_map w !! (unit, entity_id, FieldProps.name meta_type) with
                     | Some sl => ret (VAtom (AEntity (entity sl)))
                     | None => e <- _create_entity unit entity_id meta_type ;;
                               ret (VAtom (AEntity e))
                     end
                 end ;;
    let last_global_id0 :=
      match last_obj0 with
      | VAtom (AEntity e) => AGid (Entity.global_id e)
      | _ => ANone
      end in
    w <- get ;;
    match last_obj0, remaining_path with
    | VAtom (AEntity _), [] =>
        (if _messages_create_message w
         then _create_message operation [] [last_global_id0] else ret tt) ;;;
        ret last_obj0
    | _, _ =>
        let c0 := match last_obj0 with
                  | VAtom ANone => mkCursor (all_entities w) (all_entities w) last_global_id0 []
                  | _ => mkCursor last_obj0 VNone last_global_id0 []
                  end in
        c <- walk path (List.last remaining_path ANone) 0 remaining_path c0 ;;
        match operation with
        | Operation.SET | Operation.ADD | Operation.CHANGE =>
            match remaining_path with
            | [] => raise NameError                    (* [last_idx] is unbound *)
            | _ =>
                r <- _access_data_set_value (parent c) (List.last remaining_path ANone)
                                            value operation ;;
                (if r.1 && _messages_create_message w
                 then _create_message operation (last_entity_path c) [last_global_id c]
                 else ret tt) ;;;
                ret r.2
            end
        | Operation.GET | Operation.VISIT => ret (last_obj c)
        | _ => ret VNone
        end
    end.

  (** [Entity.access(self, operation, value, *path)] over a given
      [Store.access]. *)
Definition entity_access_with (acc : Operation.t → Value → list Atom → M World Value)
      (self : Entity.t) (operation : Operation.t) (value : Value) (path : list Atom)
    : M World Value :=
    acc operation value
        (AStr (Entity.unit self) :: AInt (Entity.entity_id self)
           :: AType (Entity.meta_type self) :: path).

  (** [Store.increment_unit_counter]: [enum_map[unit_name]] must be an
      object with an [access] method. *)
Definition increment_unit_counter_with
      (acc : Operation.t → Value → list Atom → M World Value) (unit_name : Atom)
    : M World Value :=
    w <- get ;;
    match unit_name with
    | AStr s =>
        unit <- getitem (enum_units w !! s) ;;
        entity_access_with acc unit Operation.CHANGE (VAtom (AInt 1)) [AField UnitMeta.id_cnt]
    | AType t =>
        unit <- getitem (enum_types w !! FieldProps.key t) ;;
        entity_access_with acc unit Operation.CHANGE (VAtom (AInt 1)) [AField UnitMeta.id_cnt]
    | _ => if known_key w unit_name then raise AttributeError else raise KeyError
    end.

  (** The call [Store.access] makes from within the counter increment
      carries an explicit entity id, so it never increments in turn. *)
Definition access_explicit := access_body (λ _, raise Unmodelled).

Definition increment_unit_counter := increment_unit_counter_with access_explicit.

  (** [Store.access(operation, value, *path)] *)
Definition access := access_body increment_unit_counter.

  (** [Entity.access] *)
Definition entity_access := entity_access_with access.

Definition with_enum_units (f : gmap string Entity.t → gmap string Entity.t) (w : World) :=
    mkWorld (_entity_map w) (f (enum_units w)) (enum_types w) (enum_type_gids w)
            (enum_fields w) (enum_configs w) (_messages_create_message w)
            (_UNIT_MESSAGE w) (outbox w).

Definition with_enum_types (f : gmap (string * string) Entity.t → gmap (string * string) Entity.t)
      (g : gmap GlobalId FieldProps.t → gmap GlobalId FieldProps.t) (w : World) :=
    mkWorld (_entity_map w) (enum_units w) (f (enum_types w)) (g (enum_type_gids w))
            (enum_fields w) (enum_configs w) (_messages_create_message w)
            (_UNIT_MESSAGE w) (outbox w).

Definition with_enum_fields (f : gmap (string * string) FieldName → gmap (string * string) FieldName)
      (g : gmap FieldName FieldConfig → gmap FieldName FieldConfig) (w : World) :=
    mkWorld (_entity_map w) (enum_units w) (enum_types w) (enum_type_gids w)
            (f (enum_fields w)) (g (enum_configs w)) (_messages_create_message w)
            (_UNIT_MESSAGE w) (outbox w).

  (** The handles of the objects the bootstrap branch of [create_unit]
      wires by hand. *)
Definition unit_entity : Entity.t := Entity.Obj UNIT_ENTITY 1 EntityTypes.unit.
Definition unit_meta_entity : Entity.t := Entity.Obj UNIT_ENTITY 2 EntityTypes.unit.
Definition type_entity (entity_type : FieldProps.t) : Entity.t :=
    Entity.Obj UNIT_ENTITY_META (FieldProps.id_value entity_type) EntityTypes.type_meta.

  (** [Store.create_unit] *)
Definition create_unit (unit_name : string) : M World Entity.t :=
    w <- get ;;
    if negb (bool_decide (unit_name ∈ [UNIT_ENTITY; UNIT_ENTITY_META]))
       && negb (bool_decide (is_Some (enum_units w !! unit_name))) then
      r <- access Operation.GET VNone [AStr UNIT_ENTITY; ANone; AType EntityTypes.unit] ;;
      match r with
      | VAtom (AEntity unit) =>
          modify (with_enum_units <[unit_name := unit]>) ;;;
          _ <- entity_access unit Operation.SET (VAtom (AInt 0)) [AField UnitMeta.id_cnt] ;;
          _ <- entity_access unit Operation.SET (VAtom (AStr unit_name)) [AField UnitMeta.name] ;;
          ret unit
      | _ => raise AttributeError
      end
    else if negb (bool_decide (is_Some (_entity_map w !! (UNIT_ENTITY, 2, "unit")))) then
      modify (with_enum_units (λ m, <[UNIT_ENTITY_META := unit_meta_entity]>
                                      (<[UNIT_ENTITY := unit_entity]> m))) ;;;
      for_each EntityTypes.members (λ entity_type,
        modify (with_enum_types <[FieldProps.key entity_type := type_entity entity_type]> id)) ;;;
      let cnt := foldl (λ cnt entity_type, Z.max (cnt + 1) (FieldProps.id_value entity_type))
                       0 EntityTypes.members in
      _add_entity_to_store unit_entity unit_entity (type_entity EntityTypes.unit) ;;;
      _add_entity_to_store unit_meta_entity unit_entity (type_entity EntityTypes.unit) ;;;
      for_each [EntityTypes.type_meta; EntityTypes.unit; EntityTypes._entity_base;
                EntityTypes.meta_field]
        (λ entity_type,
           let et := type_entity entity_type in
           modify (with_enum_types id <[Entity.global_id et := entity_type]>) ;;;
           _add_entity_to_store et unit_meta_entity (type_entity EntityTypes.type_meta) ;;;
           _ <- entity_access et Operation.SET (VAtom (AStr (FieldProps.name entity_type)))
                              [AField TypeMeta.name] ;;
           ret tt) ;;;
      _ <- entity_access unit_entity Operation.SET (VAtom (AInt 2)) [AField UnitMeta.id_cnt] ;;
      _ <- entity_access unit_entity Operation.SET (VAtom (AStr UNIT_ENTITY)) [AField UnitMeta.name] ;;
      _ <- entity_access unit_meta_entity Operation.SET (VAtom (AInt cnt)) [AField UnitMeta.id_cnt] ;;
      _ <- entity_access unit_meta_entity Operation.SET (VAtom (AStr UNIT_ENTITY_META))
                         [AField UnitMeta.name] ;;
      ret unit_meta_entity
    else
      getitem (enum_units w !! unit_name).

Definition field_config_of (field : MetaProps.t) (id : Z) : FieldConfig :=
    mkFieldConfig (MetaProps.datatype field) (MetaProps.valuetype field) id
                  (MetaProps.order_value field) field.

  (** [x > cnt] for an integer [x] *)
Definition py_gt (x : Z) (cnt : Value) : M World bool :=
    match cnt with
    | VAtom (AInt c) => ret (Z.ltb c x)
    | _ => raise TypeError
    end.

Definition as_entity (v : Value) : M World Entity.t :=
    match v with
    | VAtom (AEntity e) => ret e
    | _ => raise AttributeError
    end.

  (** [if x > unit.id_cnt: unit.id_cnt = x], as written twice in
      [load_types_from_enum]. *)
Definition raise_counter (unit : Entity.t) (x : Z) : M World () :=
    cnt <- entity_access unit Operation.GET (VAtom (AInt 0)) [AField UnitMeta.id_cnt] ;;
    above <- py_gt x cnt ;;
    if above
    then _ <- entity_access unit Operation.SET (VAtom (AInt x)) [AField UnitMeta.id_cnt] ;; ret tt
    else ret tt.

Definition field_name_string (g : FieldName) : string :=
    g.1.1 ++ ":" ++ g.1.2 ++ ":" ++ g.2.

  (** [Store.load_types_from_enum(e)], [e] given by its members. *)
Definition load_types_from_enum (e : list FieldProps.t) : M World () :=
    for_each e (λ meta_type,
      for_each (FieldProps.fields_enum meta_type) (λ field,
        let global_name := _global_field_name (FieldProps.unit_name meta_type)
                             (FieldProps.name meta_type) (MetaProps.name field) in
        modify (with_enum_fields <[MetaProps.key field := global_name]>
                  <[global_name := field_config_of field (MetaProps.id_value field)]>))) ;;;
    (* the second loop reads [field], left over from the first one *)
    field <- match last (mjoin (FieldProps.fields_enum <$> e)) with
             | Some f => ret f
             | None => raise NameError
             end ;;
    for_each EntityBaseMeta.members (λ base_field,
      let global_name := _global_field_name "EntityBaseMeta.unit" "EntityTypes._entity_base"
                           (MetaProps.name base_field) in
      modify (with_enum_fields <[MetaProps.key base_field := global_name]>
                <[global_name := field_config_of base_field (MetaProps.id_value field)]>)) ;;;
    unit_meta_types <-
      foldM (λ (unit_meta_types : list (Entity.t * list Entity.t)) meta_type,
        unit <- create_unit (FieldProps.unit_name meta_type) ;;
        w <- get ;;
        field_meta_type <-
          match enum_types w !! FieldProps.key meta_type with
          | Some fmt => ret fmt
          | None =>
              raise_counter unit (FieldProps.id_value meta_type) ;;;
              r <- access Operation.GET VNone
                     [AStr (FieldProps.unit_name meta_type);
                      AInt (FieldProps.id_value meta_type); AType EntityTypes.type_meta] ;;
              fmt <- as_entity r ;;
              _ <- entity_access fmt Operation.SET (VAtom (AStr (FieldProps.name meta_type)))
                                 [AField TypeMeta.name] ;;
              modify (with_enum_types <[FieldProps.key meta_type := fmt]>
                                      <[Entity.global_id fmt := meta_type]>) ;;;
              ret fmt
          end ;;
        field_entities <-
          foldM (λ (field_entities : list Entity.t) field,
            let global_name := _global_field_name (FieldProps.unit_name meta_type)
                                 (FieldProps.name meta_type) (MetaProps.name field) in
            r <- access Operation.GET VNone
                   [AStr (FieldProps.unit_name meta_type);
                    AInt (MetaProps.id_value field); AType EntityTypes.meta_field] ;;
            field_entity <- as_entity r ;;
            _ <- entity_access field_entity Operation.SET
                   (VAtom (AStr (MetaProps.name field))) [AField MetaField.name] ;;
            _ <- entity_access field_entity Operation.SET
                   (VAtom (AInt (MetaProps.order_value field))) [AField MetaField.order] ;;
            _ <- entity_access field_entity Operation.SET
                   (VAtom (AStr (field_name_string global_name))) [AField MetaField.global_name] ;;
            ret (field_entities ++ [field_entity])%list)
            [] (FieldProps.fields_enum meta_type) ;;
        for_each field_entities (λ field_entity,
          _ <- entity_access field_meta_type Operation.ADD (VAtom (AEntity field_entity))
                 [AField TypeMeta.fields] ;; ret tt) ;;;
        let max_id_value :=
          foldl (λ m field, Z.max m (MetaProps.id_value field)) 0
                (FieldProps.fields_enum meta_type) in
        (if Z.ltb 0 max_id_value then raise_counter unit max_id_value else ret tt) ;;;
        ret (match dict_get unit unit_meta_types with
             | Some l => dict_set unit (l ++ [field_meta_type])%list unit_meta_types
             | None => dict_set unit [field_meta_type] unit_meta_types
             end))
        [] e ;;
    for_each unit_meta_types (λ p,
      for_each p.2 (λ field_meta_type,
        _ <- entity_access p.1 Operation.ADD (VAtom (AEntity field_meta_type))
               [AField UnitMeta.meta_types] ;; ret tt)).

End Store.

(** The tables as they are before [dust.entity] is imported. *)
Definition empty_world (unit_message : string) : World :=
  mkWorld ∅ ∅ ∅ ∅ ∅ ∅ false unit_message [].

(** The tables once [dust.entity] is imported: the module runs
    [Store.load_types_from_enum(EntityTypes)] and then installs the
    message handler. *)
Definition install_handler (w : World) : World :=
  mkWorld (_entity_map w) (enum_units w) (enum_types w) (enum_type_gids w)
          (enum_fields w) (enum_configs w) true (_UNIT_MESSAGE w) (outbox w).

Definition imported (unit_message : string) : Res () * World :=
  let r := Store.load_types_from_enum EntityTypes.members (empty_world unit_message) in
  (r.1, install_handler r.2).

(* ===================================================================== *)
(** ** dust/entity.py: the methods of class Entity that use the store *)
(* ===================================================================== *)

Module EntityOps.

  (** [Store._get_field_config(unit_name, meta_type, field)] on the three
      parts of a qualified name. *)
Definition _get_field_config (g : FieldName) : M World FieldConfig :=
    w <- get ;;
    let '(unit_name, meta_type, field) := g in
    if bool_decide (meta_type ∈ [FieldProps.name EntityTypes.type_meta;
                                 FieldProps.name EntityTypes.meta_field])
    then getitem (enum_configs w !! (UNIT_ENTITY_META, meta_type, field))
    else getitem (enum_configs w !! (unit_name, meta_type, field)).

  (** [Entity.to_json]: the loop of [__to_json] over the items of the
      entity's dictionary. *)
Definition to_json (self : Entity.t) : M World (list (FieldName * Value)) :=
    sl <- Store.slot_of (Entity.global_id self) ;;
    foldM (λ (json_map : list (FieldName * Value)) item,
             field_config <- _get_field_config item.1 ;;
             if ValueTypes.multivalued (cfg_valuetype field_config) then
               match item.2 with
               | VList l => ret (dict_set item.1 (VList l) json_map)
               | VSet s => ret (dict_set item.1 (VList (elements s)) json_map)
               | v => ret (dict_set item.1 v json_map)
               end
             else ret (dict_set item.1 item.2 json_map))
          [] (e_map sl).

  (** [int(x)] *)
Definition py_int (v : Value) : M World Z :=
    match v with
    | VAtom (AInt i) => ret i
    | VAtom (AStr _) | VAtom (AGid _) => raise Unmodelled
    | _ => raise TypeError
    end.

  (** [Entity.from_json(e_map)] *)
Definition from_json (e_map : list (FieldName * Value)) : M World Value :=
    unit_gid <- getitem (dict_get Store.unit_field e_map) ;;
    unit_id <- match unit_gid with
               | VAtom (AGid (_, i, _)) => ret i         (* [int(unit_parts[1])] *)
               | VAtom (AStr _) => raise Unmodelled
               | _ => raise AttributeError
               end ;;
    unit <- Store.access Operation.GET VNone
              [AStr UNIT_ENTITY; AInt unit_id; AType EntityTypes.unit] ;;
    unit <- Store.as_entity unit ;;
    unit_name <- Store.entity_access unit Operation.GET VNone [AField UnitMeta.name] ;;
    w <- get ;;
    meta_gid <- getitem (dict_get Store.meta_type_field e_map) ;;
    meta_type <- match meta_gid with
                 | VAtom (AGid g) => getitem (enum_type_gids w !! g)
                 | VAtom (AStr _ | AType _ | AField _ | AEntity _) => raise Unmodelled
                 | VAtom _ => raise KeyError
                 | _ => raise TypeError
                 end ;;
    entity_id <- getitem (dict_get Store.entity_id_field e_map) ;;
    entity_id <- py_int entity_id ;;
    unit_name <- match unit_name with
                 | VAtom a => ret a
                 | _ => raise Unmodelled
                 end ;;
    e <- Store.access Operation.GET VNone [unit_name; AInt entity_id; AType meta_type] ;;
    for_each e_map (λ item,
      if negb (bool_decide (item.1 ∈ [Store.unit_field; Store.meta_type_field;
                                      Store.entity_id_field])) then
        field_config <- _get_field_config item.1 ;;
        e <- Store.as_entity e ;;
        match cfg_valuetype field_config, item.2 with
        | ValueTypes.SET, VList l =>
            _ <- Store.entity_access e Operation.SET (VSet (list_to_set l))
                   [AField (cfg_enum field_config)] ;; ret tt
        | _, value =>
            _ <- Store.entity_access e Operation.SET value
                   [AField (cfg_enum field_config)] ;; ret tt
        end
      else ret tt) ;;;
    ret e.

End EntityOps.

(* ===================================================================== *)
(** ** The relational backend *)
(* ===================================================================== *)

(** [class SqlField] and [class SqlTable] of sqlpersist.py. *)
Record SqlField := mkSqlField {
  field_name : string;
  field_type : string;
  primary_key : bool;
  base_field : bool
}.

Record SqlTable := mkSqlTable {
  table_name : string;
  fields : list SqlField;
  primary_keys : list SqlField
}.

#[global] Instance SqlField_eq_dec : EqDecision SqlField.
Proof. solve_decision. Defined.
#[global] Instance SqlTable_eq_dec : EqDecision SqlTable.
Proof. solve_decision. Defined.

(** [SqlTable.add_field] *)
Definition add_field (t : SqlTable) (sql_field sql_type : string)
    (primary_key base_field : bool) : SqlTable :=
  let field := mkSqlField sql_field sql_type primary_key base_field in
  mkSqlTable (table_name t) (fields t ++ [field])%list
             (if primary_key then (primary_keys t ++ [field])%list else primary_keys t).

(** A statement handed to [cursor.execute]: the rendering of one of the
    templates of mysqlpersist.py for a table, with its named parameters. *)
Inductive Statement :=
| CreateTable (t : SqlTable)                              (* CREATE TABLE IF NOT EXISTS *)
| InsertInto (t : SqlTable) (values : list (string * Value))
| UpdateWhere (t : SqlTable) (values : list (string * Value))
| DeleteFrom (t : SqlTable) (values : list (string * Value))
| SelectFrom (t : SqlTable)
| TableExists (name : string).

(** A row holds the values of the table's columns, in column order. *)
Abbreviation Row := (list Value) (only parsing).
Abbreviation Database := (gmap string (list (list Value))) (only parsing).

Inductive Event :=
| Connect (conn : nat)
| CloseConnection (conn : nat)
| OpenCursor (conn : nat)
| CloseCursor (conn : nat)
| Execute (conn : nat) (st : Statement).

(** The values a statement binds to the columns of its table. *)
Definition bind_row (t : SqlTable) (values : list (string * Value)) : option Row :=
  mapM (λ f, dict_get (field_name f) values) (fields t).

(** The key of a row: its values at the primary-key columns. *)
Definition key_of (t : SqlTable) (r : Row) : list Value :=
  omap (λ p, if primary_key p.1 then Some p.2 else None) (zip (fields t) r).

Definition global_id_of (r : Row) : Value := default VNone (head r).

(** [UPDATE t SET col = %(col)s, .. WHERE _global_id = %(_global_id)s]:
    the columns that are neither key nor base columns are rewritten. *)
Definition update_row (t : SqlTable) (values : list (string * Value)) (r : Row) : Row :=
  (λ p, if primary_key p.1 || base_field p.1 then p.2
        else default p.2 (dict_get (field_name p.1) values)) <$> zip (fields t) r.

(** The columns [UPDATE_TEMPLATE] assigns.  With none of them the
    rendered statement has an empty [SET] clause, which the server
    rejects; a column without a bound parameter is rejected as well. *)
Definition assigned_columns (t : SqlTable) : list SqlField :=
  filter (λ f, primary_key f || base_field f = false) (fields t).

Definition well_formed_update (t : SqlTable) (values : list (string * Value)) : bool :=
  match assigned_columns t with
  | [] => false
  | cols => forallb (λ f, dict_mem (field_name f) values) cols
  end.

(** What a statement does to the tables, and the rows it returns.
    Statements on a table that was never created fail, and so does an
    insertion that repeats a primary key. *)
Definition run (st : Statement) (db : Database) : Res (list Row) * Database :=
  match st with
  | CreateTable t =>
      match db !! table_name t with
      | Some _ => (Ok [], db)
      | None => (Ok [], <[table_name t := []]> db)
      end
  | InsertInto t values =>
      match db !! table_name t, bind_row t values with
      | Some rows, Some r =>
          if bool_decide (key_of t r ∈ key_of t <$> rows) then (Raise DatabaseError, db)
          else (Ok [], <[table_name t := (rows ++ [r])%list]> db)
      | _, _ => (Raise DatabaseError, db)
      end
  | UpdateWhere t values =>
      match db !! table_name t, dict_get "_global_id" values with
      | Some rows, Some gid =>
          if well_formed_update t values then
            (Ok [], <[table_name t :=
                        (λ r, if bool_decide (global_id_of r = gid)
                              then update_row t values r else r) <$> rows]> db)
          else (Raise DatabaseError, db)
      | _, _ => (Raise DatabaseError, db)
      end
  | DeleteFrom t values =>
      match db !! table_name t, dict_get "_global_id" values with
      | Some rows, Some gid =>
          (Ok [], <[table_name t :=
                      filter (λ r, global_id_of r ≠ gid) rows]> db)
      | _, _ => (Raise DatabaseError, db)
      end
  | SelectFrom t =>
      match db !! table_name t with
      | Some rows => (Ok rows, db)
      | None => (Raise DatabaseError, db)
      end
  | TableExists name =>
      (Ok (if bool_decide (is_Some (db !! name)) then [[VAtom (AStr name)]] else []), db)
  end.

(* ===================================================================== *)
(** ** dust/persist/sqlpersist.py: class SqlPersist *)
(* ===================================================================== *)

(** The persister together with the store and the database it talks to.
    Statements take effect when they are executed; the connection that
    ran them is recorded in the trace. *)
Record Persist := mkPersist {
  world : World;
  __persisted_types : gmap (string * string) FieldProps.t;   (* a set of members *)
  __unit_meta_unit : gmap (string * string) string;
  database : Database;
  next_conn : nat;
  trace : list Event
}.

Definition with_world (f : World → World) (p : Persist) : Persist :=
  mkPersist (f (world p)) (__persisted_types p) (__unit_meta_unit p)
            (database p) (next_conn p) (trace p).

Definition with_database (f : Database → Database) (p : Persist) : Persist :=
  mkPersist (world p) (__persisted_types p) (__unit_meta_unit p)
            (f (database p)) (next_conn p) (trace p).

Definition emit (ev : Event) (p : Persist) : Persist :=
  mkPersist (world p) (__persisted_types p) (__unit_meta_unit p)
            (database p) (next_conn p) (trace p ++ [ev])%list.

Definition register_type (unit_name : string) (unit_meta : FieldProps.t) (p : Persist) : Persist :=
  mkPersist (world p) (<[FieldProps.key unit_meta := unit_meta]> (__persisted_types p))
            (<[FieldProps.key unit_meta := unit_name]> (__unit_meta_unit p))
            (database p) (next_conn p) (trace p).

(** [unit_meta in self.__persisted_types] *)
Definition persisted (p : Persist) (unit_meta : FieldProps.t) : bool :=
  bool_decide (is_Some (__persisted_types p !! FieldProps.key unit_meta)).

(** A store operation run from the persister. *)
Definition lift {A} (m : M World A) : M Persist A :=
  λ p, match m (world p) with (r, w) => (r, with_world (λ _, w) p) end.

Module SqlPersist.

  (** [SQL_TYPE_MAP] and [MySQLPersist.sql_type] *)
Definition SQL_TYPE_MAP (d : Datatypes.t) : string :=
    match d with
    | Datatypes.INT => "INT"
    | Datatypes.NUMERIC => "DOUBLE"
    | Datatypes.BOOL => "TINYINT"
    | Datatypes.STRING => "TEXT"
    | Datatypes.BYTES => "BLOB"
    | Datatypes.JSON => "TEXT"
    | Datatypes.ENTITY => "TEXT"
    end.

Definition sql_type (datatype : Datatypes.t) (valuetype : ValueTypes.t)
      (primary_key : bool) : string :=
    if primary_key && bool_decide (datatype = Datatypes.STRING) then "VARCHAR(100)"
    else if bool_decide (valuetype = ValueTypes.SINGLE) then SQL_TYPE_MAP datatype
    else "TEXT".

  (** [self._create_connection()], [self._close_connection(conn)],
      [self._create_cursor(conn)], [self._close_cursor(c)] *)
Definition _create_connection : M Persist nat :=
    λ p, (Ok (next_conn p),
          emit (Connect (next_conn p))
               (mkPersist (world p) (__persisted_types p) (__unit_meta_unit p)
                          (database p) (S (next_conn p)) (trace p))).
Definition _close_connection (conn : nat) : M Persist () :=
    modify (emit (CloseConnection conn)).
Definition _create_cursor (conn : nat) : M Persist nat :=
    modify (emit (OpenCursor conn)) ;;; ret conn.
Definition _close_cursor (c : nat) : M Persist () :=
    modify (emit (CloseCursor c)).

  (** [c.execute(sql, values)] followed by [c.fetchall()] *)
Definition execute (c : nat) (st : Statement) : M Persist (list Row) :=
    λ p, match run st (database p) with
         | (r, db) => (r, emit (Execute c st) (with_database (λ _, db) p))
         end.

  (** [conn = self._create_connection() if conn is None] *)
Definition connection_or_new (conn : option nat) : M Persist nat :=
    match conn with
    | Some c => ret c
    | None => _create_connection
    end.

  (** [if close_connection: self._close_connection(conn)] *)
Definition close_if_owned (conn : option nat) (c : nat) : M Persist () :=
    match conn with
    | Some _ => ret tt
    | None => _close_connection c
    end.

  (** [self.__table_name(unit_meta)] *)
Definition __table_name (unit_meta : FieldProps.t) : M Persist string :=
    p <- get ;;
    unit <- getitem (__unit_meta_unit p !! FieldProps.key unit_meta) ;;
    ret (unit ++ "_" ++ FieldProps.type_name unit_meta).

  (** [self.__sql_tables(table_name, fields_enum)]: the primary table
      first, then one table per multi-valued field. *)
Definition primary_table (table_name : string) : SqlTable :=
    let t := add_field (mkSqlTable table_name [] []) "_global_id"
               (sql_type Datatypes.STRING ValueTypes.SINGLE true) true true in
    foldl (λ t base_field,
             if bool_decide (base_field ≠ EntityBaseMeta.committed)
             then add_field t ("_" ++ MetaProps.name base_field)
                    (sql_type (MetaProps.datatype base_field)
                              (MetaProps.valuetype base_field) false) false true
             else t)
          t (FieldProps.fields_enum EntityTypes._entity_base).

Definition multivalue_table (table_name : string) (field : MetaProps.t) : SqlTable :=
    let t := mkSqlTable (table_name ++ "_" ++ MetaProps.name field) [] [] in
    let t := add_field t "_global_id" (sql_type Datatypes.STRING ValueTypes.SINGLE true)
                       true true in
    let t := add_field t "_value_cnt" (sql_type Datatypes.INT ValueTypes.SINGLE false)
                       true true in
    add_field t ("_" ++ MetaProps.name field ++ "_value")
              (sql_type (MetaProps.datatype field) ValueTypes.SINGLE false) false false.

Definition __sql_tables (table_name : string) (fields_enum : list MetaProps.t)
    : list SqlTable :=
    let r :=
      foldl (λ (acc : SqlTable * list SqlTable) field,
               if ValueTypes.multivalued (MetaProps.valuetype field)
               then (acc.1, (acc.2 ++ [multivalue_table table_name field])%list)
               else (add_field acc.1 ("_" ++ MetaProps.name field)
                       (sql_type (MetaProps.datatype field) (MetaProps.valuetype field) false)
                       false false,
                     acc.2))
            (primary_table table_name, []) fields_enum in
    r.1 :: r.2.

  (** [MySQLPersist.convert_value_to_db] on a single value *)
Definition convert_value_to_db (field : MetaProps.t) (value : Atom) : Atom :=
    match MetaProps.datatype field, value with
    | Datatypes.BOOL, _ => if bool_decide (value = AInt 1) then AInt 1 else AInt 0
    | Datatypes.ENTITY, AEntity e => AGid (Entity.global_id e)
    | _, _ => value
    end.

  (** [MySQLPersist.convert_value_from_db] *)
Definition convert_value_from_db (field : MetaProps.t) (value : Value) : Value :=
    match MetaProps.datatype field with
    | Datatypes.BOOL => if bool_decide (value = VAtom (AInt 1)) then VAtom (AInt 1) else VFalse
    | _ => value
    end.

  (** [for v in value] *)
Definition iterate (value : Value) : Res (list Atom) :=
    match value with
    | VList l => Ok l
    | VSet s => Ok (elements s)
    | VDict d => Ok (map_to_list d).*1
    | VAtom (AStr _) | VAtom (AGid _) => Raise Unmodelled
    | VAtom _ => Raise TypeError
    end.

  (** What [map_value_to_db] makes of the value it has read.  The text
      [json.dumps] produces is represented by the value it encodes. *)
Definition db_value (field : MetaProps.t) (value : Value) : Res Value :=
    match value with
    | VAtom ANone => Ok VNone
    | _ =>
        match MetaProps.valuetype field with
        | ValueTypes.SINGLE =>
            match value with
            | VAtom a => Ok (VAtom (convert_value_to_db field a))
            | _ => match MetaProps.datatype field with
                   | Datatypes.BOOL => Ok VFalse
                   | _ => Ok value
                   end
            end
        | ValueTypes.SET | ValueTypes.LIST =>
            match iterate value with
            | Ok l => Ok (VList (convert_value_to_db field <$> l))
            | Raise e => Raise e
            end
        | ValueTypes.MAP =>
            match value with
            | VSet _ | VAtom (AEntity _) | VAtom (AType _) | VAtom (AField _)
            | VAtom (ACommitted _) => Raise TypeError
            | _ => Ok value
            end
        end
    end.

  (** [self.map_value_to_db(field, entity)] *)
Definition map_value_to_db (field : MetaProps.t) (entity : Entity.t) : M Persist Value :=
    value <- lift (Store.entity_access entity Operation.GET VNone [AField field]) ;;
    of_res (db_value field value).

  (** [self.map_value_from_db(field, value)] *)
Definition map_value_from_db (field : MetaProps.t) (value : Value) : Value :=
    match value with
    | VAtom ANone => VNone
    | _ => match MetaProps.valuetype field with
           | ValueTypes.MAP => value
           | _ => convert_value_from_db field value
           end
    end.

  (** [self.__update_entity_values(update_sql, values, conn)] *)
Definition __update_entity_values (st : Statement) (conn : nat) : M Persist bool :=
    c <- _create_cursor conn ;;
    try_finally (_ <- execute c st ;; ret true) (_close_cursor c).

  (** [entity.set_committed()]: class [Entity] defines no such method. *)
Definition set_committed (entity : Entity.t) : M Persist () :=
    raise AttributeError.

  (** [unit_meta.type_name[0] != "_"] *)
Definition not_underscore (unit_meta : FieldProps.t) : M Persist bool :=
    match String.get 0 (FieldProps.type_name unit_meta) with
    | Some c => ret (negb (Ascii.eqb c "_"%char))
    | None => raise IndexError
    end.

  (** The parameters and the multi-valued collections [insert_entity]
      and [update_entity] gather from the fields of the entity. *)
Definition gather_values (entity : Entity.t) (primary_name : string)
      (fields_enum : list MetaProps.t) (values : list (string * Value))
    : M Persist (list (string * Value) * list (string * (string * Value))) :=
    foldM (λ (a : list (string * Value) * list (string * (string * Value))) field,
             v <- map_value_to_db field entity ;;
             if negb (ValueTypes.multivalued (MetaProps.valuetype field))
             then ret (dict_set ("_" ++ MetaProps.name field) v a.1, a.2)
             else ret (a.1, dict_set (primary_name ++ "_" ++ MetaProps.name field)
                                     (MetaProps.name field, v) a.2))
          (values, []) fields_enum.

  (** The rows of one multi-valued field: [enumerate(multivalues_array)] *)
Fixpoint insert_multivalues (gid : GlobalId) (sql_table : SqlTable) (field_name : string)
      (value_cnt : Z) (multivalues_array : list Atom) (conn : nat) (return_value : bool)
    : M Persist bool :=
    match multivalues_array with
    | [] => ret return_value
    | value :: rest =>
        let values := [ ("_global_id", VAtom (AGid gid));
                        ("_value_cnt", VAtom (AInt value_cnt));
                        ("_" ++ field_name ++ "_value", VAtom value) ] in
        return_value <- __update_entity_values (InsertInto sql_table values) conn ;;
        insert_multivalues gid sql_table field_name (value_cnt + 1) rest conn return_value
    end.

  (** [self.__update_entity_multivalues(entity, sql_tables, multivalues,
      conn, need_delete)] *)
Definition __update_entity_multivalues (entity : Entity.t) (sql_tables : list SqlTable)
      (multivalues : list (string * (string * Value))) (conn : nat) (need_delete : bool)
    : M Persist bool :=
    foldM (λ (return_value : bool) sql_table,
             if return_value then
               return_value <-
                 (if need_delete
                  then __update_entity_values
                         (DeleteFrom sql_table
                            [("_global_id", VAtom (AGid (Entity.global_id entity)))]) conn
                  else ret return_value) ;;
               if return_value then
                 mv <- getitem (dict_get (table_name sql_table) multivalues) ;;
                 if truthy mv.2 then
                   match mv.2 with
                   | VList l =>
                       insert_multivalues (Entity.global_id entity) sql_table mv.1 0 l
                                          conn return_value
                   | _ => raise Unmodelled
                   end
                 else ret return_value
               else ret return_value
             else ret return_value)
          true (tail sql_tables).

  (** The four parameters that identify the entity. *)
Definition identity_values (entity : Entity.t) : M Persist (list (string * Value)) :=
    p <- get ;;
    unit <- getitem (enum_units (world p) !! Entity.unit entity) ;;
    meta_type <- getitem (enum_types (world p) !! FieldProps.key (Entity.meta_type entity)) ;;
    ret [ ("_global_id", VAtom (AGid (Entity.global_id entity)));
          ("_unit", VAtom (AGid (Entity.global_id unit)));
          ("_meta_type", VAtom (AGid (Entity.global_id meta_type)));
          ("_entity_id", VAtom (AInt (Entity.entity_id entity))) ].

  (** [sql_tables[0]] *)
Definition first_table (sql_tables : list SqlTable) : M Persist SqlTable :=
    match sql_tables with
    | t :: _ => ret t
    | [] => raise IndexError
    end.

  (** [self.insert_entity(entity, conn)] *)
Definition insert_entity (entity : Entity.t) (conn : option nat) : M Persist bool :=
    c <- connection_or_new conn ;;
    let meta_type := Entity.meta_type entity in
    p <- get ;;
    return_value <-
      (if persisted p meta_type then
         name <- __table_name meta_type ;;
         let sql_tables := __sql_tables name (FieldProps.fields_enum meta_type) in
         primary <- first_table sql_tables ;;
         values <- identity_values entity ;;
         g <- gather_values entity name (FieldProps.fields_enum meta_type) values ;;
         try_finally
           (return_value <- __update_entity_values (InsertInto primary g.1) c ;;
            if return_value
            then __update_entity_multivalues entity sql_tables g.2 c false
            else ret return_value)
           (close_if_owned conn c)
       else ret false) ;;
    (if return_value then set_committed entity else ret tt) ;;;
    ret return_value.

  (** [self.update_entity(entity, conn)] *)
Definition update_entity (entity : Entity.t) (conn : option nat) : M Persist bool :=
    c <- connection_or_new conn ;;
    let meta_type := Entity.meta_type entity in
    p <- get ;;
    return_value <-
      (if persisted p meta_type then
         name <- __table_name meta_type ;;
         let sql_tables := __sql_tables name (FieldProps.fields_enum meta_type) in
         try_finally
           (primary <- first_table sql_tables ;;
            g <- gather_values entity name (FieldProps.fields_enum meta_type)
                   [("_global_id", VAtom (AGid (Entity.global_id entity)))] ;;
            return_value <- __update_entity_values (UpdateWhere primary g.1) c ;;
            if return_value
            then __update_entity_multivalues entity sql_tables g.2 c true
            else ret return_value)
           (close_if_owned conn c)
       else ret false) ;;
    (if return_value then set_committed entity else ret tt) ;;;
    ret return_value.

  (** [e.committed] *)
Definition committed_of (e : Entity.t) : M Persist Value :=
    p <- get ;;
    ret (match _entity_map (world p) !! Entity.global_id e with
         | Some sl => committed sl
         | None => VFalse
         end).

  (** [self.persist_entities(entities)] *)
Definition persist_entities (entities : list Entity.t) : M Persist () :=
    conn <- _create_connection ;;
    try_finally
      (for_each entities (λ e,
         c <- committed_of e ;;
         if bool_decide (c = VAtom (ACommitted Committed.CREATED)) then
           _ <- insert_entity e (Some conn) ;; ret tt
         else if bool_decide (c = VAtom (ACommitted Committed.UPDATED)) then
           _ <- update_entity e (Some conn) ;; ret tt
         else if bool_decide (c = VAtom (ACommitted Committed.DELETED)) then
           ret tt
         else ret tt))
      (_close_connection conn).

  (** A fetched cell used as a path segment or as an object. *)
Definition cell (row : Row) (i : nat) : M Persist Value :=
    match row !! i with
    | Some v => ret v
    | None => raise IndexError
    end.

Definition as_segment (v : Value) : M Persist Atom :=
    match v with
    | VAtom a => ret a
    | _ => raise Unmodelled
    end.

  (** [obj.access(operation, value, field)] on whatever [obj] is. *)
Definition call_access (obj : Value) (operation : Operation.t) (value : Value)
      (field : MetaProps.t) : M Persist Value :=
    match obj with
    | VAtom (AEntity e) => lift (Store.entity_access e operation value [AField field])
    | _ => raise AttributeError
    end.

  (** [obj.set_committed()] *)
Definition call_set_committed (obj : Value) : M Persist () :=
    match obj with
    | VAtom (AEntity e) => set_committed e
    | _ => raise AttributeError
    end.

  (** The body of [for row in rows] over the primary table. *)
Definition load_row (meta_type : FieldProps.t) (row : Row)
      (entities : list (Value * Value)) : M Persist (list (Value * Value)) :=
    row0 <- cell row 0 ;;
    row1 <- cell row 1 ;; unit_global_id <- as_segment row1 ;;
    row2 <- cell row 2 ;; meta_type_global_id <- as_segment row2 ;;
    row3 <- cell row 3 ;; entity_id <- as_segment row3 ;;
    unit_entity <- lift (Store.access Operation.GET VNone [unit_global_id]) ;;
    meta_type_entity <- lift (Store.access Operation.GET VNone [meta_type_global_id]) ;;
    unit_entity <- as_segment unit_entity ;;
    meta_type_entity <- as_segment meta_type_entity ;;
    entity <- lift (Store.access Operation.GET VNone [unit_entity; entity_id; meta_type_entity]) ;;
    _ <- foldM (λ (index : nat) field,
                  if negb (ValueTypes.multivalued (MetaProps.valuetype field)) then
                    raw <- cell row index ;;
                    let value := map_value_from_db field raw in
                    (if negb (bool_decide (value = VNone))
                     then _ <- call_access entity Operation.SET value field ;; ret tt
                     else ret tt) ;;;
                    ret (S index)
                  else ret index)
               4%nat (FieldProps.fields_enum meta_type) ;;
    call_set_committed entity ;;;
    ret (dict_set row0 entity entities).

  (** The body of [for row in rows] over the table of a multi-valued
      field. *)
Definition load_multivalue_row (field : MetaProps.t) (entities : list (Value * Value))
      (row : Row) : M Persist () :=
    row0 <- cell row 0 ;;
    if dict_mem row0 entities then
      entity <- getitem (dict_get row0 entities) ;;
      raw <- cell row 2 ;;
      _ <- call_access entity Operation.ADD (map_value_from_db field raw) field ;;
      call_set_committed entity
    else ret tt.

  (** [self.load_entities(meta_type, filters=None, conn)] *)
Definition load_entities (meta_type : FieldProps.t) (conn : option nat)
    : M Persist (list Value) :=
    c <- connection_or_new conn ;;
    try_finally
      (name <- __table_name meta_type ;;
       let sql_tables := __sql_tables name (FieldProps.fields_enum meta_type) in
       primary <- first_table sql_tables ;;
       cur <- _create_cursor c ;;
       entities <-
         try_finally
           (rows <- execute cur (SelectFrom primary) ;;
            foldM (λ (entities : list (Value * Value)) row,
                     load_row meta_type row entities)
                  [] rows)
           (_close_cursor cur) ;;
       for_each (FieldProps.fields_enum meta_type) (λ field,
         if ValueTypes.multivalued (MetaProps.valuetype field) then
           match list_find (λ stbl, table_name stbl
                                    = table_name primary ++ "_" ++ MetaProps.name field)
                           sql_tables with
           | Some (_, multivalue_sql_table) =>
               cur <- _create_cursor c ;;
               try_finally
                 (rows <- execute cur (SelectFrom multivalue_sql_table) ;;
                  for_each rows (load_multivalue_row field entities))
                 (_close_cursor cur)
           | None => raise Unmodelled
           end
         else ret tt) ;;;
       ret entities.*2)
      (close_if_owned conn c).

  (** [self.load_type(unit_meta)] *)
Definition load_type (unit_meta : FieldProps.t) : M Persist (list Value) :=
    b <- not_underscore unit_meta ;;
    if b then load_entities unit_meta None else ret [].

  (** [self.load_all()] and [self.load_units()] *)
Definition load_all : M Persist (list Value) :=
    p <- get ;;
    foldM (λ (entities : list Value) unit_meta,
             l <- load_type unit_meta ;; ret (entities ++ l)%list)
          [] (map_to_list (__persisted_types p)).*2.

Definition load_units : M Persist (list Value) :=
    foldM (λ (entities : list Value) unit_meta,
             l <- load_type unit_meta ;; ret (entities ++ l)%list)
          [] EntityTypes.members.

  (** [MySQLPersist.table_exits]: errors are printed, not raised. *)
Definition table_exits (table_name : string) (conn : nat) : M Persist bool :=
    cur <- _create_cursor conn ;;
    try_finally
      (rows <- execute cur (TableExists table_name) ;;
       ret (bool_decide (head rows = Some [VAtom (AStr table_name)])))
      (_close_cursor cur).

  (** [self.__table_exists_internal(table_name, conn)]: the answer of
      [table_exits] is dropped, the method returns [None]. *)
Definition __table_exists_internal (table_name : string) (conn : option nat)
    : M Persist Value :=
    match conn with
    | None =>
        c <- _create_connection ;;
        try_finally (_ <- table_exits table_name c ;; ret tt) (_close_connection c) ;;;
        ret VNone
    | Some c => _ <- table_exits table_name c ;; ret VNone
    end.

  (** [self.table_schemas(unit_meta, conn)]: one [CREATE TABLE] statement
      per table. *)
Definition table_schemas (unit_meta : FieldProps.t) (conn : option nat)
    : M Persist (list Statement) :=
    table_name <- __table_name unit_meta ;;
    exists_ <- __table_exists_internal table_name conn ;;
    if negb (truthy exists_)
    then ret (CreateTable <$> __sql_tables table_name (FieldProps.fields_enum unit_meta))
    else ret [].

  (** [MySQLPersist.create_table]: errors are printed, not raised. *)
Definition create_table (sql : Statement) (conn : nat) : M Persist () :=
    cur <- _create_cursor conn ;;
    λ p, match execute cur sql p with
         | (_, p') => _close_cursor cur p'
         end.

  (** The [for unit_meta in unit_meta_enums] loop of [generate_schema]. *)
Definition generate_schema_loop (unit_name : string) (unit_meta_enums : list FieldProps.t)
      (conn : nat) : M Persist (list Statement) :=
    foldM (λ (schema : list Statement) unit_meta,
             modify (register_type unit_name unit_meta) ;;;
             b <- not_underscore unit_meta ;;
             if b then
               tbl_schema_strings <- table_schemas unit_meta (Some conn) ;;
               for_each tbl_schema_strings (λ st, create_table st conn) ;;;
               ret (schema ++ tbl_schema_strings)%list
             else ret schema)
          [] unit_meta_enums.

  (** [self.__generate_base_schema(conn)], the nested call
      [generate_schema(UNIT_ENTITY, EntityTypes, conn)]: its loop registers
      [EntityTypes.unit], so its own test for the base schema is false. *)
Definition __generate_base_schema (conn : nat) : M Persist () :=
    _ <- generate_schema_loop UNIT_ENTITY EntityTypes.members conn ;;
    p <- get ;;
    if persisted p EntityTypes.unit then ret tt
    else raise Unmodelled.

  (** [self.generate_schema(unit_name, unit_meta_enums, conn)] *)
Definition generate_schema (unit_name : string) (unit_meta_enums : list FieldProps.t)
      (conn : option nat) : M Persist (list Statement) :=
    c <- connection_or_new conn ;;
    try_finally
      (schema <- generate_schema_loop unit_name unit_meta_enums c ;;
       p <- get ;;
       (if negb (persisted p EntityTypes.unit)
        then __generate_base_schema c else ret tt) ;;;
       ret schema)
      (close_if_owned conn c).

End SqlPersist.

(* ===================================================================== *)
(** ** Clients of the store *)
(* ===================================================================== *)

(** [[Store.access(Operation.GET, None, unit_name, None, t) for t in
    meta_types]]: one entity per meta-type, each without an explicit id. *)
Fixpoint create_entities (unit_name : string) (meta_types : list FieldProps.t)
  : M World (list Value) :=
  match meta_types with
  | [] => ret []
  | t :: rest =>
      e <- Store.access Operation.GET VNone [AStr unit_name; ANone; AType t] ;;
      l <- create_entities unit_name rest ;;
      ret (e :: l)
  end.

(** [e.entity_id] of a returned object. *)
Definition entity_id_of (v : Value) : option Z :=
  match v with
  | VAtom (AEntity e) => Some (Entity.entity_id e)
  | _ => None
  end.

(* ===================================================================== *)
(** ** A declared schema to run the store on *)
(* ===================================================================== *)

(** A unit [shop] with one meta-type, declared the way dust/templates.py
    and dust/slack.py declare theirs. *)
Module Example.

Module ItemMeta.
Definition title := MetaProps.Member "ItemMeta" "title" Datatypes.STRING ValueTypes.SINGLE 1 10.
Definition tags := MetaProps.Member "ItemMeta" "tags" Datatypes.STRING ValueTypes.SET 2 11.
Definition scores := MetaProps.Member "ItemMeta" "scores" Datatypes.INT ValueTypes.LIST 3 12.
Definition owner := MetaProps.Member "ItemMeta" "owner" Datatypes.ENTITY ValueTypes.SINGLE 4 13.
Definition friends := MetaProps.Member "ItemMeta" "friends" Datatypes.ENTITY ValueTypes.SET 5 14.
Definition stock := MetaProps.Member "ItemMeta" "stock" Datatypes.INT ValueTypes.SINGLE 6 15.
Definition members := [title; tags; scores; owner; friends; stock].
End ItemMeta.

Module CategoryMeta.
Definition label := MetaProps.Member "CategoryMeta" "label" Datatypes.STRING ValueTypes.SINGLE 1 20.
Definition members := [label].
End CategoryMeta.

Module ShopTypes.
Definition item := FieldProps.Member "ShopTypes" "item" "shop_meta" ItemMeta.members 1.
Definition category :=
      FieldProps.Member "ShopTypes" "category" "shop_meta" CategoryMeta.members 2.
Definition members := [item; category].
End ShopTypes.

Definition UNIT_SHOP : string := "shop".

  (** [Store.create_unit(UNIT_SHOP); Store.load_types_from_enum(ShopTypes)] *)
Definition declare : M World () :=
    _ <- Store.create_unit UNIT_SHOP ;; Store.load_types_from_enum ShopTypes.members.

  (** The store after [dust.entity] is imported and the shop is declared. *)
Definition declared : World := (declare (imported "message").2).2.

  (** [Store.access(Operation.GET, None, UNIT_SHOP, None, ShopTypes.item)] *)
Definition new_item : M World Value :=
    Store.access Operation.GET VNone [AStr UNIT_SHOP; ANone; AType ShopTypes.item].

Definition item (entity_id : Z) : Entity.t := Entity.Obj UNIT_SHOP entity_id ShopTypes.item.

  (** The store after [m] has run. *)
Definition after {A} (m : M World A) (w : World) : World := (m w).2.

  (** One item is created; its stock is set to 7. *)
Definition one_item : World := after new_item declared.
Definition stocked : World :=
    after (Store.entity_access (item 1) Operation.SET (VAtom (AInt 7)) [AField ItemMeta.stock])
          one_item.

  (** A persister that has not generated any schema yet. *)
Definition persister (w : World) : Persist := mkPersist w ∅ ∅ ∅ 0 [].

  (** The value and the state a run ends with. *)
Definition result_of {S A} (d : A) (x : Res A * S) : A :=
    match x.1 with Ok a => a | Raise _ => d end.
Definition state_of {S A} (x : Res A * S) : S := x.2.

  (** [e.committed = c], an assignment by a caller: the attribute is an
      ordinary public one. *)
Definition assign_committed (e : Entity.t) (c : Value) : M World () :=
    Store.update_slot (Entity.global_id e) (with_committed c).

  (** [e.committed] *)
Definition committed_attr (w : World) (e : Entity.t) : option Value :=
    committed <$> _entity_map w !! Entity.global_id e.

  (** [entities[e.global_id()][0].get(name)] *)
Definition stored_value (w : World) (e : Entity.t) (name : FieldName) : option Value :=
    sl ← _entity_map w !! Entity.global_id e; dict_get name (e_map sl).

  (** The occurrences stored in a container, as iterating it yields
      them. *)
Definition occurrences (v : option Value) : list Atom :=
    match v with
    | Some (VList l) => l
    | Some (VSet s) => elements s
    | _ => []
    end.

  (** Two items; the second becomes the owner of the first, and the
      first is then flagged as committed. *)
Definition two_items : World := after new_item one_item.
Definition owned : World :=
    after (Store.entity_access (item 1) Operation.SET (VAtom (AEntity (item 2)))
             [AField ItemMeta.owner]) two_items.
Definition owned_committed : World :=
    after (assign_committed (item 1) (VAtom (AInt 1))) owned.

  (** The second item is added to the friends of the first, which is
      then flagged as committed. *)
Definition befriended : World :=
    after (Store.entity_access (item 1) Operation.ADD (VAtom (AEntity (item 2)))
             [AField ItemMeta.friends]) two_items.
Definition befriended_committed : World :=
    after (assign_committed (item 1) (VAtom (AInt 1))) befriended.

  (** One item with the scores 10, 20, 30, added one by one. *)
Definition scored : World :=
    after (_ <- Store.entity_access (item 1) Operation.ADD (VAtom (AInt 10))
                  [AField ItemMeta.scores] ;;
           _ <- Store.entity_access (item 1) Operation.ADD (VAtom (AInt 20))
                  [AField ItemMeta.scores] ;;
           Store.entity_access (item 1) Operation.ADD (VAtom (AInt 30))
             [AField ItemMeta.scores])
          one_item.

  (** [generate_schema(UNIT_ENTITY, EntityTypes)] on a fresh persister. *)
Definition base_schema_run : Res (list Statement) * Persist :=
    SqlPersist.generate_schema UNIT_ENTITY EntityTypes.members None (persister declared).


  (** A persister over the store [w] once the shop's schema exists. *)
Definition with_schema (w : World) : Persist :=
    state_of (SqlPersist.generate_schema UNIT_SHOP ShopTypes.members None (persister w)).

  (** The same persister and database in a process that has just
      declared the schema and holds no item yet. *)
Definition restarted (p : Persist) : Persist := with_world (λ _, declared) p.

  (** The rows of a table. *)
Definition rows (p : Persist) (table : string) : list Row :=
    default [] (database p !! table).

  (** One item whose scores are set to 1, 2, 3; its rows are inserted,
      and the scores are then set to 1, 2. *)
Definition scored_123 : World :=
    after (Store.entity_access (item 1) Operation.SET
             (VList [AInt 1; AInt 2; AInt 3]) [AField ItemMeta.scores])
          one_item.

Definition inserted : Persist :=
    state_of (SqlPersist.insert_entity (item 1) None (with_schema scored_123)).

Definition rescored : Persist :=
    with_world (after (Store.entity_access (item 1) Operation.SET
                         (VList [AInt 1; AInt 2]) [AField ItemMeta.scores]))
               inserted.

  (** The slot of an entity in a store. *)
Definition slot (w : World) (e : Entity.t) : Slot :=
    default (mkSlot [] e VFalse) (_entity_map w !! Entity.global_id e).

  (** One item with the tag [new]. *)
Definition tagged : World :=
    after (Store.entity_access (item 1) Operation.ADD (VAtom (AStr "new"))
             [AField ItemMeta.tags]) one_item.

  (** A field member of an enumeration that was never loaded. *)
Definition colour :=
    MetaProps.Member "PaintMeta" "colour" Datatypes.STRING ValueTypes.SINGLE 1 30.

End Example.

(* ===================================================================== *)
(** ** Statements, traces and rows: vocabulary of the properties *)
(* ===================================================================== *)


(** The events of [__update_entity_values] for each statement of a list. *)
Definition cursor_events (conn : nat) (sts : list Statement) : list Event :=
  sts ≫= λ st, [OpenCursor conn; Execute conn st; CloseCursor conn].

(** The persister once the connection [conn] has run [sts], leaving the
    tables [db]. *)
Definition executed (conn : nat) (sts : list Statement) (db : Database) (p : Persist)
  : Persist :=
  mkPersist (world p) (__persisted_types p) (__unit_meta_unit p) db (next_conn p)
            (trace p ++ cursor_events conn sts)%list.

(** The statements a trace records, in order. *)
Definition statements_of (tr : list Event) : list Statement :=
  omap (λ ev, match ev with Execute _ st => Some st | _ => None end) tr.

(** The rows [enumerate(multivalues_array)] yields for one entity, and
    the insertions that write them. *)
Fixpoint numbered (gid : GlobalId) (value_cnt : Z) (l : list Atom) : list Row :=
  match l with
  | [] => []
  | value :: rest =>
      [VAtom (AGid gid); VAtom (AInt value_cnt); VAtom value]
        :: numbered gid (value_cnt + 1) rest
  end.

Fixpoint insertions (gid : GlobalId) (sql_table : SqlTable) (field_name : string)
    (value_cnt : Z) (l : list Atom) : list Statement :=
  match l with
  | [] => []
  | value :: rest =>
      InsertInto sql_table [ ("_global_id", VAtom (AGid gid));
                             ("_value_cnt", VAtom (AInt value_cnt));
                             ("_" ++ field_name ++ "_value", VAtom value) ]
        :: insertions gid sql_table field_name (value_cnt + 1) rest
  end.

(** The elements of what was read from a multi-valued field. *)
Definition items (v : Value) : list Atom :=
  match v with VList l => l | _ => [] end.

Definition rows_in (db : Database) (table : string) : list Row :=
  default [] (db !! table).

(** No row of [rows] has the key of an occurrence of [gid] numbered [k]
    or later. *)
Definition fresh_from (gid : GlobalId) (k : Z) (rows : list Row) : Prop :=
  ∀ r (j : Z), r ∈ rows → (k ≤ j)%Z → take 2 r ≠ [VAtom (AGid gid); VAtom (AInt j)].


(** The statements that replace the rows of one multi-valued field of
    [entity], and what they leave in its table. *)
Definition replacement (entity : Entity.t) (name : string) (reads : MetaProps.t → Value)
    (f : MetaProps.t) : list Statement :=
  DeleteFrom (SqlPersist.multivalue_table name f)
             [("_global_id", VAtom (AGid (Entity.global_id entity)))]
    :: insertions (Entity.global_id entity) (SqlPersist.multivalue_table name f)
         (MetaProps.name f) 0 (items (reads f)).

Definition replaced_rows (entity : Entity.t) (reads : MetaProps.t → Value)
    (rows : list Row) (f : MetaProps.t) : list Row :=
  (filter (λ r, global_id_of r ≠ VAtom (AGid (Entity.global_id entity))) rows
     ++ numbered (Entity.global_id entity) 0 (items (reads f)))%list.

Definition replace_rows (entity : Entity.t) (name : string) (reads : MetaProps.t → Value)
    (db : Database) (f : MetaProps.t) : Database :=
  <[table_name (SqlPersist.multivalue_table name f)
    := replaced_rows entity reads
         (rows_in db (table_name (SqlPersist.multivalue_table name f))) f]> db.


(** What [insert_entity] leaves in the table of one multi-valued field. *)
Definition appended_rows (entity : Entity.t) (reads : MetaProps.t → Value)
    (rows : list Row) (f : MetaProps.t) : list Row :=
  (rows ++ numbered (Entity.global_id entity) 0 (items (reads f)))%list.

Definition append_rows (entity : Entity.t) (name : string) (reads : MetaProps.t → Value)
    (db : Database) (f : MetaProps.t) : Database :=
  <[table_name (SqlPersist.multivalue_table name f)
    := appended_rows entity reads
         (rows_in db (table_name (SqlPersist.multivalue_table name f))) f]> db.

(** The entity has no row in [rows]. *)
Definition without_rows_of (entity : Entity.t) (rows : list Row) : Prop :=
  Forall (λ r, global_id_of r ≠ VAtom (AGid (Entity.global_id entity))) rows.

(** The configuration [_get_field_config] finds for a qualified field
    name, if any. *)
Definition config_of (w : World) (g : FieldName) : option FieldConfig :=
  let '(unit_name, meta_type, field) := g in
  if bool_decide (meta_type ∈ [FieldProps.name EntityTypes.type_meta;
                               FieldProps.name EntityTypes.meta_field])
  then enum_configs w !! (UNIT_ENTITY_META, meta_type, field)
  else enum_configs w !! (unit_name, meta_type, field).

(** The entry [__to_json] writes for an item of an entity's dictionary. *)
Definition json_entry (w : World) (item : FieldName * Value) : FieldName * Value :=
  (item.1,
   match config_of w item.1, item.2 with
   | Some cfg, VSet s =>
       if ValueTypes.multivalued (cfg_valuetype cfg) then VList (elements s) else item.2
   | _, _ => item.2
   end).

(* ===================================================================== *)
(** The primary table of a meta-type: [sql_tables[0]]. *)
Definition primary_of (name : string) (fs : list MetaProps.t) : SqlTable :=
  default (SqlPersist.primary_table name) (head (SqlPersist.__sql_tables name fs)).

(** * Properties *)
(* ===================================================================== *)

Section DictFacts.
Context {K V : Type} `{EqDecision K}.
Implicit Types (k : K) (v : V) (d : list (K * V)).

Lemma dict_get_set_eq k v d : dict_get k (dict_set k v d) = Some v.
  Proof.
    induction d as [|[k' v'] d IH]; simpl.
    - by rewrite decide_True.
    - destruct (decide (k = k')) as [->|Hne]; simpl.
      + by rewrite decide_True.
      + by rewrite decide_False.
  Qed.

Lemma dict_get_set_ne k k' v d :
    k ≠ k' → dict_get k' (dict_set k v d) = dict_get k' d.
  Proof.
    intros Hne. induction d as [|[k2 v2] d IH]; simpl.
    - by rewrite decide_False.
    - destruct (decide (k = k2)) as [->|Hne2]; simpl.
      + by rewrite !decide_False.
      + destruct (decide (k' = k2)); done.
  Qed.

Lemma dict_set_same k v d : dict_get k d = Some v → dict_set k v d = d.
  Proof.
    induction d as [|[k2 v2] d IH]; simpl; [done|].
    destruct (decide (k = k2)) as [->|Hne]; [by intros [= ->]|].
    intros H. by rewrite IH.
  Qed.
End DictFacts.

(** ** The access engine on one field of a stored entity *)

(** The entity [e] is the object stored under its own global id. *)
Definition stored (w : World) (e : Entity.t) (sl : Slot) : Prop :=
  _entity_map w !! Entity.global_id e = Some sl ∧ entity sl = e.

(** What [Store.access] does once the entity is found and one field is
    left on the path. *)
Definition field_access (e : Entity.t) (f : MetaProps.t) (operation : Operation.t)
    (value : Value) : M World Value :=
  let path := [AStr (Entity.unit e); AInt (Entity.entity_id e);
               AType (Entity.meta_type e); AField f] in
  w <- get ;;
  lo <- Store._access_data_get_value (VAtom (AEntity e)) (AField f) VNone ;;
  match operation with
  | Operation.SET | Operation.ADD | Operation.CHANGE =>
      r <- Store._access_data_set_value (VAtom (AEntity e)) (AField f) value operation ;;
      (if r.1 && _messages_create_message w
       then Store._create_message operation path [AGid (Entity.global_id e)]
       else ret tt) ;;;
      ret r.2
  | Operation.GET | Operation.VISIT => ret lo
  | _ => ret VNone
  end.

Lemma entity_access_with_field incr w e sl f operation value :
  stored w e sl →
  Store.entity_access_with (Store.access_body incr) e operation value [AField f] w
  = field_access e f operation value w.
Proof.
  intros [Hsl He].
  unfold Store.entity_access_with, Store.access_body, field_access.
  unfold Entity.global_id in Hsl.
  cbv [bind get ret Store.locate Store._resolve_global_id Store._ref Store.idx_of drop]. 
  rewrite Hsl.
  cbn -[Store._access_data_get_value Store._access_data_set_value Store._create_message].
  rewrite He. cbv [bind ret].
  destruct (Store._access_data_get_value _ _ _ w) as [[a|x] s']; [|done].
  by destruct operation.
Qed.

Lemma entity_access_field w e sl f operation value :
  stored w e sl →
  Store.entity_access e operation value [AField f] w = field_access e f operation value w.
Proof. apply entity_access_with_field. Qed.


Lemma bind_ok {S A B} (m : M S A) (k : A → M S B) s a s' :
  m s = (Ok a, s') → bind m k s = k a s'.
Proof. intros H. unfold bind. by rewrite H. Qed.

Lemma bind_raise {S A B} (m : M S A) (k : A → M S B) s e s' :
  m s = (Raise e, s') → bind m k s = (Raise e, s').
Proof. intros H. unfold bind. by rewrite H. Qed.

(** [entities[gid] = (e_map, e)] replaced as a whole. *)
Definition put_slot (gid : GlobalId) (sl : Slot) (w : World) : World :=
  with_entity_map <[gid := sl]> w.

(** The slot after [Store._set_uncommitted]. *)
Definition uncommitted (sl : Slot) : Slot :=
  mkSlot (dict_set Store.committed_field VFalse (e_map sl)) (entity sl) VFalse.

Lemma stored_put_slot w e sl' :
  entity sl' = e → stored (put_slot (Entity.global_id e) sl' w) e sl'.
Proof. intros He. split; [|done]. cbn. apply lookup_insert_eq. Qed.

Lemma put_slot_put_slot gid sl1 sl2 w :
  put_slot gid sl2 (put_slot gid sl1 w) = put_slot gid sl2 w.
Proof. unfold put_slot, with_entity_map. cbn. by rewrite insert_insert_eq. Qed.

Lemma slot_of_stored w e sl :
  stored w e sl → Store.slot_of (Entity.global_id e) w = (Ok sl, w).
Proof. intros [H _]. unfold Store.slot_of. cbv [bind get]. by rewrite H. Qed.

Lemma update_slot_stored w e sl f :
  stored w e sl →
  Store.update_slot (Entity.global_id e) f w = (Ok tt, put_slot (Entity.global_id e) (f sl) w).
Proof.
  intros [H _]. unfold Store.update_slot, modify, put_slot, with_entity_map.
  by rewrite H.
Qed.

Lemma set_item_stored w e sl name v :
  stored w e sl →
  Store.set_item (Entity.global_id e) name v w
  = (Ok tt, put_slot (Entity.global_id e) (with_e_map (dict_set name v) sl) w).
Proof. apply update_slot_stored. Qed.

Lemma set_uncommitted_stored w e sl :
  stored w e sl →
  Store._set_uncommitted (Entity.global_id e) w
  = (Ok true, put_slot (Entity.global_id e) (uncommitted sl) w).
Proof.
  intros H. unfold Store._set_uncommitted.
  erewrite bind_ok; [|by apply update_slot_stored].
  erewrite bind_ok; [|apply set_item_stored, stored_put_slot; by destruct H].
  by rewrite put_slot_put_slot.
Qed.

(** The unit of an entity is registered, under its name, as an entity
    of meta-type [unit]. *)
Definition unit_registered (w : World) (unit_name : string) : Prop :=
  ∃ unit, enum_units w !! unit_name = Some unit
          ∧ Entity.meta_type unit = EntityTypes.unit.

(** Units whose entities never notify the bus. *)
Definition reserved_unit (w : World) (unit_name : string) : bool :=
  bool_decide (unit_name = _UNIT_MESSAGE w)
  || bool_decide (unit_name = UNIT_ENTITY)
  || Store.ends_with_meta unit_name.

(** The outbox after a change of field [f] of entity [e] was reported. *)
Definition notified (operation : Operation.t) (e : Entity.t) (f : MetaProps.t)
    (w : World) : list Message :=
  if _messages_create_message w && Store.notifying operation
     && negb (reserved_unit w (Entity.unit e))
  then (outbox w ++ [mkMessage operation
                       [AStr (FieldProps.name (Entity.meta_type e)); AStr (MetaProps.name f)]
                       [AGid (Entity.global_id e)]])%list
  else outbox w.

Lemma create_message_stored w e sl f operation :
  stored w e sl →
  unit_registered w (Entity.unit e) →
  Store._create_message operation
    [AStr (Entity.unit e); AInt (Entity.entity_id e); AType (Entity.meta_type e); AField f]
    [AGid (Entity.global_id e)] w
  = (Ok tt, with_outbox (λ _, notified operation e f w) w).
Proof.
  intros [Hsl He] (u & Hu & Hut).
  unfold Store._create_message, notified, reserved_unit.
  cbv [bind get]. destruct w as [em eu et etg ef ec hook um ob]; cbn in *.
  destruct hook; cbn; [|done].
  destruct (Store.notifying operation); cbn; [|done].
  unfold Entity.global_id in *. cbv [bind get]. cbn. rewrite Hu.
  rewrite decide_True by done. rewrite Hsl. cbv [ret]. cbn.
  by destruct (bool_decide _ || bool_decide _ || Store.ends_with_meta _).
Qed.

Lemma resolve_global_id_pure v w : (Store._resolve_global_id v w).2 = w.
Proof.
  unfold Store._resolve_global_id. cbv [bind get ret raise].
  repeat case_match; done.
Qed.

Lemma resolve_global_id_not_gid v w :
  (∀ gid, v ≠ VAtom (AGid gid)) → Store._resolve_global_id v w = (Ok None, w).
Proof.
  intros H. unfold Store._resolve_global_id.
  destruct v as [[]| | |]; try done. by destruct (H g).
Qed.

(** Reading never changes the tables. *)
Lemma get_value_pure obj key d w : (Store._access_data_get_value obj key d w).2 = w.
Proof.
  unfold Store._access_data_get_value, Store.enum_field_name, Store.slot_of,
    Store.list_getitem, getitem.
  cbv [bind get ret raise].
  repeat case_match; try done.
  all: repeat match goal with
       | H : Store._resolve_global_id ?v ?w = (_, ?w') |- _ =>
           let Hp := fresh in
           pose proof (resolve_global_id_pure v w) as Hp; rewrite H in Hp; simpl in Hp;
           clear H; subst
       end.
  all: by simplify_eq/=.
Qed.

Lemma get_value_stored w e sl f g d :
  stored w e sl →
  enum_fields w !! MetaProps.key f = Some g →
  (∀ gid, dict_get g (e_map sl) ≠ Some (VAtom (AGid gid))) →
  Store._access_data_get_value (VAtom (AEntity e)) (AField f) d w
  = (Ok (default d (dict_get g (e_map sl))), w).
Proof.
  intros Hst Hf Hv. unfold Store._access_data_get_value.
  erewrite bind_ok;
    [|unfold Store.enum_field_name; cbv [bind get]; rewrite Hf; reflexivity].
  erewrite bind_ok; [|by apply slot_of_stored].
  destruct (dict_get g (e_map sl)) as [v|] eqn:Hg; [|done].
  erewrite bind_ok;
    [|apply resolve_global_id_not_gid; intros gid ->; by apply (Hv gid)].
  done.
Qed.

(** [CHANGE] on a single-valued field that holds an integer. *)
Lemma set_value_change w e sl f g cfg v d :
  stored w e sl →
  enum_fields w !! MetaProps.key f = Some g →
  enum_configs w !! g = Some cfg →
  MetaProps.valuetype f = ValueTypes.SINGLE →
  dict_get g (e_map sl) = Some (VAtom (AInt v)) →
  Store._access_data_set_value (VAtom (AEntity e)) (AField f) (VAtom (AInt d))
    Operation.CHANGE w
  = (Ok (true, VAtom (AInt (v + d))),
     put_slot (Entity.global_id e)
       (uncommitted (with_e_map (dict_set g (VAtom (AInt (v + d)))) sl)) w).
Proof.
  intros Hst Hf Hc Hvt Hg. unfold Store._access_data_set_value.
  erewrite bind_ok; [|by apply slot_of_stored].
  erewrite bind_ok; [|reflexivity].
  rewrite Hf. erewrite bind_ok; [|reflexivity].
  rewrite Hc. erewrite bind_ok; [|reflexivity].
  rewrite Hvt, Hg.
  destruct (MetaProps.datatype f).
  all: erewrite bind_ok; [|reflexivity].
  all: erewrite bind_ok; [|reflexivity].
  all: erewrite bind_ok; [|by apply set_item_stored].
  all: erewrite bind_ok;
         [|apply set_uncommitted_stored, stored_put_slot; by destruct Hst].
  all: by rewrite put_slot_put_slot.
Qed.

(** ** CHANGE *)

Lemma field_access_change w e sl f g cfg v d :
  stored w e sl →
  unit_registered w (Entity.unit e) →
  enum_fields w !! MetaProps.key f = Some g →
  enum_configs w !! g = Some cfg →
  MetaProps.valuetype f = ValueTypes.SINGLE →
  dict_get g (e_map sl) = Some (VAtom (AInt v)) →
  field_access e f Operation.CHANGE (VAtom (AInt d)) w
  = (Ok (VAtom (AInt (v + d))),
     with_outbox (λ _, notified Operation.CHANGE e f w)
       (put_slot (Entity.global_id e)
          (uncommitted (with_e_map (dict_set g (VAtom (AInt (v + d)))) sl)) w)).
Proof.
  intros Hst Hu Hf Hc Hvt Hv.
  pose proof Hst as [Hsl He].
  set (sl' := uncommitted (with_e_map (dict_set g (VAtom (AInt (v + d)))) sl)).
  set (w1 := put_slot (Entity.global_id e) sl' w).
  assert (Hst1 : stored w1 e sl') by (by apply stored_put_slot).
  unfold field_access.
  erewrite bind_ok; [|reflexivity].
  erewrite bind_ok; [|apply get_value_stored with (g := g); [done..|]].
  2: { intros gid. by rewrite Hv. }
  erewrite bind_ok; [|by eapply set_value_change].
  cbn [fst snd andb].
  destruct (_messages_create_message w) eqn:Hhook.
  - erewrite bind_ok; [|eapply create_message_stored; [exact Hst1|exact Hu]].
    done.
  - erewrite bind_ok; [|reflexivity]. unfold ret. f_equal.
    unfold notified. cbn. rewrite Hhook. cbn. by destruct w.
Qed.

(** C6.  For an entity of the store and a single-valued field that holds
    the number [v], [CHANGE] with delta [d] stores [v + d], returns the
    new value and marks the entity uncommitted whatever [d] is, zero
    included; the change is reported to the bus unless the unit is a
    reserved one. *)
Theorem change_stores_sum_and_dirties w e sl f g cfg v d :
  stored w e sl →
  unit_registered w (Entity.unit e) →
  enum_fields w !! MetaProps.key f = Some g →
  enum_configs w !! g = Some cfg →
  MetaProps.valuetype f = ValueTypes.SINGLE →
  g ≠ Store.committed_field →
  dict_get g (e_map sl) = Some (VAtom (AInt v)) →
  ∃ w' sl',
    Store.entity_access e Operation.CHANGE (VAtom (AInt d)) [AField f] w
      = (Ok (VAtom (AInt (v + d))), w')
    ∧ stored w' e sl'
    ∧ dict_get g (e_map sl') = Some (VAtom (AInt (v + d)))
    ∧ committed sl' = VFalse
    ∧ dict_get Store.committed_field (e_map sl') = Some VFalse
    ∧ outbox w' = notified Operation.CHANGE e f w.
Proof.
  intros Hst Hu Hf Hc Hvt Hg Hv.
  eexists _, _.
  refine (conj _ (conj _ (conj _ (conj _ (conj _ _))))).
  - rewrite (entity_access_field _ _ _ _ _ _ Hst).
    by eapply field_access_change.
  - apply stored_put_slot. by destruct Hst.
  - cbn. rewrite dict_get_set_ne by (intros ?; by apply Hg).
    apply dict_get_set_eq.
  - done.
  - cbn. apply dict_get_set_eq.
  - done.
Qed.

Lemma change_stores_sum_and_dirties_witness :
  ∃ w' sl',
    Store.entity_access (Example.item 1) Operation.CHANGE (VAtom (AInt 0))
      [AField Example.ItemMeta.stock] Example.stocked
      = (Ok (VAtom (AInt (7 + 0))), w')
    ∧ stored w' (Example.item 1) sl'
    ∧ dict_get ("shop_meta", "item", "stock") (e_map sl') = Some (VAtom (AInt (7 + 0)))
    ∧ committed sl' = VFalse
    ∧ dict_get Store.committed_field (e_map sl') = Some VFalse
    ∧ outbox w' = notified Operation.CHANGE (Example.item 1) Example.ItemMeta.stock
                    Example.stocked.
Proof.
  eapply (change_stores_sum_and_dirties Example.stocked (Example.item 1)).
  - split; [vm_compute; reflexivity|reflexivity].
  - eexists. split; vm_compute; reflexivity.
  - vm_compute; reflexivity.
  - vm_compute; reflexivity.
  - reflexivity.
  - vm_compute. discriminate.
  - vm_compute; reflexivity.
Defined.

(** ** Identifiers issued by a unit's counter *)

(** Every object sits under its own global id. *)
Definition store_wf (w : World) : Prop :=
  map_Forall (λ gid sl, Entity.global_id (entity sl) = gid) (_entity_map w).

#[global] Instance store_wf_dec w : Decision (store_wf w).
Proof. unfold store_wf. apply _. Defined.

(** The unit [u] is registered, its entity [hu] is stored and holds the
    counter value [c]. *)
Definition counter_ready (w : World) (u : string) (hu : Entity.t) (c : Z) : Prop :=
  enum_units w !! u = Some hu
  ∧ unit_registered w (Entity.unit hu)
  ∧ ∃ sl g cfg,
      stored w hu sl
      ∧ enum_fields w !! MetaProps.key UnitMeta.id_cnt = Some g
      ∧ enum_configs w !! g = Some cfg
      ∧ g ≠ Store.committed_field
      ∧ dict_get g (e_map sl) = Some (VAtom (AInt c)).

Lemma increment_unit_counter_ready w u hu c :
  counter_ready w u hu c →
  ∃ w', Store.increment_unit_counter (AStr u) w = (Ok (VAtom (AInt (c + 1))), w')
        ∧ counter_ready w' u hu (c + 1)
        ∧ (store_wf w → store_wf w')
        ∧ enum_types w' = enum_types w.
Proof.
  intros (Hu & Huu & sl & g & cfg & Hst & Hf & Hc & Hg & Hv).
  eexists. split; [|split; [|split]].
  - unfold Store.increment_unit_counter, Store.increment_unit_counter_with.
    erewrite bind_ok; [|reflexivity]. rewrite Hu.
    erewrite bind_ok; [|reflexivity].
    unfold Store.access_explicit.
    rewrite (entity_access_with_field _ _ _ _ _ _ _ Hst).
    by eapply field_access_change.
  - split; [exact Hu|]. split; [exact Huu|].
    eexists _, g, cfg. split; [|split; [exact Hf|split; [exact Hc|split; [exact Hg|]]]].
    + apply stored_put_slot. by destruct Hst.
    + cbn. rewrite dict_get_set_ne by (intros ?; by apply Hg).
      apply dict_get_set_eq.
  - intros Hwf gid sl' Hl. cbn in Hl.
    destruct (decide (Entity.global_id hu = gid)) as [<-|Hne].
    + rewrite lookup_insert_eq in Hl. injection Hl as <-. cbn. destruct Hst as [_ ->]. done.
    + rewrite lookup_insert_ne in Hl by done. by apply Hwf.
  - done.
Qed.

Lemma create_message_silent operation path entities w :
  Store.notifying operation = false →
  Store._create_message operation path entities w = (Ok tt, w).
Proof.
  intros H. unfold Store._create_message. erewrite bind_ok; [|reflexivity].
  cbv beta. rewrite H, andb_false_r. reflexivity.
Qed.

Lemma create_without_id w u hu c t mt :
  store_wf w →
  counter_ready w u hu c →
  u ≠ "" →
  enum_types w !! FieldProps.key t = Some mt →
  ∃ w' e,
    Store.access Operation.GET VNone [AStr u; ANone; AType t] w = (Ok (VAtom (AEntity e)), w')
    ∧ Entity.global_id e = (u, c + 1, FieldProps.name t)
    ∧ store_wf w'
    ∧ counter_ready w' u hu (c + 1)
    ∧ enum_types w' = enum_types w.
Proof.
  intros Hwf Hcr Hne Ht.
  destruct (increment_unit_counter_ready _ _ _ _ Hcr) as (w1 & Hinc & Hcr1 & Hwf1 & Ht1).
  specialize (Hwf1 Hwf).
  assert (Hdone : ∀ w (e : Entity.t),
    ((if _messages_create_message w
      then Store._create_message Operation.GET [] [AGid (Entity.global_id e)]
      else ret tt) ;;; ret (VAtom (AEntity e))) w = (Ok (VAtom (AEntity e)), w)).
  { intros w0 e0. destruct (_messages_create_message w0); [|reflexivity].
    erewrite bind_ok; [reflexivity|]. by apply create_message_silent. }
  unfold Store.access, Store.access_body.
  erewrite bind_ok; last first.
  { unfold Store.locate. erewrite bind_ok; [|reflexivity]. cbv beta iota.
    erewrite bind_ok; [|exact Hinc]. reflexivity. }
  cbv beta iota. cbn [Store.idx_of drop].
  destruct (_entity_map w1 !! (u, c + 1, FieldProps.name t)) as [sl2|] eqn:Hl.
  - exists w1, (entity sl2).
    split; [|split; [by apply Hwf1|done]].
    erewrite bind_ok; last first.
    { erewrite bind_ok; [|reflexivity]. cbv beta iota. rewrite Hl. reflexivity. }
    cbv beta iota.
    erewrite bind_ok; [|reflexivity]. cbv beta iota.
    apply Hdone.
  - destruct Hcr1 as (Hu1 & Huu1 & sl1 & g & cfg & Hst1 & Hf1 & Hc1 & Hg1 & Hv1).
    rewrite <- Ht1 in Ht.
    set (e := Entity.Obj u (c + 1) t).
    set (w2 := with_entity_map
                 <[Entity.global_id e :=
                     mkSlot [ (Store.unit_field, VAtom (AGid (Entity.global_id hu)));
                              (Store.entity_id_field, VAtom (AInt (c + 1)));
                              (Store.meta_type_field, VAtom (AGid (Entity.global_id mt)));
                              (Store.committed_field, VFalse) ] e VFalse ]> w1).
    exists w2, e.
    assert (Hk : Entity.global_id hu ≠ Entity.global_id e).
    { intros Heq. destruct Hst1 as [Hs _]. rewrite Heq in Hs.
      change (Entity.global_id e) with (u, c + 1, FieldProps.name t) in Hs.
      by rewrite Hl in Hs. }
    split; [|split; [done|split; [|split]]].
    + erewrite bind_ok; last first.
      { erewrite bind_ok; [|reflexivity]. cbv beta iota. rewrite Hl.
        erewrite bind_ok; [reflexivity|].
        unfold Store._create_entity. erewrite bind_ok; [|reflexivity]. cbv beta.
        destruct (String.eqb u "") eqn:Hu0; [by apply String.eqb_eq in Hu0|].
        rewrite Hu1. erewrite bind_ok; [|reflexivity]. cbv beta.
        rewrite Ht. erewrite bind_ok; [|reflexivity]. cbv beta zeta.
        erewrite bind_ok; reflexivity. }
      cbv beta iota.
      erewrite bind_ok; [|reflexivity]. cbv beta iota.
      apply (Hdone w2 e).
    + intros gid sl' Hl'. cbn in Hl'.
      destruct (decide (Entity.global_id e = gid)) as [<-|Hne'].
      * rewrite lookup_insert_eq in Hl'. by injection Hl' as <-.
      * rewrite lookup_insert_ne in Hl' by done. by apply Hwf1.
    + split; [exact Hu1|]. split; [exact Huu1|].
      exists sl1, g, cfg. split; [|done].
      destruct Hst1 as [Hs He1]. split; [|done].
      cbn. by rewrite lookup_insert_ne.
    + done.
Qed.

Lemma seqZ_strictly_increasing m (n : nat) :
  StronglySorted Z.lt (seqZ m (Z.of_nat n)).
Proof.
  revert m. induction n as [|n IH]; intros m.
  - rewrite seqZ_nil by lia. constructor.
  - rewrite seqZ_cons by lia.
    replace (Z.pred (Z.of_nat (S n))) with (Z.of_nat n) by lia.
    constructor; [apply IH|].
    apply Forall_seqZ. lia.
Qed.

Lemma create_entities_ids w u hu c ts :
  store_wf w →
  counter_ready w u hu c →
  u ≠ "" →
  Forall (λ t, is_Some (enum_types w !! FieldProps.key t)) ts →
  ∃ w' es,
    create_entities u ts w = (Ok es, w')
    ∧ entity_id_of <$> es = Some <$> seqZ (c + 1) (Z.of_nat (length ts))
    ∧ store_wf w'
    ∧ counter_ready w' u hu (c + Z.of_nat (length ts)).
Proof.
  intros Hwf Hcr Hne Hts. revert w c Hwf Hcr Hts.
  induction ts as [|t ts IH]; intros w c Hwf Hcr Hts.
  - exists w, []. cbn. rewrite Z.add_0_r. by rewrite seqZ_nil.
  - apply Forall_cons in Hts as [[mt Ht] Hts].
    destruct (create_without_id _ _ _ _ _ _ Hwf Hcr Hne Ht)
      as (w1 & e & Hacc & Hgid & Hwf1 & Hcr1 & Hty).
    destruct (IH w1 (c + 1) Hwf1 Hcr1) as (w2 & es & Hrest & Hids & Hwf2 & Hcr2).
    { by rewrite Hty. }
    exists w2, (VAtom (AEntity e) :: es).
    split; [|split; [|split; [done|]]].
    + cbn [create_entities]. erewrite bind_ok; [|exact Hacc]. cbv beta.
      erewrite bind_ok; [|exact Hrest]. reflexivity.
    + rewrite seqZ_cons by (cbn [length]; lia).
      rewrite !fmap_cons. f_equal.
      * cbn. f_equal. by injection Hgid.
      * rewrite Hids. do 2 f_equal; cbn [length]; lia.
    + replace (c + Z.of_nat (length (t :: ts))) with (c + 1 + Z.of_nat (length ts))
        by (cbn [length]; lia).
      done.
Qed.

(** C8.  Creating [N] entities under a unit without explicit ids, of
    whatever meta-types, takes the ids [c + 1 .. c + N] from the unit's
    counter [c]: they are strictly increasing and pairwise distinct, all
    above the counter's old value, and the counter ends at [c + N], so
    a later creation cannot reuse any of them. *)
Theorem auto_ids_strictly_increasing w u hu c ts :
  store_wf w →
  counter_ready w u hu c →
  u ≠ "" →
  Forall (λ t, is_Some (enum_types w !! FieldProps.key t)) ts →
  ∃ w' es ids,
    create_entities u ts w = (Ok es, w')
    ∧ entity_id_of <$> es = Some <$> ids
    ∧ length ids = length ts
    ∧ StronglySorted Z.lt ids
    ∧ NoDup ids
    ∧ Forall (λ i, c < i ≤ c + Z.of_nat (length ts)) ids
    ∧ counter_ready w' u hu (c + Z.of_nat (length ts)).
Proof.
  intros Hwf Hcr Hne Hts.
  destruct (create_entities_ids _ _ _ _ _ Hwf Hcr Hne Hts) as (w' & es & Hrun & Hids & _ & Hcr').
  exists w', es, (seqZ (c + 1) (Z.of_nat (length ts))).
  split_and!; try done.
  - rewrite length_seqZ. lia.
  - apply seqZ_strictly_increasing.
  - apply NoDup_seqZ.
  - apply Forall_seqZ. lia.
Qed.

Lemma auto_ids_strictly_increasing_witness :
  ∃ w' es ids,
    create_entities Example.UNIT_SHOP
      [Example.ShopTypes.item; Example.ShopTypes.category; Example.ShopTypes.item]
      Example.declared = (Ok es, w')
    ∧ entity_id_of <$> es = Some <$> ids
    ∧ length ids = 3%nat
    ∧ StronglySorted Z.lt ids
    ∧ NoDup ids
    ∧ Forall (λ i, 0 < i ≤ 0 + 3) ids
    ∧ counter_ready w' Example.UNIT_SHOP (Entity.Obj UNIT_ENTITY 3 EntityTypes.unit) (0 + 3).
Proof.
  apply (auto_ids_strictly_increasing Example.declared Example.UNIT_SHOP
           (Entity.Obj UNIT_ENTITY 3 EntityTypes.unit) 0
           [Example.ShopTypes.item; Example.ShopTypes.category; Example.ShopTypes.item]).
  - apply (bool_decide_unpack _). vm_compute. exact I.
  - split; [vm_compute; reflexivity|].
    split; [eexists; split; vm_compute; reflexivity|].
    eexists _, _, _.
    split; [split; [vm_compute; reflexivity|reflexivity]|].
    split; [vm_compute; reflexivity|].
    split; [vm_compute; reflexivity|].
    split; [vm_compute; discriminate|vm_compute; reflexivity].
  - vm_compute. discriminate.
  - repeat constructor; vm_compute; eexists; reflexivity.
Defined.

(** ** Schema generation and types whose name starts with an underscore *)

Lemma bind_inv_ok {S A B} (m : M S A) (k : A → M S B) s b s' :
  bind m k s = (Ok b, s') → ∃ a s1, m s = (Ok a, s1) ∧ k a s1 = (Ok b, s').
Proof.
  unfold bind. destruct (m s) as [[a|e] s1]; [|done]. intros H. by exists a, s1.
Qed.

Definition starts_with_underscore (t : FieldProps.t) : bool :=
  match String.get 0 (FieldProps.type_name t) with
  | Some c => Ascii.eqb c "_"%char
  | None => false
  end.

(** The tables of a meta-type registered under [unit_name]. *)
Definition tables_for (unit_name : string) (t : FieldProps.t) : list SqlTable :=
  SqlPersist.__sql_tables (unit_name ++ "_" ++ FieldProps.type_name t)
                          (FieldProps.fields_enum t).

(** The meta-types that get tables. *)
Definition with_tables (types : list FieldProps.t) : list FieldProps.t :=
  filter (λ t, starts_with_underscore t = false) types.

(** The tables created along a trace. *)
Definition created_tables (tr : list Event) : list SqlTable :=
  omap (λ ev, match ev with
              | Execute _ (CreateTable t) => Some t
              | _ => None
              end) tr.

Lemma created_tables_app tr1 tr2 :
  created_tables (tr1 ++ tr2) = (created_tables tr1 ++ created_tables tr2)%list.
Proof. unfold created_tables. apply omap_app. Qed.

(** What a step of the persister leaves alone. *)
Definition same_registry (p p' : Persist) : Prop :=
  world p' = world p
  ∧ __persisted_types p' = __persisted_types p
  ∧ __unit_meta_unit p' = __unit_meta_unit p
  ∧ next_conn p' = next_conn p.

Lemma create_table_spec t c p :
  ∃ p', SqlPersist.create_table (CreateTable t) c p = (Ok tt, p')
        ∧ same_registry p p'
        ∧ trace p' = (trace p ++ [OpenCursor c; Execute c (CreateTable t); CloseCursor c])%list.
Proof.
  destruct p as [w pt um db nc tr].
  unfold SqlPersist.create_table, SqlPersist._create_cursor, SqlPersist.execute,
    SqlPersist._close_cursor.
  cbv [bind modify ret]. cbn [run database emit with_database world __persisted_types
    __unit_meta_unit next_conn trace].
  destruct (db !! table_name t); eexists; (split; [reflexivity|]); cbn;
    rewrite <- !app_assoc; done.
Qed.

Lemma same_registry_trans p1 p2 p3 :
  same_registry p1 p2 → same_registry p2 p3 → same_registry p1 p3.
Proof. unfold same_registry. intros (?&?&?&?) (?&?&?&?). split_and!; congruence. Qed.

Lemma create_tables_spec (tbls : list SqlTable) c p :
  ∃ p', for_each (CreateTable <$> tbls) (λ st, SqlPersist.create_table st c) p = (Ok tt, p')
        ∧ same_registry p p'
        ∧ created_tables (trace p') = (created_tables (trace p) ++ tbls)%list.
Proof.
  revert p. induction tbls as [|t tbls IH]; intros p.
  - exists p. cbn. rewrite app_nil_r. done.
  - destruct (create_table_spec t c p) as (p1 & Hrun1 & Hsame1 & Htr1).
    destruct (IH p1) as (p' & Hrun & Hsame & Htr).
    exists p'. split; [|split].
    + cbn [fmap list_fmap for_each]. erewrite bind_ok; [|exact Hrun1]. exact Hrun.
    + by eapply same_registry_trans.
    + rewrite Htr, Htr1, created_tables_app. cbn. by rewrite <- app_assoc.
Qed.

Lemma try_finally_inv_ok {S A} (body : M S A) (fin : M S ()) s a s' :
  try_finally body fin s = (Ok a, s') →
  ∃ s1, body s = (Ok a, s1) ∧ fin s1 = (Ok tt, s').
Proof.
  unfold try_finally. destruct (body s) as [r s1].
  destruct (fin s1) as [[[]|e] s2] eqn:Hfin; [|done].
  intros [= -> ->]. by exists s1.
Qed.

Lemma table_schemas_spec t u c p :
  __unit_meta_unit p !! FieldProps.key t = Some u →
  ∃ p', SqlPersist.table_schemas t (Some c) p = (Ok (CreateTable <$> tables_for u t), p')
        ∧ same_registry p p'
        ∧ created_tables (trace p') = created_tables (trace p).
Proof.
  intros Hu. destruct p as [w pt um db nc tr]. cbn in Hu.
  unfold SqlPersist.table_schemas.
  erewrite bind_ok; last first.
  { unfold SqlPersist.__table_name. erewrite bind_ok; [|reflexivity]. cbv beta.
    cbn [__unit_meta_unit]. rewrite Hu. reflexivity. }
  cbv beta.
  erewrite bind_ok; last first.
  { unfold SqlPersist.__table_exists_internal, SqlPersist.table_exits,
      SqlPersist._create_cursor, SqlPersist._close_cursor, SqlPersist.execute.
    cbv [bind modify ret try_finally]. cbn [run database emit with_database world
      __persisted_types __unit_meta_unit next_conn trace]. reflexivity. }
  cbv beta. cbn [truthy VNone negb].
  eexists. split; [reflexivity|]. split; [done|].
  cbn. rewrite <- !app_assoc, created_tables_app. cbn. by rewrite app_nil_r.
Qed.

Lemma persisted_register_type u t p :
  persisted (register_type u t p) t = true.
Proof. unfold persisted. cbn. rewrite lookup_insert_eq. by apply bool_decide_eq_true. Qed.

Lemma persisted_register_type_mono u t t0 p :
  persisted p t0 = true → persisted (register_type u t p) t0 = true.
Proof.
  unfold persisted. cbn. rewrite !bool_decide_eq_true. intros H.
  destruct (decide (FieldProps.key t = FieldProps.key t0)) as [->|Hne].
  - by rewrite lookup_insert_eq.
  - by rewrite lookup_insert_ne.
Qed.

Lemma persisted_same_registry p p' t :
  same_registry p p' → persisted p' t = persisted p t.
Proof. intros (_ & H & _). unfold persisted. by rewrite H. Qed.

Lemma with_tables_cons t types :
  with_tables (t :: types)
  = if starts_with_underscore t then with_tables types else t :: with_tables types.
Proof.
  unfold with_tables. rewrite filter_cons.
  destruct (starts_with_underscore t); by case_decide.
Qed.

(** The loop of [generate_schema], from any accumulated [schema0]. *)
Lemma generate_schema_loop_spec u c types :
  ∀ schema0 p schema p',
    foldM (λ (schema : list Statement) unit_meta,
             modify (register_type u unit_meta) ;;;
             b <- SqlPersist.not_underscore unit_meta ;;
             if b then
               tbl_schema_strings <- SqlPersist.table_schemas unit_meta (Some c) ;;
               for_each tbl_schema_strings (λ st, SqlPersist.create_table st c) ;;;
               ret (schema ++ tbl_schema_strings)%list
             else ret schema) schema0 types p = (Ok schema, p') →
    schema = (schema0 ++ (CreateTable <$> flat_map (tables_for u) (with_tables types)))%list
    ∧ created_tables (trace p')
      = (created_tables (trace p) ++ flat_map (tables_for u) (with_tables types))%list
    ∧ world p' = world p
    ∧ (∀ t, t ∈ types → persisted p' t = true)
    ∧ (∀ t, persisted p t = true → persisted p' t = true).
Proof.
  induction types as [|t types IH]; intros schema0 p schema p' Hrun.
  - cbn in Hrun. injection Hrun as <- <-. cbn. rewrite !app_nil_r.
    split_and!; try done. intros t Ht. by apply elem_of_nil in Ht.
  - cbn [foldM] in Hrun.
    apply bind_inv_ok in Hrun as (schema1 & p1 & Hstep & Hrest).
    apply IH in Hrest as (Hs & Htr & Hw & Hin & Hmono). clear IH.
    apply bind_inv_ok in Hstep as ([] & p0 & Hreg & Hstep).
    injection Hreg as <-.
    apply bind_inv_ok in Hstep as (b & p0' & Hb & Hstep).
    rewrite with_tables_cons. unfold starts_with_underscore.
    unfold SqlPersist.not_underscore in Hb.
    destruct (String.get 0 (FieldProps.type_name t)) as [ch|]; [|done].
    injection Hb as <- <-.
    destruct (Ascii.eqb ch "_") eqn:Hch; cbn [negb] in Hstep.
    + injection Hstep as <- <-.
      split_and!; try done.
      * intros t0 [->|Ht0]%elem_of_cons; [|by apply Hin].
        apply Hmono, persisted_register_type.
      * intros t0 Ht0. by apply Hmono, persisted_register_type_mono.
    + destruct (table_schemas_spec t u c (register_type u t p)) as (p2 & Hts & Hsame2 & Htr2).
      { cbn. apply lookup_insert_eq. }
      rewrite (bind_ok _ _ _ _ _ Hts) in Hstep.
      destruct (create_tables_spec (tables_for u t) c p2) as (p3 & Hct & Hsame3 & Htr3).
      rewrite (bind_ok _ _ _ _ _ Hct) in Hstep.
      injection Hstep as <- <-.
      pose proof (same_registry_trans _ _ _ Hsame2 Hsame3) as Hsame.
      split_and!.
      * rewrite Hs. cbn [flat_map]. by rewrite fmap_app, app_assoc.
      * rewrite Htr, Htr3, Htr2. cbn [flat_map]. by rewrite app_assoc.
      * rewrite Hw. by destruct Hsame as [-> _].
      * intros t0 [->|Ht0]%elem_of_cons; [|by apply Hin].
        apply Hmono. rewrite (persisted_same_registry _ _ _ Hsame).
        apply persisted_register_type.
      * intros t0 Ht0. apply Hmono. rewrite (persisted_same_registry _ _ _ Hsame).
        by apply persisted_register_type_mono.
Qed.

Lemma with_tables_entity_types :
  with_tables EntityTypes.members
  = [EntityTypes.type_meta; EntityTypes.unit; EntityTypes.meta_field].
Proof. reflexivity. Qed.

Lemma load_type_underscore t p :
  starts_with_underscore t = true → SqlPersist.load_type t p = (Ok [], p).
Proof.
  unfold starts_with_underscore, SqlPersist.load_type, SqlPersist.not_underscore.
  destruct (String.get 0 (FieldProps.type_name t)) as [ch|]; [|done].
  intros ->. reflexivity.
Qed.

(** C10.  A meta-type whose name starts with an underscore is registered
    among the persisted types by [generate_schema], but the statements
    the call returns and the tables it creates are those of the other
    meta-types only (followed, the first time, by those of the base
    schema, which leaves [_entity_base] out); and [load_type] on it
    returns no entity without opening a connection or running a
    statement. *)
Theorem underscore_type_has_no_table p u types conn schema p' t :
  t ∈ types →
  starts_with_underscore t = true →
  SqlPersist.generate_schema u types conn p = (Ok schema, p') →
  persisted p' t = true
  ∧ (t ∉ with_tables types)
  ∧ schema = CreateTable <$> flat_map (tables_for u) (with_tables types)
  ∧ (∃ base, base ∈ [[]; with_tables EntityTypes.members]
       ∧ created_tables (trace p')
         = (created_tables (trace p)
              ++ (flat_map (tables_for u) (with_tables types)
                    ++ flat_map (tables_for UNIT_ENTITY) base))%list)
  ∧ SqlPersist.load_type t p' = (Ok [], p').
Proof.
  intros Ht Hu Hrun.
  unfold SqlPersist.generate_schema in Hrun.
  apply bind_inv_ok in Hrun as (c & p0 & Hconn & Hrun).
  apply try_finally_inv_ok in Hrun as (p3 & Hbody & Hfin).
  apply bind_inv_ok in Hbody as (schema' & p1 & Hloop & Hbody).
  apply generate_schema_loop_spec in Hloop as (Hs & Htr & Hw & Hin & Hmono).
  apply bind_inv_ok in Hbody as (p1' & p1'' & Hget & Hbody).
  injection Hget as <- <-.
  apply bind_inv_ok in Hbody as ([] & p2 & Hbase & Hret).
  injection Hret as <- <-.
  assert (Htr0 : created_tables (trace p0) = created_tables (trace p)).
  { destruct conn as [c0|]; cbn in Hconn.
    - by injection Hconn as <- <-.
    - injection Hconn as <- <-. cbn. rewrite created_tables_app. cbn.
      by rewrite app_nil_r. }
  assert (Hfin' : created_tables (trace p') = created_tables (trace p2)
                  ∧ ∀ t0, persisted p' t0 = persisted p2 t0).
  { destruct conn as [c0|]; cbn in Hfin.
    - by injection Hfin as <-.
    - injection Hfin as <-. cbn. rewrite created_tables_app. cbn.
      by rewrite app_nil_r. }
  destruct Hfin' as [Hfin1 Hfin2].
  assert (Hbase' : ∃ base, base ∈ [[]; with_tables EntityTypes.members]
            ∧ created_tables (trace p2)
              = (created_tables (trace p1) ++ flat_map (tables_for UNIT_ENTITY) base)%list
            ∧ ∀ t0, persisted p1 t0 = true → persisted p2 t0 = true).
  { destruct (persisted p1 EntityTypes.unit); cbn [negb] in Hbase.
    - injection Hbase as <-. exists []. cbn. rewrite app_nil_r.
      split_and!; [set_solver|done..].
    - unfold SqlPersist.__generate_base_schema in Hbase.
      apply bind_inv_ok in Hbase as (sb & pb & Hloopb & Hbase).
      apply generate_schema_loop_spec in Hloopb as (_ & Htrb & _ & _ & Hmonob).
      apply bind_inv_ok in Hbase as (pb' & pb'' & Hget & Hbase).
      injection Hget as <- <-.
      destruct (persisted pb EntityTypes.unit); [|done].
      injection Hbase as <-.
      exists (with_tables EntityTypes.members). split_and!; [set_solver|done..]. }
  destruct Hbase' as (base & Hb1 & Hb2 & Hb3).
  split_and!.
  - rewrite Hfin2. by apply Hb3, Hin.
  - unfold with_tables. rewrite list_elem_of_filter. rewrite Hu. by intros [? _].
  - by rewrite Hs.
  - exists base. split; [done|].
    by rewrite Hfin1, Hb2, Htr, Htr0, <- app_assoc.
  - by apply load_type_underscore.
Qed.

Lemma ok_result_eta {S A} (x : Res A * S) (d : A) :
  is_ok x.1 = true → x = (Ok (Example.result_of d x), Example.state_of x).
Proof. destruct x as [[a|e] s]; [done|discriminate]. Qed.

Lemma underscore_type_has_no_table_witness :
  let schema := Example.result_of [] Example.base_schema_run in
  let p' := Example.state_of Example.base_schema_run in
  persisted p' EntityTypes._entity_base = true
  ∧ (EntityTypes._entity_base ∉ with_tables EntityTypes.members)
  ∧ schema = CreateTable <$> flat_map (tables_for UNIT_ENTITY) (with_tables EntityTypes.members)
  ∧ (∃ base, base ∈ [[]; with_tables EntityTypes.members]
       ∧ created_tables (trace p')
         = (created_tables (trace (Example.persister Example.declared))
              ++ (flat_map (tables_for UNIT_ENTITY) (with_tables EntityTypes.members)
                    ++ flat_map (tables_for UNIT_ENTITY) base))%list)
  ∧ SqlPersist.load_type EntityTypes._entity_base p' = (Ok [], p').
Proof.
  assert (Hin : EntityTypes._entity_base ∈ EntityTypes.members).
  { unfold EntityTypes.members. set_solver. }
  assert (Hok : is_ok Example.base_schema_run.1 = true) by (vm_compute; reflexivity).
  exact (underscore_type_has_no_table (Example.persister Example.declared) UNIT_ENTITY
           EntityTypes.members None _ _ EntityTypes._entity_base Hin eq_refl
           (ok_result_eta Example.base_schema_run [] Hok)).
Defined.

(** ** Idempotent writes *)

(** The stored value of an entity-typed field is a global id, the value
    [GET] hands out, and [SET] accepts, is the object: the comparison of
    [_access_data_set_value] in the single-valued branch never finds
    them equal. *)
Lemma set_value_entity_single_always_changes w e sl f g cfg ve :
  stored w e sl →
  enum_fields w !! MetaProps.key f = Some g →
  enum_configs w !! g = Some cfg →
  MetaProps.datatype f = Datatypes.ENTITY →
  MetaProps.valuetype f = ValueTypes.SINGLE →
  dict_get g (e_map sl) = Some (VAtom (AGid (Entity.global_id ve))) →
  Store._access_data_set_value (VAtom (AEntity e)) (AField f) (VAtom (AEntity ve))
    Operation.SET w
  = (Ok (true, VAtom (AEntity ve)),
     put_slot (Entity.global_id e)
       (uncommitted (with_e_map (dict_set g (VAtom (AGid (Entity.global_id ve)))) sl)) w).
Proof.
  intros Hst Hf Hc Hdt Hvt Hg. unfold Store._access_data_set_value.
  erewrite bind_ok; [|by apply slot_of_stored].
  erewrite bind_ok; [|reflexivity].
  rewrite Hf. erewrite bind_ok; [|reflexivity].
  rewrite Hc. erewrite bind_ok; [|reflexivity].
  rewrite Hdt, Hvt, Hg. cbv beta iota. unfold py_ne. cbn [default].
  rewrite bool_decide_eq_false_2 by done. cbn [negb].
  erewrite bind_ok; [|by apply set_item_stored].
  erewrite bind_ok; [|apply set_uncommitted_stored, stored_put_slot; by destruct Hst].
  by rewrite put_slot_put_slot.
Qed.

(** C2.  Item 1 holds item 2 in its entity-typed single field [owner]
    and is flagged committed; [GET] returns item 2.  Setting [owner] to
    item 2 again resets the committed flag and sends a second change
    message to the bus, although the stored value stays what it was. *)
Theorem set_same_entity_reference_dirties_and_notifies :
  let w := Example.owned_committed in
  let get := Store.entity_access (Example.item 1) Operation.GET VNone
               [AField Example.ItemMeta.owner] w in
  let set := Store.entity_access (Example.item 1) Operation.SET
               (VAtom (AEntity (Example.item 2))) [AField Example.ItemMeta.owner] w in
  get.1 = Ok (VAtom (AEntity (Example.item 2)))
  ∧ set.1 = Ok (VAtom (AEntity (Example.item 2)))
  ∧ Example.stored_value w (Example.item 1) ("shop_meta", "item", "owner")
    = Some (VAtom (AGid ("shop", 2, "item")))
  ∧ Example.stored_value set.2 (Example.item 1) ("shop_meta", "item", "owner")
    = Some (VAtom (AGid ("shop", 2, "item")))
  ∧ Example.committed_attr w (Example.item 1) = Some (VAtom (AInt 1))
  ∧ Example.committed_attr set.2 (Example.item 1) = Some VFalse
  ∧ outbox set.2
    = (outbox w ++ [mkMessage Operation.SET [AStr "item"; AStr "owner"]
                      [AGid ("shop", 1, "item")]])%list.
Proof. intros; split_and!; vm_compute; reflexivity. Qed.

(** ** Membership of SET fields *)

(** C3.  Item 1 holds item 2 in its entity-typed SET field [friends]
    and is flagged committed.  Adding item 2 again leaves exactly one
    stored occurrence, but resets the committed flag and sends a change
    message: the membership test reads the attribute [value.global_id]
    without calling it. *)
Theorem add_same_entity_twice_dirties_again :
  let w := Example.befriended_committed in
  let add := Store.entity_access (Example.item 1) Operation.ADD
               (VAtom (AEntity (Example.item 2))) [AField Example.ItemMeta.friends] w in
  add.1 = Ok (VAtom (AEntity (Example.item 2)))
  ∧ Example.occurrences
      (Example.stored_value w (Example.item 1) ("shop_meta", "item", "friends"))
    = [AGid ("shop", 2, "item")]
  ∧ Example.occurrences
      (Example.stored_value add.2 (Example.item 1) ("shop_meta", "item", "friends"))
    = [AGid ("shop", 2, "item")]
  ∧ Example.committed_attr w (Example.item 1) = Some (VAtom (AInt 1))
  ∧ Example.committed_attr add.2 (Example.item 1) = Some VFalse
  ∧ outbox add.2
    = (outbox w ++ [mkMessage Operation.ADD [AStr "item"; AStr "friends"]
                      [AGid ("shop", 1, "item")]])%list.
Proof. intros; split_and!; vm_compute; reflexivity. Qed.

(** ** GET *)

(** Reading one field of a stored entity leaves the tables as they are. *)
Lemma get_field_pure w e sl f value :
  stored w e sl →
  (Store.entity_access e Operation.GET value [AField f] w).2 = w.
Proof.
  intros Hst. rewrite (entity_access_field _ _ _ _ _ _ Hst). unfold field_access.
  erewrite bind_ok; [|reflexivity].
  pose proof (get_value_pure (VAtom (AEntity e)) (AField f) VNone w) as Hp.
  unfold bind.
  destruct (Store._access_data_get_value _ _ _ w) as [[v|x] w']; cbn in Hp; by subst.
Qed.

(** C7.  Item 1 has no [stock].  [_access_data_get_value] returns the
    default it is given, but [Store.access] always gives it [None]: the
    value passed along with [GET] is dropped and the caller receives
    [None] instead of the default 7. *)
Theorem get_drops_caller_default :
  let w := Example.one_item in
  Example.stored_value w (Example.item 1) ("shop_meta", "item", "stock") = None
  ∧ (Store._access_data_get_value (VAtom (AEntity (Example.item 1)))
       (AField Example.ItemMeta.stock) (VAtom (AInt 7)) w).1 = Ok (VAtom (AInt 7))
  ∧ (Store.entity_access (Example.item 1) Operation.GET (VAtom (AInt 7))
       [AField Example.ItemMeta.stock] w).1 = Ok VNone.
Proof. intros; split_and!; vm_compute; reflexivity. Qed.

(** A [GET] that steps into the missing SET field [tags] stores an empty
    set in it on the way. *)
Lemma get_into_missing_set_creates_container :
  let w := Example.one_item in
  let get := Store.entity_access (Example.item 1) Operation.GET VNone
               [AField Example.ItemMeta.tags; AInt 0] w in
  Example.stored_value w (Example.item 1) ("shop_meta", "item", "tags") = None
  ∧ get.1 = Ok VNone
  ∧ Example.stored_value get.2 (Example.item 1) ("shop_meta", "item", "tags")
    = Some (VSet ∅).
Proof. intros; split_and!; vm_compute; reflexivity. Qed.

(** ** The persistence pass *)

(** C1.  Item 1 is new: its [committed] attribute is the [False] that
    [Entity.__init__] and [_set_uncommitted] write.  [persist_entities]
    compares it with the members of [Committed], which no boolean
    equals: the pass opens and closes its connection and neither inserts
    nor updates anything. *)
Theorem persist_entities_skips_new_entity :
  let p := Example.with_schema Example.scored in
  let pass := SqlPersist.persist_entities [Example.item 1] p in
  Example.committed_attr (world p) (Example.item 1) = Some VFalse
  ∧ pass.1 = Ok tt
  ∧ trace pass.2 = (trace p ++ [Connect 1; CloseConnection 1])%list
  ∧ Example.rows pass.2 "shop_item" = []
  ∧ Example.rows pass.2 "shop_item_scores" = [].
Proof. intros; split_and!; vm_compute; reflexivity. Qed.

(** ** Loading *)

(** C4.  Item 1 holds the scores 10, 20, 30.  [insert_entity] writes its
    rows and then fails in [entity.set_committed()], a method class
    [Entity] does not have.  [load_entities] on the written rows fails
    as well, in the process that inserted and in a fresh one: the entity
    it asks the store for, with objects where the path takes a unit name
    and a meta-type member, is [None]. *)
Theorem load_entities_fails_on_inserted_entity :
  let p := Example.with_schema Example.scored in
  let insert := SqlPersist.insert_entity (Example.item 1) None p in
  let load := SqlPersist.load_entities Example.ShopTypes.item None insert.2 in
  let load_fresh :=
    SqlPersist.load_entities Example.ShopTypes.item None (Example.restarted insert.2) in
  insert.1 = Raise AttributeError
  ∧ Example.rows insert.2 "shop_item_scores"
    = [ [VAtom (AGid ("shop", 1, "item")); VAtom (AInt 0); VAtom (AInt 10)];
        [VAtom (AGid ("shop", 1, "item")); VAtom (AInt 1); VAtom (AInt 20)];
        [VAtom (AGid ("shop", 1, "item")); VAtom (AInt 2); VAtom (AInt 30)] ]
  ∧ load.1 = Raise AttributeError
  ∧ load_fresh.1 = Raise AttributeError
  ∧ _entity_map (world load_fresh.2) !! ("shop", 1, "item") = None.
Proof. intros; split_and!; vm_compute; reflexivity. Qed.

(** ** The update pass *)

Lemma with_world_same p : with_world (λ _, world p) p = p.
Proof. by destruct p. Qed.

(** The value [map_value_to_db] hands to the backend for field [f] of
    entity [e], read in store [w]. *)
Definition read_for_db (w : World) (e : Entity.t) (f : MetaProps.t) : Res Value :=
  match (Store.entity_access e Operation.GET VNone [AField f] w).1 with
  | Ok v => SqlPersist.db_value f v
  | Raise x => Raise x
  end.

Definition reading (w : World) (e : Entity.t) (f : MetaProps.t) : Value :=
  match read_for_db w e f with Ok v => v | Raise _ => VNone end.

Lemma map_value_to_db_stored p e sl f :
  stored (world p) e sl →
  SqlPersist.map_value_to_db f e p = (read_for_db (world p) e f, p).
Proof.
  intros Hst. unfold SqlPersist.map_value_to_db, read_for_db, lift, bind, of_res.
  pose proof (get_field_pure _ _ _ f VNone Hst) as Hp.
  destruct (Store.entity_access e Operation.GET VNone [AField f] (world p)) as [[v|x] w'];
    cbn in Hp; subst; by rewrite with_world_same.
Qed.

(** A multi-valued field is handed over as a list, or as [None] when it
    is absent. *)
Lemma db_value_multivalued f v r :
  ValueTypes.multivalued (MetaProps.valuetype f) = true →
  SqlPersist.db_value f v = Ok r → r = VNone ∨ ∃ l, r = VList l.
Proof.
  unfold SqlPersist.db_value. intros Hm H.
  destruct (MetaProps.valuetype f); try done.
  all: destruct v as [[]| | |]; cbn in H; simplify_eq; eauto.
  all: destruct (SqlPersist.iterate _) eqn:E; simplify_eq; eauto.
Qed.

Lemma read_for_db_multivalued w e f r :
  ValueTypes.multivalued (MetaProps.valuetype f) = true →
  read_for_db w e f = Ok r → r = VNone ∨ ∃ l, r = VList l.
Proof.
  unfold read_for_db. intros Hm H.
  destruct (Store.entity_access _ _ _ _ _).1; [|done].
  by eapply db_value_multivalued.
Qed.

(** The dictionaries [update_entity] gathers, as a function of what is
    read. *)
Definition gather_step (name : string) (reads : MetaProps.t → Value)
    (a : list (string * Value) * list (string * (string * Value))) (field : MetaProps.t) :=
  if negb (ValueTypes.multivalued (MetaProps.valuetype field))
  then (dict_set ("_" ++ MetaProps.name field) (reads field) a.1, a.2)
  else (a.1, dict_set (name ++ "_" ++ MetaProps.name field)
                      (MetaProps.name field, reads field) a.2).

Lemma gather_values_stored p e sl name fields :
  stored (world p) e sl →
  Forall (λ f, is_ok (read_for_db (world p) e f) = true) fields →
  ∀ a, foldM (λ a field,
                v <- SqlPersist.map_value_to_db field e ;;
                if negb (ValueTypes.multivalued (MetaProps.valuetype field))
                then ret (dict_set ("_" ++ MetaProps.name field) v a.1, a.2)
                else ret (a.1, dict_set (name ++ "_" ++ MetaProps.name field)
                                        (MetaProps.name field, v) a.2))
         a fields p
       = (Ok (foldl (gather_step name (reading (world p) e)) a fields), p).
Proof.
  intros Hst Hall. induction Hall as [|f fields Hf _ IH]; intros a; [done|].
  cbn [foldM foldl].
  destruct (read_for_db (world p) e f) as [v|] eqn:Hr; [|done].
  erewrite bind_ok; [apply IH|].
  erewrite bind_ok;
    [|rewrite (map_value_to_db_stored _ _ _ _ Hst), Hr; reflexivity].
  unfold gather_step, reading. rewrite Hr.
  by destruct (negb _).
Qed.

Lemma string_app_inj (s a b : string) : s ++ a = s ++ b → a = b.
Proof. induction s as [|c s IH]; cbn; [done|]. intros H. inversion H. by apply IH. Qed.

Lemma dict_mem_set {K V} `{EqDecision K} (k k' : K) (v : V) d :
  dict_mem k (dict_set k' v d) = true ↔ k = k' ∨ dict_mem k d = true.
Proof.
  unfold dict_mem. destruct (decide (k = k')) as [->|Hne].
  - rewrite dict_get_set_eq. split; [by left|done].
  - rewrite dict_get_set_ne by done. split; [by right|by intros [?|?]].
Qed.

Section Gathered.
Context (name : string) (reads : MetaProps.t → Value).
Implicit Types (a : list (string * Value) * list (string * (string * Value))).

Lemma gathered_bound_mono fields a k :
    dict_mem k a.1 = true →
    dict_mem k (foldl (gather_step name reads) a fields).1 = true.
  Proof.
    revert a. induction fields as [|f fields IH]; intros a Ha; [done|].
    cbn [foldl]. apply IH. unfold gather_step.
    destruct (negb _); cbn [fst]; [|done]. apply dict_mem_set. by right.
  Qed.

Lemma gathered_single_bound fields a f :
    f ∈ fields →
    ValueTypes.multivalued (MetaProps.valuetype f) = false →
    dict_mem ("_" ++ MetaProps.name f) (foldl (gather_step name reads) a fields).1 = true.
  Proof.
    revert a. induction fields as [|f0 fields IH]; intros a Hin Hs.
    - by apply elem_of_nil in Hin.
    - cbn [foldl]. apply elem_of_cons in Hin as [->|Hin]; [|by apply IH].
      apply gathered_bound_mono. unfold gather_step. rewrite Hs. cbn.
      apply dict_mem_set. by left.
  Qed.

Lemma gathered_multivalue_other fields a f :
    (∀ f', f' ∈ fields → MetaProps.name f' ≠ MetaProps.name f) →
    dict_get (name ++ "_" ++ MetaProps.name f) (foldl (gather_step name reads) a fields).2
    = dict_get (name ++ "_" ++ MetaProps.name f) a.2.
  Proof.
    revert a. induction fields as [|f0 fields IH]; intros a Hne; [done|].
    cbn [foldl]. rewrite IH by (intros f' Hf'; apply Hne; by right).
    unfold gather_step. destruct (negb _); cbn [snd]; [done|].
    apply dict_get_set_ne. intros Heq.
    apply string_app_inj, string_app_inj in Heq.
    by apply (Hne f0); [left|].
  Qed.

Lemma gathered_multivalue fields a f :
    NoDup (MetaProps.name <$> fields) →
    f ∈ fields →
    ValueTypes.multivalued (MetaProps.valuetype f) = true →
    dict_get (name ++ "_" ++ MetaProps.name f) (foldl (gather_step name reads) a fields).2
    = Some (MetaProps.name f, reads f).
  Proof.
    revert a. induction fields as [|f0 fields IH]; intros a Hnd Hin Hm.
    - by apply elem_of_nil in Hin.
    - rewrite fmap_cons in Hnd. apply NoDup_cons in Hnd as [Hf0 Hnd].
      cbn [foldl]. apply elem_of_cons in Hin as [->|Hin]; [|by apply IH].
      rewrite gathered_multivalue_other.
      + unfold gather_step. rewrite Hm. cbn. apply dict_get_set_eq.
      + intros f' Hf' Heq. apply Hf0. rewrite <- Heq.
        by apply list_elem_of_fmap_2.
  Qed.
End Gathered.

(** The column of a single-valued field in the primary table. *)
Definition single_column (f : MetaProps.t) : SqlField :=
  mkSqlField ("_" ++ MetaProps.name f)
    (SqlPersist.sql_type (MetaProps.datatype f) (MetaProps.valuetype f) false) false false.

Definition single_fields (fields : list MetaProps.t) : list MetaProps.t :=
  filter (λ f, ValueTypes.multivalued (MetaProps.valuetype f) = false) fields.

Definition multivalued_fields (fields : list MetaProps.t) : list MetaProps.t :=
  filter (λ f, ValueTypes.multivalued (MetaProps.valuetype f) = true) fields.

(** [__sql_tables]: the primary table carries the key, the three
    ancestry columns and one column per single-valued field; one table
    per multi-valued field follows, in field order. *)
Lemma sql_tables_spec name fs :
  ∃ primary,
    SqlPersist.__sql_tables name fs
    = primary :: (SqlPersist.multivalue_table name <$> multivalued_fields fs)
    ∧ table_name primary = name
    ∧ fields primary
      = (fields (SqlPersist.primary_table name)
           ++ (single_column <$> single_fields fs))%list.
Proof.
  unfold SqlPersist.__sql_tables.
  set (step := λ (acc : SqlTable * list SqlTable) field, _).
  assert (H : ∀ acc,
    (foldl step acc fs).2
      = (acc.2 ++ (SqlPersist.multivalue_table name <$> multivalued_fields fs))%list
    ∧ table_name (foldl step acc fs).1 = table_name acc.1
    ∧ fields (foldl step acc fs).1
      = (fields acc.1 ++ (single_column <$> single_fields fs))%list).
  { induction fs as [|f fs IH]; intros acc.
    - cbn. by rewrite !app_nil_r.
    - cbn [foldl]. destruct (IH (step acc f)) as (H1 & H2 & H3).
      rewrite H1, H2, H3.
      unfold step, single_fields, multivalued_fields, single_column, add_field.
      rewrite !filter_cons.
      destruct (ValueTypes.multivalued (MetaProps.valuetype f)) eqn:Hm; cbn;
        [rewrite (decide_True (P := true = true)), (decide_False (P := true = false)) by done
        |rewrite (decide_True (P := false = false)), (decide_False (P := false = true)) by done];
        split_and!; rewrite ?fmap_cons, <- ?app_assoc; done. }
  destruct (H (SqlPersist.primary_table name, [])) as (H1 & H2 & H3).
  eexists. split; [|split].
  - f_equal. exact H1.
  - exact H2.
  - exact H3.
Qed.

Lemma executed_nil conn p : executed conn [] (database p) p = p.
Proof. unfold executed. cbn. rewrite app_nil_r. by destruct p. Qed.

Lemma executed_executed conn s1 s2 db1 db2 p :
  executed conn s2 db2 (executed conn s1 db1 p) = executed conn (s1 ++ s2) db2 p.
Proof.
  unfold executed, cursor_events. cbn. by rewrite bind_app, app_assoc.
Qed.

Lemma update_entity_values_ok st conn p rows db' :
  run st (database p) = (Ok rows, db') →
  SqlPersist.__update_entity_values st conn p = (Ok true, executed conn [st] db' p).
Proof.
  intros Hrun.
  unfold SqlPersist.__update_entity_values, SqlPersist._create_cursor,
    SqlPersist._close_cursor, SqlPersist.execute, try_finally, bind, modify, ret.
  cbn. rewrite Hrun. unfold executed, emit, with_database. cbn.
  by rewrite <- !app_assoc.
Qed.

Lemma update_entity_values_raise st conn p e db' :
  run st (database p) = (Raise e, db') →
  (SqlPersist.__update_entity_values st conn p).1 = Raise e.
Proof.
  intros Hrun.
  unfold SqlPersist.__update_entity_values, SqlPersist._create_cursor,
    SqlPersist._close_cursor, SqlPersist.execute, try_finally, bind, modify, ret.
  cbn. by rewrite Hrun.
Qed.

Lemma statements_of_app a b :
  statements_of (a ++ b) = (statements_of a ++ statements_of b)%list.
Proof. apply omap_app. Qed.

Lemma statements_of_cursor_events conn sts :
  statements_of (cursor_events conn sts) = sts.
Proof.
  induction sts as [|st sts IH]; [done|].
  change (statements_of (cursor_events conn (st :: sts)))
    with (st :: statements_of (cursor_events conn sts)).
  by rewrite IH.
Qed.

(** Column names of an auxiliary table are pairwise different. *)
Lemma value_column_not_global_id s : "_" ++ s ++ "_value" ≠ "_global_id".
Proof.
  intros H. injection H as H.
  repeat (destruct s as [|? s]; [discriminate | injection H as ? H]).
  destruct s; discriminate.
Qed.

Lemma value_column_not_value_cnt s : "_" ++ s ++ "_value" ≠ "_value_cnt".
Proof.
  intros H. injection H as H.
  repeat (destruct s as [|? s]; [discriminate | injection H as ? H]).
  destruct s; discriminate.
Qed.

Lemma string_app_not_self (s a : string) : a ≠ "" → s ++ a ≠ s.
Proof.
  intros Ha H. induction s as [|c s IH]; cbn in H; [done|].
  injection H as H. by apply IH.
Qed.

(** The row an insertion into an auxiliary table binds, and its key. *)
Lemma bind_row_multivalue name f gid k v :
  bind_row (SqlPersist.multivalue_table name f)
    [ ("_global_id", VAtom (AGid gid)); ("_value_cnt", VAtom (AInt k));
      ("_" ++ MetaProps.name f ++ "_value", VAtom v) ]
  = Some [VAtom (AGid gid); VAtom (AInt k); VAtom v].
Proof.
  unfold bind_row, SqlPersist.multivalue_table, add_field. cbn [fields app mapM field_name].
  cbn [dict_get].
  rewrite (decide_False (P := _ ++ _ = "_global_id")) by apply value_column_not_global_id.
  rewrite (decide_False (P := _ ++ _ = "_value_cnt")) by apply value_column_not_value_cnt.
  rewrite (decide_True (P := _ ++ _ = _ ++ _)) by done.
  reflexivity.
Qed.

Lemma key_of_multivalue name f (r : list Value) :
  key_of (SqlPersist.multivalue_table name f) r = take 2 r.
Proof.
  unfold key_of, SqlPersist.multivalue_table, add_field. cbn [fields app].
  destruct r as [|a [|b [|c r]]]; reflexivity.
Qed.

Lemma insert_multivalues_spec name f gid conn l :
  ∀ k rows p return_value,
    database p !! table_name (SqlPersist.multivalue_table name f) = Some rows →
    fresh_from gid k rows →
    SqlPersist.insert_multivalues gid (SqlPersist.multivalue_table name f) (MetaProps.name f)
      k l conn return_value p
    = (Ok (match l with [] => return_value | _ => true end),
       executed conn
         (insertions gid (SqlPersist.multivalue_table name f) (MetaProps.name f) k l)
         (<[table_name (SqlPersist.multivalue_table name f)
            := (rows ++ numbered gid k l)%list]> (database p)) p).
Proof.
  induction l as [|v l IH]; intros k rows p rv Hdb Hfresh.
  - cbn [SqlPersist.insert_multivalues insertions numbered].
    by rewrite app_nil_r, insert_id, executed_nil.
  - cbn [SqlPersist.insert_multivalues insertions numbered].
    erewrite bind_ok; cycle 1.
    { eapply update_entity_values_ok. cbn [run].
      rewrite Hdb, bind_row_multivalue, bool_decide_eq_false_2; [reflexivity|].
      intros Hin. apply list_elem_of_fmap in Hin as (r & Hr & Hin).
      rewrite !key_of_multivalue in Hr.
      eapply (Hfresh r k); [exact Hin|lia|]. symmetry. exact Hr. }
    rewrite (IH (k + 1) (rows ++ [[VAtom (AGid gid); VAtom (AInt k); VAtom v]])%list);
      cycle 1.
    { cbn. apply lookup_insert_eq. }
    { intros r j Hin Hj. apply elem_of_app in Hin as [Hin|Hin].
      - apply Hfresh; [done|lia].
      - apply list_elem_of_singleton in Hin as ->. cbn. intros [=]. lia. }
    rewrite executed_executed. cbn [database executed].
    rewrite insert_insert_eq, <- app_assoc. by destruct l.
Qed.


Section Replace.
Context (entity : Entity.t) (name : string) (reads : MetaProps.t → Value).

Lemma fresh_after_delete (rows : list Row) k :
  fresh_from (Entity.global_id entity) k
    (filter (λ r, global_id_of r ≠ VAtom (AGid (Entity.global_id entity))) rows).
Proof.
  intros r j Hin _ Heq. apply list_elem_of_filter in Hin as [Hne _].
  apply Hne. by destruct r as [|a [|b r]]; simplify_eq/=.
Qed.

Lemma update_entity_multivalues_spec primary multivalues conn mfs :
  ∀ p,
    (∀ f, f ∈ mfs →
       is_Some (database p !! table_name (SqlPersist.multivalue_table name f))) →
    (∀ f, f ∈ mfs →
       dict_get (table_name (SqlPersist.multivalue_table name f)) multivalues
       = Some (MetaProps.name f, reads f)) →
    (∀ f, f ∈ mfs → reads f = VNone ∨ ∃ l, reads f = VList l) →
    SqlPersist.__update_entity_multivalues entity
      (primary :: (SqlPersist.multivalue_table name <$> mfs)) multivalues conn true p
    = (Ok true,
       executed conn (mfs ≫= replacement entity name reads) (foldl (replace_rows entity name reads) (database p) mfs) p).
Proof.
  induction mfs as [|f mfs IH]; intros p Hdb Hmv Hrd.
  - cbn. by rewrite executed_nil.
  - unfold SqlPersist.__update_entity_multivalues.
    cbn [tail fmap list_fmap foldM].
    destruct (Hdb f) as [rows Hrows]; [by left|].
    set (body := λ (return_value : bool) (sql_table : SqlTable), _).
    assert (Hstep : body true (SqlPersist.multivalue_table name f) p
                    = (Ok true, executed conn (replacement entity name reads f)
                                 (replace_rows entity name reads (database p) f) p)).
    { unfold body, replace_rows, replaced_rows, replacement, rows_in.
      rewrite Hrows. cbn [default].
      erewrite bind_ok; cycle 1.
      { eapply update_entity_values_ok. cbn [run]. rewrite Hrows. reflexivity. }
      cbv beta iota. rewrite (Hmv f) by (by left). unfold getitem.
      erewrite bind_ok; [|reflexivity]. cbn [fst snd].
      destruct (Hrd f) as [->|[[|v l] ->]]; [by left|..].
      - cbn. by rewrite app_nil_r.
      - cbn. by rewrite app_nil_r.
      - cbn [truthy items].
        rewrite (insert_multivalues_spec name f _ conn (v :: l) 0
                   (filter (λ r, global_id_of r ≠ VAtom (AGid (Entity.global_id entity))) rows));
          [|apply lookup_insert_eq|apply fresh_after_delete].
        rewrite executed_executed. cbn [database executed].
        by rewrite insert_insert_eq. }
    erewrite bind_ok; [|exact Hstep].
    change (foldM body true (SqlPersist.multivalue_table name <$> mfs))
      with (SqlPersist.__update_entity_multivalues entity
              (primary :: (SqlPersist.multivalue_table name <$> mfs)) multivalues conn true).
    rewrite IH.
    + rewrite executed_executed. reflexivity.
    + intros f' Hf'. cbn [database executed]. unfold replace_rows.
      apply lookup_insert_is_Some'. right. apply Hdb. by right.
    + intros f' Hf'. apply Hmv. by right.
    + intros f' Hf'. apply Hrd. by right.
Qed.

(** Tables other than those of [mfs] keep their rows. *)
Lemma replace_rows_other db mfs t :
  (∀ f, f ∈ mfs → table_name (SqlPersist.multivalue_table name f) ≠ t) →
  foldl (replace_rows entity name reads) db mfs !! t = db !! t.
Proof.
  revert db. induction mfs as [|f mfs IH]; intros db Hne; [done|].
  cbn [foldl]. rewrite IH by (intros f' Hf'; apply Hne; by right).
  unfold replace_rows. apply lookup_insert_ne. apply Hne. by left.
Qed.

Lemma multivalue_table_name_inj f f' :
  table_name (SqlPersist.multivalue_table name f)
  = table_name (SqlPersist.multivalue_table name f') →
  MetaProps.name f = MetaProps.name f'.
Proof. cbn. intros H. by apply string_app_inj, string_app_inj in H. Qed.

Lemma replace_rows_lookup db mfs f :
  NoDup (MetaProps.name <$> mfs) →
  f ∈ mfs →
  foldl (replace_rows entity name reads) db mfs !! table_name (SqlPersist.multivalue_table name f)
  = Some (replaced_rows entity reads (rows_in db (table_name (SqlPersist.multivalue_table name f))) f).
Proof.
  revert db. induction mfs as [|f0 mfs IH]; intros db Hnd Hin.
  - by apply elem_of_nil in Hin.
  - rewrite fmap_cons in Hnd. apply NoDup_cons in Hnd as [Hf0 Hnd].
    cbn [foldl]. apply elem_of_cons in Hin as [->|Hin].
    + rewrite replace_rows_other.
      * unfold replace_rows. apply lookup_insert_eq.
      * intros f' Hf' Heq. apply Hf0. apply multivalue_table_name_inj in Heq.
        rewrite <- Heq. by apply list_elem_of_fmap_2.
    + rewrite IH by done. f_equal. f_equal. unfold rows_in, replace_rows.
      rewrite lookup_insert_ne; [done|].
      intros Heq. apply Hf0. apply multivalue_table_name_inj in Heq.
      rewrite Heq. by apply list_elem_of_fmap_2.
Qed.
End Replace.


(** [UPDATE_TEMPLATE] on the primary table assigns the columns of the
    single-valued fields. *)
Lemma assigned_columns_primary name fs primary :
  fields primary
  = (fields (SqlPersist.primary_table name) ++ (single_column <$> single_fields fs))%list →
  assigned_columns primary = single_column <$> single_fields fs.
Proof.
  intros Hf. unfold assigned_columns. rewrite Hf, filter_app.
  change (filter _ (fields (SqlPersist.primary_table name))) with (@nil SqlField).
  cbn [app]. clear Hf. induction (single_fields fs) as [|f l IH]; [done|].
  rewrite fmap_cons, filter_cons, decide_True by reflexivity. by rewrite IH.
Qed.

Lemma well_formed_update_primary name fs primary reads a :
  fields primary
  = (fields (SqlPersist.primary_table name) ++ (single_column <$> single_fields fs))%list →
  single_fields fs ≠ [] →
  well_formed_update primary (foldl (gather_step name reads) a fs).1 = true.
Proof.
  intros Hf Hne. unfold well_formed_update.
  rewrite (assigned_columns_primary name fs) by done.
  assert (H : forallb (λ f, dict_mem (field_name f) (foldl (gather_step name reads) a fs).1)
                (single_column <$> single_fields fs) = true).
  { apply forallb_forall. intros c Hc. apply in_map_iff in Hc as (f & <- & Hin).
    apply list_elem_of_In in Hin. apply list_elem_of_filter in Hin as [Hs Hin].
    by apply gathered_single_bound. }
  destruct (single_fields fs); [done|]. exact H.
Qed.

(** The statements of [update_entity] between opening and closing the
    connection. *)
Lemma update_statements_spec entity sl name fs c q :
  stored (world q) entity sl →
  Forall (λ f, is_ok (read_for_db (world q) entity f) = true) fs →
  NoDup (MetaProps.name <$> fs) →
  single_fields fs ≠ [] →
  is_Some (database q !! name) →
  Forall (λ f, is_Some (database q !! table_name (SqlPersist.multivalue_table name f)))
         (multivalued_fields fs) →
  ∃ primary values rows',
    table_name primary = name
    ∧ (primary <- SqlPersist.first_table (SqlPersist.__sql_tables name fs) ;;
       g <- SqlPersist.gather_values entity name fs
              [("_global_id", VAtom (AGid (Entity.global_id entity)))] ;;
       return_value <- SqlPersist.__update_entity_values (UpdateWhere primary g.1) c ;;
       if return_value
       then SqlPersist.__update_entity_multivalues entity (SqlPersist.__sql_tables name fs)
              g.2 c true
       else ret return_value) q
      = (Ok true,
         executed c
           (UpdateWhere primary values
              :: (multivalued_fields fs ≫= replacement entity name (reading (world q) entity)))
           (foldl (replace_rows entity name (reading (world q) entity))
                  (<[name := rows']> (database q)) (multivalued_fields fs)) q).
Proof.
  intros Hst Hread Hnd Hsingle [rows Hrows] Haux.
  destruct (sql_tables_spec name fs) as (primary & Htabs & Hname & Hfields).
  rewrite Htabs. unfold SqlPersist.gather_values.
  set (g := foldl (gather_step name (reading (world q) entity))
              ([("_global_id", VAtom (AGid (Entity.global_id entity)))], []) fs).
  assert (Hgid : ∃ gid, dict_get "_global_id" g.1 = Some gid).
  { pose proof (gathered_bound_mono name (reading (world q) entity) fs
                  ([("_global_id", VAtom (AGid (Entity.global_id entity)))], [])
                  "_global_id" eq_refl) as H.
    fold g in H. unfold dict_mem in H. destruct (dict_get _ _); [by eexists|done]. }
  destruct Hgid as [gid Hgid].
  exists primary, g.1. eexists. split; [exact Hname|].
  erewrite bind_ok; [|reflexivity]. cbv beta iota.
  erewrite bind_ok; [|by eapply gather_values_stored]. fold g. cbv beta iota.
  erewrite bind_ok; cycle 1.
  { eapply update_entity_values_ok. cbn [run]. rewrite Hname, Hrows, Hgid.
    unfold g. rewrite (well_formed_update_primary name fs) by done. reflexivity. }
  cbv beta iota.
  rewrite (update_entity_multivalues_spec entity name (reading (world q) entity)).
  - by rewrite executed_executed.
  - intros f Hf. cbn [database executed]. apply lookup_insert_is_Some'. right.
    by eapply Forall_forall in Haux.
  - intros f Hf. apply list_elem_of_filter in Hf as [Hm Hf].
    by apply gathered_multivalue.
  - intros f Hf. apply list_elem_of_filter in Hf as [Hm Hf].
    eapply Forall_forall in Hread; [|exact Hf].
    unfold reading. destruct (read_for_db (world q) entity f) as [v|] eqn:Hr; [|done].
    by eapply read_for_db_multivalued.
Qed.

Lemma aux_table_not_primary name f :
  table_name (SqlPersist.multivalue_table name f) ≠ name.
Proof. cbn. by apply string_app_not_self. Qed.

Lemma NoDup_fmap_filter {A B} (g : A → B) (P : A → Prop) `{∀ x, Decision (P x)} l :
  NoDup (g <$> l) → NoDup (g <$> filter P l).
Proof.
  induction l as [|x l IH]; [done|].
  rewrite fmap_cons, NoDup_cons. intros [Hx Hnd]. rewrite filter_cons.
  destruct (decide (P x)); [|by apply IH].
  rewrite fmap_cons. apply NoDup_cons. split; [|by apply IH].
  intros Hin. apply Hx. apply list_elem_of_fmap in Hin as (y & -> & Hy).
  apply list_elem_of_filter in Hy as [_ Hy]. by apply list_elem_of_fmap_2.
Qed.

Lemma try_finally_ok_close {A} (body : M Persist A) conn c q a s1 :
  body q = (Ok a, s1) →
  try_finally body (SqlPersist.close_if_owned conn c) q
  = (Ok a, (SqlPersist.close_if_owned conn c s1).2).
Proof. intros H. unfold try_finally. rewrite H. by destruct conn. Qed.

(** X1.  [update_entity] on an entity of a registered type whose tables
    exist, with at least one single-valued field: the primary row is
    rewritten, and for every multi-valued field, in field order, all the
    rows of the entity are deleted from the field's table and one row
    per element that is read is inserted, numbered from zero.  Rows of
    other entities stay.  The call then ends in [entity.set_committed()],
    which class [Entity] does not define: it raises [AttributeError]
    after the statements have run. *)
Theorem update_entity_replaces_multivalue_rows entity sl unit_name conn p :
  let meta_type := Entity.meta_type entity in
  let fs := FieldProps.fields_enum meta_type in
  let name := unit_name ++ "_" ++ FieldProps.type_name meta_type in
  let reads := reading (world p) entity in
  let out := SqlPersist.update_entity entity conn p in
  persisted p meta_type = true →
  __unit_meta_unit p !! FieldProps.key meta_type = Some unit_name →
  stored (world p) entity sl →
  Forall (λ f, is_ok (read_for_db (world p) entity f) = true) fs →
  NoDup (MetaProps.name <$> fs) →
  single_fields fs ≠ [] →
  is_Some (database p !! name) →
  Forall (λ f, is_Some (database p !! table_name (SqlPersist.multivalue_table name f)))
         (multivalued_fields fs) →
  out.1 = Raise AttributeError
  ∧ world out.2 = world p
  ∧ (∃ primary values,
       table_name primary = name
       ∧ statements_of (trace out.2)
         = (statements_of (trace p)
              ++ UpdateWhere primary values
                   :: (multivalued_fields fs ≫= replacement entity name reads))%list)
  ∧ ∀ f, f ∈ fs → ValueTypes.multivalued (MetaProps.valuetype f) = true →
      database out.2 !! table_name (SqlPersist.multivalue_table name f)
      = Some (replaced_rows entity reads
                (rows_in (database p) (table_name (SqlPersist.multivalue_table name f))) f).
Proof.
  intros meta_type fs name reads out Hpers Hunit Hst Hread Hnd Hsingle Hprimary Haux.
  assert (Hcore : ∀ c q,
    world q = world p → database q = database p →
    __persisted_types q = __persisted_types p → __unit_meta_unit q = __unit_meta_unit p →
    ∃ primary values rows',
      table_name primary = name
      ∧ (p0 <- get ;;
         return_value <-
           (if persisted p0 meta_type then
              name <- SqlPersist.__table_name meta_type ;;
              let sql_tables := SqlPersist.__sql_tables name (FieldProps.fields_enum meta_type) in
              try_finally
                (primary <- SqlPersist.first_table sql_tables ;;
                 g <- SqlPersist.gather_values entity name (FieldProps.fields_enum meta_type)
                        [("_global_id", VAtom (AGid (Entity.global_id entity)))] ;;
                 return_value <- SqlPersist.__update_entity_values (UpdateWhere primary g.1) c ;;
                 if return_value
                 then SqlPersist.__update_entity_multivalues entity sql_tables g.2 c true
                 else ret return_value)
                (SqlPersist.close_if_owned conn c)
            else ret false) ;;
         (if return_value then SqlPersist.set_committed entity else ret tt) ;;;
         ret return_value) q
        = (Raise AttributeError,
           (SqlPersist.close_if_owned conn c
              (executed c
                 (UpdateWhere primary values :: (multivalued_fields fs ≫= replacement entity name reads))
                 (foldl (replace_rows entity name reads)
                        (<[name := rows']> (database p)) (multivalued_fields fs)) q)).2)).
  { intros c q Hw Hdb Hpt Hum.
    destruct (update_statements_spec entity sl name fs c q)
      as (primary & values & rows' & Hname & Hrun);
      rewrite ?Hw, ?Hdb; try done.
    exists primary, values, rows'. split; [done|].
    assert (Htn : SqlPersist.__table_name meta_type q = (Ok name, q)).
    { unfold SqlPersist.__table_name, bind, get, getitem. cbn. by rewrite Hum, Hunit. }
    erewrite bind_ok; [|reflexivity]. cbv beta iota.
    unfold persisted. rewrite Hpt. fold (persisted p meta_type). rewrite Hpers.
    erewrite bind_ok; cycle 1.
    { erewrite bind_ok; [|exact Htn]. cbv beta iota zeta.
      change (FieldProps.fields_enum meta_type) with fs.
      eapply try_finally_ok_close. exact Hrun. }
    rewrite Hw, Hdb. fold reads.
    reflexivity. }
  assert (Hout : ∃ c q primary values rows',
    world q = world p ∧ statements_of (trace q) = statements_of (trace p)
    ∧ table_name primary = name
    ∧ out = (Raise AttributeError,
             (SqlPersist.close_if_owned conn c
                (executed c
                   (UpdateWhere primary values
                      :: (multivalued_fields fs ≫= replacement entity name reads))
                   (foldl (replace_rows entity name reads)
                          (<[name := rows']> (database p)) (multivalued_fields fs)) q)).2)).
  { unfold out, SqlPersist.update_entity.
    destruct conn as [c|]; cbn [SqlPersist.connection_or_new].
    - destruct (Hcore c p) as (primary & values & rows' & Hname & Hrun); try done.
      exists c, p, primary, values, rows'. split_and!; try done.
    - destruct (Hcore (next_conn p) (SqlPersist._create_connection p).2)
        as (primary & values & rows' & Hname & Hrun); try done.
      exists (next_conn p), (SqlPersist._create_connection p).2, primary, values, rows'.
      split_and!;
        first [ done
              | cbn; by rewrite statements_of_app, app_nil_r
              | erewrite bind_ok; [exact Hrun|reflexivity] ]. }
  destruct Hout as (c & q & primary & values & rows' & Hw & Htr & Hname & ->).
  assert (Hclose : ∀ s, world (SqlPersist.close_if_owned conn c s).2 = world s
                      ∧ database (SqlPersist.close_if_owned conn c s).2 = database s
                      ∧ statements_of (trace (SqlPersist.close_if_owned conn c s).2)
                        = statements_of (trace s)).
  { intros s. destruct conn; cbn; [done|]. by rewrite statements_of_app, app_nil_r. }
  cbn [fst snd]. destruct (Hclose (executed c
                   (UpdateWhere primary values
                      :: (multivalued_fields fs ≫= replacement entity name reads))
                   (foldl (replace_rows entity name reads)
                          (<[name := rows']> (database p)) (multivalued_fields fs)) q))
    as (-> & -> & ->).
  cbn [world database trace executed]. split_and!; try done.
  - exists primary, values. split; [done|].
    by rewrite statements_of_app, statements_of_cursor_events, Htr.
  - intros f Hf Hm.
    assert (Hin : f ∈ multivalued_fields fs) by (by apply list_elem_of_filter).
    rewrite (replace_rows_lookup entity name reads); [|by apply NoDup_fmap_filter|done].
    unfold rows_in. rewrite lookup_insert_ne; [done|].
    intros Heq. by apply (aux_table_not_primary name f).
Qed.

Lemma update_entity_replaces_multivalue_rows_witness :
  let out := SqlPersist.update_entity (Example.item 1) None Example.rescored in
  let scores_table :=
    table_name (SqlPersist.multivalue_table "shop_item" Example.ItemMeta.scores) in
  Example.rows Example.rescored "shop_item_scores"
  = [ [VAtom (AGid ("shop", 1, "item")); VAtom (AInt 0); VAtom (AInt 1)];
      [VAtom (AGid ("shop", 1, "item")); VAtom (AInt 1); VAtom (AInt 2)];
      [VAtom (AGid ("shop", 1, "item")); VAtom (AInt 2); VAtom (AInt 3)] ]
  ∧ out.1 = Raise AttributeError
  ∧ database out.2 !! scores_table
    = Some (replaced_rows (Example.item 1)
              (reading (world Example.rescored) (Example.item 1))
              (rows_in (database Example.rescored) scores_table) Example.ItemMeta.scores)
  ∧ Example.rows out.2 "shop_item_scores"
    = [ [VAtom (AGid ("shop", 1, "item")); VAtom (AInt 0); VAtom (AInt 1)];
        [VAtom (AGid ("shop", 1, "item")); VAtom (AInt 1); VAtom (AInt 2)] ].
Proof.
  assert (Hst : ∃ sl, stored (world Example.rescored) (Example.item 1) sl)
    by (eexists; split; vm_compute; reflexivity).
  destruct Hst as [sl Hst].
  assert (H1 : persisted Example.rescored Example.ShopTypes.item = true)
    by (vm_compute; reflexivity).
  assert (H2 : __unit_meta_unit Example.rescored !! FieldProps.key Example.ShopTypes.item
               = Some "shop")
    by (vm_compute; reflexivity).
  assert (H4 : Forall (λ f, is_ok (read_for_db (world Example.rescored) (Example.item 1) f)
                            = true)
                 Example.ItemMeta.members)
    by (apply (bool_decide_unpack _); vm_compute; exact I).
  assert (H5 : NoDup (MetaProps.name <$> Example.ItemMeta.members))
    by (apply (bool_decide_unpack _); vm_compute; exact I).
  assert (H6 : single_fields Example.ItemMeta.members ≠ []) by (vm_compute; discriminate).
  assert (H7 : is_Some (database Example.rescored !! "shop_item"))
    by (eexists; vm_compute; reflexivity).
  assert (H8 : Forall (λ f, is_Some (database Example.rescored
                              !! table_name (SqlPersist.multivalue_table "shop_item" f)))
                 (multivalued_fields Example.ItemMeta.members))
    by (apply (bool_decide_unpack _); vm_compute; exact I).
  assert (Hin : Example.ItemMeta.scores ∈ Example.ItemMeta.members)
    by (apply (bool_decide_unpack _); vm_compute; exact I).
  pose proof (update_entity_replaces_multivalue_rows (Example.item 1) sl "shop" None
                Example.rescored H1 H2 Hst H4 H5 H6 H7 H8) as (Hres & _ & _ & Hrows).
  split_and!.
  - vm_compute; reflexivity.
  - exact Hres.
  - exact (Hrows Example.ItemMeta.scores Hin eq_refl).
  - vm_compute; reflexivity.
Defined.

(** ** Slots of the example stores *)

Lemma stored_slot w e :
  bool_decide (is_Some (_entity_map w !! Entity.global_id e)) = true →
  entity (Example.slot w e) = e →
  stored w e (Example.slot w e).
Proof.
  intros H He. apply bool_decide_eq_true in H as [sl Hsl]. split; [|done].
  unfold Example.slot. by rewrite Hsl.
Qed.

(** ** The tables of a meta-type, cursors and the persistence pass *)

Lemma sql_tables_primary_keys name fs :
  primary_keys <$> head (SqlPersist.__sql_tables name fs)
  = Some (primary_keys (SqlPersist.primary_table name)).
Proof.
  unfold SqlPersist.__sql_tables. cbn [head fmap option_fmap option_map]. f_equal.
  set (step := λ (acc : SqlTable * list SqlTable) field, _).
  assert (H : ∀ acc, primary_keys (foldl step acc fs).1 = primary_keys acc.1).
  { induction fs as [|f fs IH]; intros acc; [done|].
    cbn [foldl]. rewrite IH. unfold step. by destruct (ValueTypes.multivalued _). }
  apply H.
Qed.

(** X2.  [__sql_tables] lays a meta-type out as a primary table named
    after it, with the key column [_global_id], the three columns of the
    base fields and one column per field that is neither [SET] nor
    [LIST], in field order; and one table per [SET] or [LIST] field, in
    field order, keyed by [_global_id] and [_value_cnt]. *)
Theorem sql_tables_layout name fs :
  ∃ primary,
    SqlPersist.__sql_tables name fs
    = primary :: (SqlPersist.multivalue_table name <$> multivalued_fields fs)
    ∧ table_name primary = name
    ∧ field_name <$> fields primary
      = (["_global_id"; "_unit"; "_meta_type"; "_entity_id"]
           ++ ((λ f, ("_" ++ MetaProps.name f)%string) <$> single_fields fs))%list
    ∧ field_name <$> primary_keys primary = ["_global_id"]
    ∧ Forall (λ t, field_name <$> primary_keys t = ["_global_id"; "_value_cnt"])
             (SqlPersist.multivalue_table name <$> multivalued_fields fs).
Proof.
  destruct (sql_tables_spec name fs) as (primary & H1 & H2 & H3).
  pose proof (sql_tables_primary_keys name fs) as Hk. rewrite H1 in Hk.
  exists primary. split_and!; try done.
  - rewrite H3, fmap_app. f_equal. by rewrite <- list_fmap_compose.
  - cbn in Hk. injection Hk as ->. reflexivity.
  - apply Forall_fmap, Forall_forall. intros f _. reflexivity.
Qed.

(** X3.  [__update_entity_values] opens one cursor, executes the
    statement on it and closes the cursor, also when the statement fails;
    it returns [True] when the statement succeeded and lets the failure
    through otherwise. *)
Theorem update_entity_values_closes_cursor st conn p :
  let out := SqlPersist.__update_entity_values st conn p in
  trace out.2 = (trace p ++ [OpenCursor conn; Execute conn st; CloseCursor conn])%list
  ∧ database out.2 = (run st (database p)).2
  ∧ out.1 = match (run st (database p)).1 with Ok _ => Ok true | Raise e => Raise e end.
Proof.
  unfold SqlPersist.__update_entity_values, SqlPersist._create_cursor,
    SqlPersist._close_cursor, SqlPersist.execute, try_finally, bind, modify, ret.
  cbn. destruct (run st (database p)) as [[rows|e] db]; cbn; by rewrite <- !app_assoc.
Qed.

(** X4.  [persist_entities] acts only on entities whose [committed]
    attribute is a member of [Committed].  For entities whose attribute is
    anything else, the booleans of [Entity.__init__] and
    [_set_uncommitted] included, the pass opens a connection, closes it,
    and executes nothing: store and database are as before. *)
Theorem persist_entities_ignores_unflagged entities p :
  Forall (λ e, ∀ c, Example.committed_attr (world p) e ≠ Some (VAtom (ACommitted c)))
         entities →
  SqlPersist.persist_entities entities p
  = (Ok tt,
     mkPersist (world p) (__persisted_types p) (__unit_meta_unit p) (database p)
               (S (next_conn p))
               (trace p ++ [Connect (next_conn p); CloseConnection (next_conn p)])%list).
Proof.
  intros Hall. unfold SqlPersist.persist_entities.
  erewrite bind_ok; [|reflexivity]. unfold try_finally.
  set (q := emit _ _).
  assert (Hw : world q = world p) by done.
  match goal with |- context [for_each entities ?b] => set (body := b) end.
  assert (H : for_each entities body q = (Ok tt, q)); cycle 1.
  { rewrite H. unfold q, SqlPersist._close_connection, modify, emit. cbn.
    by rewrite <- ?app_assoc. }
  clearbody q.
  induction Hall as [|e entities He _ IH]; [done|].
  cbn [for_each]. erewrite bind_ok; [exact IH|].
  unfold body, SqlPersist.committed_of. erewrite bind_ok; [|reflexivity]. cbv beta.
  rewrite Hw. unfold Example.committed_attr in He.
  destruct (_entity_map (world p) !! Entity.global_id e) as [sl|] eqn:Hsl; cbn in He.
  - rewrite !bool_decide_eq_false_2; [done|intros Heq; eapply He; by rewrite Heq..].
  - done.
Qed.

Lemma persist_entities_ignores_unflagged_witness :
  SqlPersist.persist_entities [Example.item 1] (Example.with_schema Example.scored)
  = (Ok tt,
     mkPersist (world (Example.with_schema Example.scored))
               (__persisted_types (Example.with_schema Example.scored))
               (__unit_meta_unit (Example.with_schema Example.scored))
               (database (Example.with_schema Example.scored))
               (S (next_conn (Example.with_schema Example.scored)))
               (trace (Example.with_schema Example.scored)
                  ++ [Connect (next_conn (Example.with_schema Example.scored));
                      CloseConnection (next_conn (Example.with_schema Example.scored))])%list).
Proof.
  assert (H : Forall (λ e, ∀ c, Example.committed_attr
                                  (world (Example.with_schema Example.scored)) e
                                ≠ Some (VAtom (ACommitted c)))
                [Example.item 1]).
  { apply Forall_cons_2; [|apply Forall_nil_2]. intros c. vm_compute. discriminate. }
  exact (persist_entities_ignores_unflagged [Example.item 1]
           (Example.with_schema Example.scored) H).
Defined.

(** ** Writes through [Store.access] *)

(** What a write through [Store.access] returns and leaves, from what
    [_access_data_set_value] did. *)
Lemma field_access_changed w e sl f g operation value rv sl1 :
  stored w e sl →
  unit_registered w (Entity.unit e) →
  enum_fields w !! MetaProps.key f = Some g →
  (∀ gid, dict_get g (e_map sl) ≠ Some (VAtom (AGid gid))) →
  operation ∈ [Operation.SET; Operation.ADD; Operation.CHANGE] →
  entity sl1 = e →
  Store._access_data_set_value (VAtom (AEntity e)) (AField f) value operation w
  = (Ok (true, rv), put_slot (Entity.global_id e) sl1 w) →
  field_access e f operation value w
  = (Ok rv, with_outbox (λ _, notified operation e f w)
              (put_slot (Entity.global_id e) sl1 w)).
Proof.
  intros Hst Hu Hf Hv Hop He Hset.
  assert (Hst1 : stored (put_slot (Entity.global_id e) sl1 w) e sl1)
    by (by apply stored_put_slot).
  unfold field_access.
  erewrite bind_ok; [|reflexivity].
  erewrite bind_ok; [|by apply get_value_stored with (g := g)].
  assert (Hgoal :
    (r <- Store._access_data_set_value (VAtom (AEntity e)) (AField f) value operation ;;
     (if r.1 && _messages_create_message w
      then Store._create_message operation
             [AStr (Entity.unit e); AInt (Entity.entity_id e);
              AType (Entity.meta_type e); AField f] [AGid (Entity.global_id e)]
      else ret ()) ;;; ret r.2) w
    = (Ok rv, with_outbox (λ _, notified operation e f w)
                (put_slot (Entity.global_id e) sl1 w))).
  { erewrite bind_ok; [|exact Hset]. cbn [fst snd andb].
    destruct (_messages_create_message w) eqn:Hhook.
    - erewrite bind_ok; [|eapply create_message_stored; [exact Hst1|exact Hu]]. done.
    - erewrite bind_ok; [|reflexivity]. unfold ret. f_equal.
      unfold notified. cbn. rewrite Hhook. cbn. by destruct w. }
  set_unfold in Hop. by destruct Hop as [->|[->|[->|[]]]].
Qed.

Lemma field_access_unchanged w e sl f g operation value rv :
  stored w e sl →
  enum_fields w !! MetaProps.key f = Some g →
  (∀ gid, dict_get g (e_map sl) ≠ Some (VAtom (AGid gid))) →
  operation ∈ [Operation.SET; Operation.ADD; Operation.CHANGE] →
  Store._access_data_set_value (VAtom (AEntity e)) (AField f) value operation w
  = (Ok (false, rv), w) →
  field_access e f operation value w = (Ok rv, w).
Proof.
  intros Hst Hf Hv Hop Hset.
  unfold field_access.
  erewrite bind_ok; [|reflexivity].
  erewrite bind_ok; [|by apply get_value_stored with (g := g)].
  assert (Hgoal :
    (r <- Store._access_data_set_value (VAtom (AEntity e)) (AField f) value operation ;;
     (if r.1 && _messages_create_message w
      then Store._create_message operation
             [AStr (Entity.unit e); AInt (Entity.entity_id e);
              AType (Entity.meta_type e); AField f] [AGid (Entity.global_id e)]
      else ret ()) ;;; ret r.2) w
    = (Ok rv, w)).
  { erewrite bind_ok; [|exact Hset]. cbn [fst snd andb].
    erewrite bind_ok; [|reflexivity]. done. }
  set_unfold in Hop. by destruct Hop as [->|[->|[->|[]]]].
Qed.

Ltac enter_set_value Hst Hf Hc :=
  unfold Store._access_data_set_value;
  erewrite bind_ok; [|by apply slot_of_stored];
  erewrite bind_ok; [|reflexivity];
  rewrite Hf; erewrite bind_ok; [|reflexivity];
  rewrite Hc; erewrite bind_ok; [|reflexivity].

(** [SET] or [ADD] of a value that is no entity on a single-valued
    field. *)
Lemma set_value_single_plain w e sl f g cfg a operation :
  stored w e sl →
  enum_fields w !! MetaProps.key f = Some g →
  enum_configs w !! g = Some cfg →
  MetaProps.valuetype f = ValueTypes.SINGLE →
  (∀ ve, a ≠ AEntity ve) →
  operation ∈ [Operation.SET; Operation.ADD] →
  Store._access_data_set_value (VAtom (AEntity e)) (AField f) (VAtom a) operation w
  = if bool_decide (default VNone (dict_get g (e_map sl)) = VAtom a)
    then (Ok (false, VAtom a), w)
    else (Ok (true, VAtom a),
          put_slot (Entity.global_id e)
            (uncommitted (with_e_map (dict_set g (VAtom a)) sl)) w).
Proof.
  intros Hst Hf Hc Hvt Ha Hop. enter_set_value Hst Hf Hc.
  rewrite Hvt. unfold py_ne.
  assert (Hgoal :
    (if negb (bool_decide (default VNone (dict_get g (e_map sl)) = VAtom a))
     then Store.set_item (Entity.global_id e) g (VAtom a) ;;;
          changed <- Store._set_uncommitted (Entity.global_id e) ;;
          ret (changed, VAtom a)
     else ret (false, VAtom a)) w
    = if bool_decide (default VNone (dict_get g (e_map sl)) = VAtom a)
      then (Ok (false, VAtom a), w)
      else (Ok (true, VAtom a),
            put_slot (Entity.global_id e)
              (uncommitted (with_e_map (dict_set g (VAtom a)) sl)) w)).
  { destruct (bool_decide _); cbn [negb]; [done|].
    erewrite bind_ok; [|by apply set_item_stored].
    erewrite bind_ok;
      [|apply set_uncommitted_stored, stored_put_slot; by destruct Hst].
    by rewrite put_slot_put_slot. }
  set_unfold in Hop.
  destruct Hop as [->|[->|[]]]; destruct (MetaProps.datatype f), a;
    first [exact Hgoal | by edestruct Ha].
Qed.

Lemma uncommitted_get sl g :
  g ≠ Store.committed_field →
  dict_get g (e_map (uncommitted sl)) = dict_get g (e_map sl).
Proof. intros Hg. cbn. by apply dict_get_set_ne. Qed.

(** A value that is no entity on a [LIST] field is appended, whatever
    the operation. *)
Lemma set_value_list_append w e sl f g cfg a l operation :
  stored w e sl →
  enum_fields w !! MetaProps.key f = Some g →
  enum_configs w !! g = Some cfg →
  MetaProps.valuetype f = ValueTypes.LIST →
  g ≠ Store.committed_field →
  (∀ ve, a ≠ AEntity ve) →
  default (VList []) (dict_get g (e_map sl)) = VList l →
  Store._access_data_set_value (VAtom (AEntity e)) (AField f) (VAtom a) operation w
  = (Ok (true, VAtom a),
     put_slot (Entity.global_id e)
       (with_e_map (dict_set g (VList (l ++ [a]))) (uncommitted sl)) w).
Proof.
  intros Hst Hf Hc Hvt Hg Ha Hl. enter_set_value Hst Hf Hc.
  rewrite Hvt.
  assert (Hgoal :
    (changed <- Store._set_uncommitted (Entity.global_id e) ;;
     Store.setdefault_append (Entity.global_id e) g a ;;;
     ret (changed, VAtom a)) w
    = (Ok (true, VAtom a),
       put_slot (Entity.global_id e)
         (with_e_map (dict_set g (VList (l ++ [a]))) (uncommitted sl)) w)).
  { erewrite bind_ok; [|by apply set_uncommitted_stored].
    assert (Hst1 : stored (put_slot (Entity.global_id e) (uncommitted sl) w) e (uncommitted sl))
      by (apply stored_put_slot; by destruct Hst).
    erewrite bind_ok; cycle 1.
    { unfold Store.setdefault_append.
      erewrite bind_ok; [|by apply slot_of_stored].
      rewrite uncommitted_get by done.
      destruct (dict_get g (e_map sl)) as [v|]; cbn in Hl.
      - subst v. by apply set_item_stored.
      - injection Hl as <-. by apply set_item_stored. }
    by rewrite put_slot_put_slot. }
  destruct (MetaProps.datatype f), a; first [exact Hgoal | by edestruct Ha].
Qed.

(** A value that is no entity on a [SET] field. *)
Lemma set_value_set_add w e sl f g cfg a s operation :
  stored w e sl →
  enum_fields w !! MetaProps.key f = Some g →
  enum_configs w !! g = Some cfg →
  MetaProps.valuetype f = ValueTypes.SET →
  (∀ ve, a ≠ AEntity ve) →
  default (VSet ∅) (dict_get g (e_map sl)) = VSet s →
  Store._access_data_set_value (VAtom (AEntity e)) (AField f) (VAtom a) operation w
  = if bool_decide (a ∈ s)
    then (Ok (false, VAtom a), w)
    else (Ok (true, VAtom a),
          put_slot (Entity.global_id e)
            (uncommitted (with_e_map (dict_set g (VSet (s ∪ {[ a ]}))) sl)) w).
Proof.
  intros Hst Hf Hc Hvt Ha Hs. enter_set_value Hst Hf Hc.
  rewrite Hvt.
  assert (Hgoal :
    (present <- match dict_get g (e_map sl) with
                | None => ret false
                | Some old => Store.py_in a old
                end ;;
     if negb present then
       Store.setdefault_add (Entity.global_id e) g a ;;;
       changed <- Store._set_uncommitted (Entity.global_id e) ;;
       ret (changed, VAtom a)
     else ret (false, VAtom a)) w
    = if bool_decide (a ∈ s)
      then (Ok (false, VAtom a), w)
      else (Ok (true, VAtom a),
            put_slot (Entity.global_id e)
              (uncommitted (with_e_map (dict_set g (VSet (s ∪ {[ a ]}))) sl)) w)).
  { assert (Hadd : ∀ v, (dict_get g (e_map sl) = None ∧ v = VSet {[ a ]}
                         ∨ ∃ s0, dict_get g (e_map sl) = Some (VSet s0)
                                 ∧ v = VSet (s0 ∪ {[ a ]})) →
       (Store.setdefault_add (Entity.global_id e) g a ;;;
        changed <- Store._set_uncommitted (Entity.global_id e) ;;
        ret (changed, VAtom a)) w
       = (Ok (true, VAtom a),
          put_slot (Entity.global_id e) (uncommitted (with_e_map (dict_set g v) sl)) w)).
    { intros v Hv. erewrite bind_ok; cycle 1.
      { unfold Store.setdefault_add. erewrite bind_ok; [|by apply slot_of_stored].
        destruct Hv as [[-> ->]|(s0 & -> & ->)]; by apply set_item_stored. }
      erewrite bind_ok;
        [|apply set_uncommitted_stored, stored_put_slot; by destruct Hst].
      by rewrite put_slot_put_slot. }
    destruct (dict_get g (e_map sl)) as [v|] eqn:Hget; cbn in Hs.
    - subst v. erewrite bind_ok; [|reflexivity].
      destruct (bool_decide (a ∈ s)); cbn [negb]; [done|].
      apply Hadd. right. by exists s.
    - injection Hs as <-. erewrite bind_ok; [|reflexivity]. cbn [negb].
      rewrite bool_decide_eq_false_2 by set_solver.
      rewrite (left_id_L ∅ (∪)). apply Hadd. by left. }
  destruct (MetaProps.datatype f), a; first [exact Hgoal | by edestruct Ha].
Qed.

Lemma all_in_set s l w :
  Store.all_in (VSet s) l w = (Ok (bool_decide (Forall (λ v, v ∈ s) l)), w).
Proof.
  induction l as [|v l IH]; cbn [Store.all_in].
  - by rewrite bool_decide_eq_true_2.
  - erewrite bind_ok; [|reflexivity]. destruct (decide (v ∈ s)) as [Hv|Hv].
    + rewrite (bool_decide_eq_true_2 (v ∈ s)) by done. rewrite IH. do 2 f_equal.
      apply bool_decide_ext. rewrite Forall_cons. tauto.
    + rewrite (bool_decide_eq_false_2 (v ∈ s)) by done.
      rewrite bool_decide_eq_false_2; [done|]. rewrite Forall_cons. tauto.
Qed.

(** A list on a [SET] field. *)
Lemma set_value_set_bulk w e sl f g cfg l s operation :
  stored w e sl →
  enum_fields w !! MetaProps.key f = Some g →
  enum_configs w !! g = Some cfg →
  MetaProps.valuetype f = ValueTypes.SET →
  default (VSet ∅) (dict_get g (e_map sl)) = VSet s →
  Store._access_data_set_value (VAtom (AEntity e)) (AField f) (VList l) operation w
  = if bool_decide (is_Some (dict_get g (e_map sl)) ∧ Forall (λ v, v ∈ s) l)
    then (Ok (false, VList l), w)
    else (Ok (true, VList l),
          put_slot (Entity.global_id e)
            (uncommitted (with_e_map (dict_set g (VSet (s ∪ list_to_set l))) sl)) w).
Proof.
  intros Hst Hf Hc Hvt Hs. enter_set_value Hst Hf Hc.
  rewrite Hvt.
  assert (Hgoal :
    (all_included <- match dict_get g (e_map sl) with
                     | None => ret false
                     | Some old_values => Store.all_in old_values l
                     end ;;
     if negb all_included then
       Store.setdefault_update (Entity.global_id e) g l ;;;
       changed <- Store._set_uncommitted (Entity.global_id e) ;;
       ret (changed, VList l)
     else ret (false, VList l)) w
    = if bool_decide (is_Some (dict_get g (e_map sl)) ∧ Forall (λ v, v ∈ s) l)
      then (Ok (false, VList l), w)
      else (Ok (true, VList l),
            put_slot (Entity.global_id e)
              (uncommitted (with_e_map (dict_set g (VSet (s ∪ list_to_set l))) sl)) w)).
  { assert (Hupd : ∀ v, (dict_get g (e_map sl) = None ∧ v = VSet (list_to_set l)
                         ∨ ∃ s0, dict_get g (e_map sl) = Some (VSet s0)
                                 ∧ v = VSet (s0 ∪ list_to_set l)) →
       (Store.setdefault_update (Entity.global_id e) g l ;;;
        changed <- Store._set_uncommitted (Entity.global_id e) ;;
        ret (changed, VList l)) w
       = (Ok (true, VList l),
          put_slot (Entity.global_id e) (uncommitted (with_e_map (dict_set g v) sl)) w)).
    { intros v Hv. erewrite bind_ok; cycle 1.
      { unfold Store.setdefault_update. erewrite bind_ok; [|by apply slot_of_stored].
        destruct Hv as [[-> ->]|(s0 & -> & ->)]; by apply set_item_stored. }
      erewrite bind_ok;
        [|apply set_uncommitted_stored, stored_put_slot; by destruct Hst].
      by rewrite put_slot_put_slot. }
    destruct (dict_get g (e_map sl)) as [v|] eqn:Hget; cbn in Hs.
    - subst v. erewrite bind_ok; [|apply all_in_set].
      destruct (decide (Forall (λ v, v ∈ s) l)) as [Hall|Hall].
      + rewrite !bool_decide_eq_true_2; [done|by split|done].
      + rewrite !bool_decide_eq_false_2; [|tauto|done]. cbn [negb].
        apply Hupd. right. by exists s.
    - injection Hs as <-. erewrite bind_ok; [|reflexivity]. cbn [negb].
      rewrite bool_decide_eq_false_2 by (intros [[? [=]] _]).
      rewrite (left_id_L ∅ (∪)). apply Hupd. by left. }
  by destruct (MetaProps.datatype f).
Qed.

(** X5.  [SET] (or [ADD]) of a value that is no entity on a single-valued
    field returns the value.  When the field already holds it (an absent
    field counts as holding [None]), nothing in the store changes: the
    entity keeps its committed state and no message is sent.  Otherwise
    the field holds the value afterwards, the other fields are as before,
    the entity is uncommitted, and the change is reported. *)
Theorem set_plain_value_on_single_field w e sl f g cfg a operation :
  stored w e sl →
  unit_registered w (Entity.unit e) →
  enum_fields w !! MetaProps.key f = Some g →
  enum_configs w !! g = Some cfg →
  MetaProps.valuetype f = ValueTypes.SINGLE →
  g ≠ Store.committed_field →
  (∀ gid, dict_get g (e_map sl) ≠ Some (VAtom (AGid gid))) →
  (∀ ve, a ≠ AEntity ve) →
  operation ∈ [Operation.SET; Operation.ADD] →
  let out := Store.entity_access e operation (VAtom a) [AField f] w in
  out.1 = Ok (VAtom a)
  ∧ if bool_decide (default VNone (dict_get g (e_map sl)) = VAtom a)
    then out.2 = w
    else ∃ sl',
      stored out.2 e sl'
      ∧ dict_get g (e_map sl') = Some (VAtom a)
      ∧ (∀ g', g' ≠ g → g' ≠ Store.committed_field →
           dict_get g' (e_map sl') = dict_get g' (e_map sl))
      ∧ committed sl' = VFalse
      ∧ dict_get Store.committed_field (e_map sl') = Some VFalse
      ∧ outbox out.2 = notified operation e f w.
Proof.
  intros Hst Hu Hf Hc Hvt Hg Hv Ha Hop out. unfold out.
  assert (Hop' : operation ∈ [Operation.SET; Operation.ADD; Operation.CHANGE])
    by (rewrite !elem_of_cons in Hop |- *; rewrite elem_of_nil in Hop; tauto).
  rewrite (entity_access_field _ _ _ _ _ _ Hst).
  pose proof (set_value_single_plain w e sl f g cfg a operation Hst Hf Hc Hvt Ha Hop)
    as Hset.
  destruct (bool_decide (default VNone (dict_get g (e_map sl)) = VAtom a)).
  - by rewrite (field_access_unchanged w e sl f g operation (VAtom a) (VAtom a)).
  - rewrite (field_access_changed w e sl f g operation (VAtom a) (VAtom a)
               (uncommitted (with_e_map (dict_set g (VAtom a)) sl)));
      try done; [|by destruct Hst].
    split; [done|]. eexists. split_and!.
    + apply stored_put_slot. by destruct Hst.
    + cbn. rewrite dict_get_set_ne by (intros ?; by apply Hg). apply dict_get_set_eq.
    + intros g' Hg' Hc'. cbn. by rewrite !dict_get_set_ne.
    + done.
    + cbn. apply dict_get_set_eq.
    + done.
Qed.

Lemma set_plain_value_on_single_field_witness :
  let out := Store.entity_access (Example.item 1) Operation.SET (VAtom (AInt 7))
               [AField Example.ItemMeta.stock] Example.stocked in
  Example.stored_value Example.stocked (Example.item 1) ("shop_meta", "item", "stock")
  = Some (VAtom (AInt 7))
  ∧ out.1 = Ok (VAtom (AInt 7))
  ∧ out.2 = Example.stocked.
Proof.
  assert (Hst : stored Example.stocked (Example.item 1) (Example.slot Example.stocked (Example.item 1))).
  { apply stored_slot; vm_compute; reflexivity. }
  assert (Hu : unit_registered Example.stocked (Entity.unit (Example.item 1))).
  { eexists; split; vm_compute; reflexivity. }
  assert (Hf : enum_fields Example.stocked !! MetaProps.key Example.ItemMeta.stock
               = Some ("shop_meta", "item", "stock")).
  { vm_compute; reflexivity. }
  assert (Hc : ∃ cfg, enum_configs Example.stocked !! ("shop_meta", "item", "stock") = Some cfg).
  { eexists; vm_compute; reflexivity. }
  destruct Hc as [cfg Hc].
  assert (Hg : ("shop_meta", "item", "stock") ≠ Store.committed_field).
  { vm_compute; discriminate. }
  assert (Hv : ∀ gid, dict_get ("shop_meta", "item", "stock")
                        (e_map (Example.slot Example.stocked (Example.item 1))) ≠ Some (VAtom (AGid gid))).
  { intros gid; vm_compute; discriminate. }
  assert (Ha : ∀ ve, AInt 7 ≠ AEntity ve).
  { intros ve; discriminate. }
  assert (Hop : Operation.SET ∈ [Operation.SET; Operation.ADD]).
  { apply (bool_decide_unpack _); vm_compute; exact I. }
  assert (Hb : bool_decide (default VNone (dict_get ("shop_meta", "item", "stock")
                                             (e_map (Example.slot Example.stocked (Example.item 1))))
                            = VAtom (AInt 7)) = true).
  { vm_compute; reflexivity. }
  pose proof (set_plain_value_on_single_field Example.stocked (Example.item 1)
                (Example.slot Example.stocked (Example.item 1)) Example.ItemMeta.stock
                ("shop_meta", "item", "stock") cfg (AInt 7) Operation.SET
                Hst Hu Hf Hc eq_refl Hg Hv Ha Hop) as [H1 H2].
  rewrite Hb in H2.
  split_and!.
  (vm_compute; reflexivity).
  exact H1. exact H2.
Defined.

(** X6.  A value that is no entity written to a [LIST] field is appended
    at the end, under [SET], [ADD] and [CHANGE] alike and also when the
    list already holds it; the entity becomes uncommitted and the write is
    reported. *)
Theorem scalar_on_list_field_is_appended w e sl f g cfg a l operation :
  stored w e sl →
  unit_registered w (Entity.unit e) →
  enum_fields w !! MetaProps.key f = Some g →
  enum_configs w !! g = Some cfg →
  MetaProps.valuetype f = ValueTypes.LIST →
  g ≠ Store.committed_field →
  (∀ ve, a ≠ AEntity ve) →
  default (VList []) (dict_get g (e_map sl)) = VList l →
  operation ∈ [Operation.SET; Operation.ADD; Operation.CHANGE] →
  let out := Store.entity_access e operation (VAtom a) [AField f] w in
  out.1 = Ok (VAtom a)
  ∧ ∃ sl',
      stored out.2 e sl'
      ∧ dict_get g (e_map sl') = Some (VList (l ++ [a]))
      ∧ committed sl' = VFalse
      ∧ outbox out.2 = notified operation e f w.
Proof.
  intros Hst Hu Hf Hc Hvt Hg Ha Hl Hop out. unfold out.
  rewrite (entity_access_field _ _ _ _ _ _ Hst).
  rewrite (field_access_changed w e sl f g operation (VAtom a) (VAtom a)
             (with_e_map (dict_set g (VList (l ++ [a]))) (uncommitted sl)));
    try done.
  - split; [done|]. eexists. split_and!; [apply stored_put_slot; by destruct Hst|..|done|done].
    cbn. apply dict_get_set_eq.
  - intros gid Hgid. rewrite Hgid in Hl. done.
  - by destruct Hst.
  - by eapply set_value_list_append.
Qed.

Lemma scalar_on_list_field_is_appended_witness :
  let out := Store.entity_access (Example.item 1) Operation.ADD (VAtom (AInt 10))
               [AField Example.ItemMeta.scores] Example.scored in
  out.1 = Ok (VAtom (AInt 10))
  ∧ ∃ sl',
      stored out.2 (Example.item 1) sl'
      ∧ dict_get ("shop_meta", "item", "scores") (e_map sl')
        = Some (VList ([AInt 10; AInt 20; AInt 30] ++ [AInt 10]))
      ∧ committed sl' = VFalse
      ∧ outbox out.2
        = notified Operation.ADD (Example.item 1) Example.ItemMeta.scores Example.scored.
Proof.
  assert (Hst : stored Example.scored (Example.item 1)
                  (Example.slot Example.scored (Example.item 1))).
  { apply stored_slot; vm_compute; reflexivity. }
  assert (Hu : unit_registered Example.scored (Entity.unit (Example.item 1))).
  { eexists; split; vm_compute; reflexivity. }
  assert (Hf : enum_fields Example.scored !! MetaProps.key Example.ItemMeta.scores
               = Some ("shop_meta", "item", "scores")).
  { vm_compute; reflexivity. }
  assert (Hc : ∃ cfg, enum_configs Example.scored !! ("shop_meta", "item", "scores")
                      = Some cfg).
  { eexists; vm_compute; reflexivity. }
  destruct Hc as [cfg Hc].
  assert (Hg : ("shop_meta", "item", "scores") ≠ Store.committed_field).
  { vm_compute; discriminate. }
  assert (Ha : ∀ ve, AInt 10 ≠ AEntity ve).
  { intros ve; discriminate. }
  assert (Hl : default (VList []) (dict_get ("shop_meta", "item", "scores")
                                     (e_map (Example.slot Example.scored (Example.item 1))))
               = VList [AInt 10; AInt 20; AInt 30]).
  { vm_compute; reflexivity. }
  assert (Hop : Operation.ADD ∈ [Operation.SET; Operation.ADD; Operation.CHANGE]).
  { apply (bool_decide_unpack _); vm_compute; exact I. }
  exact (scalar_on_list_field_is_appended Example.scored (Example.item 1)
           (Example.slot Example.scored (Example.item 1)) Example.ItemMeta.scores
           ("shop_meta", "item", "scores") cfg (AInt 10) [AInt 10; AInt 20; AInt 30]
           Operation.ADD Hst Hu Hf Hc eq_refl Hg Ha Hl Hop).
Defined.

(** X7.  A value that is no entity written to a [SET] field: when the set
    holds it already nothing in the store changes; otherwise it joins the
    set, the entity becomes uncommitted and the write is reported. *)
Theorem scalar_on_set_field_joins_once w e sl f g cfg a s operation :
  stored w e sl →
  unit_registered w (Entity.unit e) →
  enum_fields w !! MetaProps.key f = Some g →
  enum_configs w !! g = Some cfg →
  MetaProps.valuetype f = ValueTypes.SET →
  g ≠ Store.committed_field →
  (∀ ve, a ≠ AEntity ve) →
  default (VSet ∅) (dict_get g (e_map sl)) = VSet s →
  operation ∈ [Operation.SET; Operation.ADD; Operation.CHANGE] →
  let out := Store.entity_access e operation (VAtom a) [AField f] w in
  out.1 = Ok (VAtom a)
  ∧ if bool_decide (a ∈ s)
    then out.2 = w
    else ∃ sl',
      stored out.2 e sl'
      ∧ dict_get g (e_map sl') = Some (VSet (s ∪ {[ a ]}))
      ∧ committed sl' = VFalse
      ∧ outbox out.2 = notified operation e f w.
Proof.
  intros Hst Hu Hf Hc Hvt Hg Ha Hs Hop out. unfold out.
  rewrite (entity_access_field _ _ _ _ _ _ Hst).
  assert (Hv : ∀ gid, dict_get g (e_map sl) ≠ Some (VAtom (AGid gid))).
  { intros gid Hgid. rewrite Hgid in Hs. done. }
  pose proof (set_value_set_add w e sl f g cfg a s operation Hst Hf Hc Hvt Ha Hs) as Hset.
  destruct (bool_decide (a ∈ s)).
  - by rewrite (field_access_unchanged w e sl f g operation (VAtom a) (VAtom a)).
  - rewrite (field_access_changed w e sl f g operation (VAtom a) (VAtom a)
               (uncommitted (with_e_map (dict_set g (VSet (s ∪ {[ a ]}))) sl)));
      try done; [|by destruct Hst].
    split; [done|]. eexists. split_and!; [apply stored_put_slot; by destruct Hst|..|done|done].
    cbn. rewrite dict_get_set_ne by (intros ?; by apply Hg). apply dict_get_set_eq.
Qed.

Lemma scalar_on_set_field_joins_once_witness :
  let out := Store.entity_access (Example.item 1) Operation.ADD (VAtom (AStr "new"))
               [AField Example.ItemMeta.tags] Example.tagged in
  Example.occurrences
    (Example.stored_value Example.tagged (Example.item 1) ("shop_meta", "item", "tags"))
  = [AStr "new"]
  ∧ out.1 = Ok (VAtom (AStr "new"))
  ∧ out.2 = Example.tagged.
Proof.
  assert (Hst : stored Example.tagged (Example.item 1) (Example.slot Example.tagged (Example.item 1))).
  { apply stored_slot; vm_compute; reflexivity. }
  assert (Hu : unit_registered Example.tagged (Entity.unit (Example.item 1))).
  { eexists; split; vm_compute; reflexivity. }
  assert (Hf : enum_fields Example.tagged !! MetaProps.key Example.ItemMeta.tags
               = Some ("shop_meta", "item", "tags")).
  { vm_compute; reflexivity. }
  assert (Hc : ∃ cfg, enum_configs Example.tagged !! ("shop_meta", "item", "tags") = Some cfg).
  { eexists; vm_compute; reflexivity. }
  destruct Hc as [cfg Hc].
  assert (Hg : ("shop_meta", "item", "tags") ≠ Store.committed_field).
  { vm_compute; discriminate. }
  assert (Ha : ∀ ve, AStr "new" ≠ AEntity ve).
  { intros ve; discriminate. }
  assert (Hs : default (VSet ∅) (dict_get ("shop_meta", "item", "tags")
                                   (e_map (Example.slot Example.tagged (Example.item 1))))
               = VSet {[ AStr "new" ]}).
  { apply (bool_decide_unpack _); vm_compute; exact I. }
  assert (Hop : Operation.ADD ∈ [Operation.SET; Operation.ADD; Operation.CHANGE]).
  { apply (bool_decide_unpack _); vm_compute; exact I. }
  assert (Hb : bool_decide (AStr "new" ∈ ({[ AStr "new" ]} : gset Atom)) = true).
  { vm_compute; reflexivity. }
  pose proof (scalar_on_set_field_joins_once Example.tagged (Example.item 1)
                (Example.slot Example.tagged (Example.item 1)) Example.ItemMeta.tags
                ("shop_meta", "item", "tags") cfg (AStr "new") {[ AStr "new" ]}
                Operation.ADD Hst Hu Hf Hc eq_refl Hg Ha Hs Hop) as [H1 H2].
  rewrite Hb in H2.
  split_and!; [vm_compute; reflexivity|exact H1|exact H2].
Defined.

(** X8.  A list written to a [SET] field is merged into the set: the
    field afterwards holds the union of what it held and the elements of
    the list, so such a write never removes an element.  Nothing in the
    store changes when the field exists and holds every element already;
    otherwise the entity becomes uncommitted and the write is reported,
    also for an empty list on an absent field. *)
Theorem list_on_set_field_is_merged w e sl f g cfg l s operation :
  stored w e sl →
  unit_registered w (Entity.unit e) →
  enum_fields w !! MetaProps.key f = Some g →
  enum_configs w !! g = Some cfg →
  MetaProps.valuetype f = ValueTypes.SET →
  g ≠ Store.committed_field →
  default (VSet ∅) (dict_get g (e_map sl)) = VSet s →
  operation ∈ [Operation.SET; Operation.ADD; Operation.CHANGE] →
  let out := Store.entity_access e operation (VList l) [AField f] w in
  out.1 = Ok (VList l)
  ∧ if bool_decide (is_Some (dict_get g (e_map sl)) ∧ Forall (λ v, v ∈ s) l)
    then out.2 = w
    else ∃ sl',
      stored out.2 e sl'
      ∧ dict_get g (e_map sl') = Some (VSet (s ∪ list_to_set l))
      ∧ committed sl' = VFalse
      ∧ outbox out.2 = notified operation e f w.
Proof.
  intros Hst Hu Hf Hc Hvt Hg Hs Hop out. unfold out.
  rewrite (entity_access_field _ _ _ _ _ _ Hst).
  assert (Hv : ∀ gid, dict_get g (e_map sl) ≠ Some (VAtom (AGid gid))).
  { intros gid Hgid. rewrite Hgid in Hs. done. }
  pose proof (set_value_set_bulk w e sl f g cfg l s operation Hst Hf Hc Hvt Hs) as Hset.
  destruct (bool_decide (is_Some (dict_get g (e_map sl)) ∧ Forall (λ v, v ∈ s) l)).
  - by rewrite (field_access_unchanged w e sl f g operation (VList l) (VList l)).
  - rewrite (field_access_changed w e sl f g operation (VList l) (VList l)
               (uncommitted (with_e_map (dict_set g (VSet (s ∪ list_to_set l))) sl)));
      try done; [|by destruct Hst].
    split; [done|]. eexists. split_and!; [apply stored_put_slot; by destruct Hst|..|done|done].
    cbn. rewrite dict_get_set_ne by (intros ?; by apply Hg). apply dict_get_set_eq.
Qed.

Lemma list_on_set_field_is_merged_witness :
  let out := Store.entity_access (Example.item 1) Operation.SET
               (VList [AStr "new"; AStr "old"])
               [AField Example.ItemMeta.tags] Example.tagged in
  out.1 = Ok (VList [AStr "new"; AStr "old"])
  ∧ ∃ sl',
      stored out.2 (Example.item 1) sl'
      ∧ dict_get ("shop_meta", "item", "tags") (e_map sl')
        = Some (VSet ({[ AStr "new" ]} ∪ list_to_set [AStr "new"; AStr "old"]))
      ∧ committed sl' = VFalse
      ∧ outbox out.2
        = notified Operation.SET (Example.item 1) Example.ItemMeta.tags Example.tagged.
Proof.
  assert (Hst : stored Example.tagged (Example.item 1) (Example.slot Example.tagged (Example.item 1))).
  { apply stored_slot; vm_compute; reflexivity. }
  assert (Hu : unit_registered Example.tagged (Entity.unit (Example.item 1))).
  { eexists; split; vm_compute; reflexivity. }
  assert (Hf : enum_fields Example.tagged !! MetaProps.key Example.ItemMeta.tags
               = Some ("shop_meta", "item", "tags")).
  { vm_compute; reflexivity. }
  assert (Hc : ∃ cfg, enum_configs Example.tagged !! ("shop_meta", "item", "tags") = Some cfg).
  { eexists; vm_compute; reflexivity. }
  destruct Hc as [cfg Hc].
  assert (Hg : ("shop_meta", "item", "tags") ≠ Store.committed_field).
  { vm_compute; discriminate. }
  assert (Hs : default (VSet ∅) (dict_get ("shop_meta", "item", "tags")
                                   (e_map (Example.slot Example.tagged (Example.item 1))))
               = VSet {[ AStr "new" ]}).
  { apply (bool_decide_unpack _); vm_compute; exact I. }
  assert (Hop : Operation.SET ∈ [Operation.SET; Operation.ADD; Operation.CHANGE]).
  { apply (bool_decide_unpack _); vm_compute; exact I. }
  assert (Hb : bool_decide
                 (is_Some (dict_get ("shop_meta", "item", "tags")
                             (e_map (Example.slot Example.tagged (Example.item 1))))
                  ∧ Forall (λ v, v ∈ ({[ AStr "new" ]} : gset Atom))
                           [AStr "new"; AStr "old"]) = false).
  { vm_compute; reflexivity. }
  pose proof (list_on_set_field_is_merged Example.tagged (Example.item 1)
                (Example.slot Example.tagged (Example.item 1)) Example.ItemMeta.tags
                ("shop_meta", "item", "tags") cfg [AStr "new"; AStr "old"]
                {[ AStr "new" ]} Operation.SET Hst Hu Hf Hc eq_refl Hg Hs Hop) as [H1 H2].
  rewrite Hb in H2.
  split; [exact H1|exact H2].
Defined.

(** ** Reads, unknown fields and entities by id *)

(** X9.  [GET] of a field of a stored entity returns what the field
    holds, [None] when the field is absent, whatever value is passed with
    the call; nothing in the store changes. *)
Theorem get_returns_stored_value w e sl f g value :
  stored w e sl →
  enum_fields w !! MetaProps.key f = Some g →
  (∀ gid, dict_get g (e_map sl) ≠ Some (VAtom (AGid gid))) →
  Store.entity_access e Operation.GET value [AField f] w
  = (Ok (default VNone (dict_get g (e_map sl))), w).
Proof.
  intros Hst Hf Hv. rewrite (entity_access_field _ _ _ _ _ _ Hst). unfold field_access.
  erewrite bind_ok; [|reflexivity].
  erewrite bind_ok; [|by apply get_value_stored with (g := g)].
  reflexivity.
Qed.

Lemma get_returns_stored_value_witness :
  Example.stored_value Example.stocked (Example.item 1) ("shop_meta", "item", "stock")
  = Some (VAtom (AInt 7))
  ∧ Store.entity_access (Example.item 1) Operation.GET (VAtom (AInt 99))
      [AField Example.ItemMeta.stock] Example.stocked
    = (Ok (default VNone (dict_get ("shop_meta", "item", "stock")
                            (e_map (Example.slot Example.stocked (Example.item 1))))),
       Example.stocked).
Proof.
  assert (Hst : stored Example.stocked (Example.item 1)
                  (Example.slot Example.stocked (Example.item 1))).
  { apply stored_slot; vm_compute; reflexivity. }
  assert (Hf : enum_fields Example.stocked !! MetaProps.key Example.ItemMeta.stock
               = Some ("shop_meta", "item", "stock")).
  { vm_compute; reflexivity. }
  assert (Hv : ∀ gid, dict_get ("shop_meta", "item", "stock")
                        (e_map (Example.slot Example.stocked (Example.item 1)))
                      ≠ Some (VAtom (AGid gid))).
  { intros gid; vm_compute; discriminate. }
  split; [vm_compute; reflexivity|].
  exact (get_returns_stored_value Example.stocked (Example.item 1)
           (Example.slot Example.stocked (Example.item 1)) Example.ItemMeta.stock
           ("shop_meta", "item", "stock") (VAtom (AInt 99)) Hst Hf Hv).
Defined.

(** X10.  Access to a field whose enumeration was never loaded fails with
    [KeyError] under every operation, and leaves the store as it was. *)
Theorem access_unknown_field_raises w e sl f operation value :
  stored w e sl →
  enum_fields w !! MetaProps.key f = None →
  Store.entity_access e operation value [AField f] w = (Raise KeyError, w).
Proof.
  intros Hst Hf. rewrite (entity_access_field _ _ _ _ _ _ Hst). unfold field_access.
  erewrite bind_ok; [|reflexivity].
  apply bind_raise. unfold Store._access_data_get_value.
  apply bind_raise. unfold Store.enum_field_name.
  erewrite bind_ok; [|reflexivity]. by rewrite Hf.
Qed.

Lemma access_unknown_field_raises_witness :
  Store.entity_access (Example.item 1) Operation.SET (VAtom (AStr "red"))
    [AField Example.colour] Example.stocked
  = (Raise KeyError, Example.stocked).
Proof.
  assert (Hst : stored Example.stocked (Example.item 1)
                  (Example.slot Example.stocked (Example.item 1))).
  { apply stored_slot; vm_compute; reflexivity. }
  assert (Hf : enum_fields Example.stocked !! MetaProps.key Example.colour = None).
  { vm_compute; reflexivity. }
  exact (access_unknown_field_raises Example.stocked (Example.item 1)
           (Example.slot Example.stocked (Example.item 1)) Example.colour Operation.SET
           (VAtom (AStr "red")) Hst Hf).
Defined.

(** X11.  An index into a list: at or beyond the length the default is
    returned; a negative index counts from the end, as Python's
    subscript does, and below minus the length it raises [IndexError]
    instead of returning the default. *)
Theorem get_value_list_index (l : list Atom) (k : Z) d w :
  let n := Z.of_nat (length l) in
  Store._access_data_get_value (VList l) (AInt k) d w
  = if Z.leb n k then (Ok d, w)
    else if Z.leb 0 k then (Ok (from_option VAtom d (l !! Z.to_nat k)), w)
    else if Z.leb (- n) k then (Ok (from_option VAtom d (l !! Z.to_nat (k + n))), w)
    else (Raise IndexError, w).
Proof.
  intros n. unfold Store._access_data_get_value, Store.list_getitem. fold n.
  destruct (Z.leb_spec n k) as [H1|H1].
  - by rewrite (proj2 (Z.ltb_ge k n)).
  - rewrite (proj2 (Z.ltb_lt k n)) by done.
    destruct (Z.leb_spec 0 k) as [H2|H2].
    + rewrite (proj2 (Z.ltb_ge k 0)) by done. rewrite (proj2 (Z.ltb_ge k 0)) by done.
      destruct (lookup_lt_is_Some_2 l (Z.to_nat k)) as [a Ha]; [lia|].
      by rewrite Ha.
    + rewrite (proj2 (Z.ltb_lt k 0)) by done.
      destruct (Z.leb_spec (- n) k) as [H3|H3].
      * rewrite (proj2 (Z.ltb_ge (k + n) 0)) by lia.
        destruct (lookup_lt_is_Some_2 l (Z.to_nat (k + n))) as [a Ha]; [lia|].
        by rewrite Ha.
      * by rewrite (proj2 (Z.ltb_lt (k + n) 0)) by lia.
Qed.

(** X12.  Once the store is bootstrapped, [create_unit] on a name that is
    registered returns the unit's entity and changes nothing. *)
Theorem create_unit_known_unit w unit_name unit :
  is_Some (_entity_map w !! (UNIT_ENTITY, 2, "unit")) →
  enum_units w !! unit_name = Some unit →
  Store.create_unit unit_name w = (Ok unit, w).
Proof.
  intros Hboot Hu. unfold Store.create_unit.
  erewrite bind_ok; [|reflexivity]. cbv beta.
  rewrite (bool_decide_eq_true_2 (is_Some (enum_units w !! unit_name))) by (by eexists).
  rewrite andb_false_r.
  rewrite (bool_decide_eq_true_2 (is_Some (_entity_map w !! _))) by done.
  cbn [negb]. by rewrite Hu.
Qed.

Lemma create_unit_known_unit_witness :
  Store.create_unit Example.UNIT_SHOP Example.declared
  = (Ok (Entity.Obj UNIT_ENTITY 3 EntityTypes.unit), Example.declared).
Proof.
  assert (Hboot : is_Some (_entity_map Example.declared !! (UNIT_ENTITY, 2, "unit"))).
  { apply (bool_decide_unpack _); vm_compute; exact I. }
  assert (Hu : enum_units Example.declared !! Example.UNIT_SHOP
               = Some (Entity.Obj UNIT_ENTITY 3 EntityTypes.unit)).
  { vm_compute; reflexivity. }
  exact (create_unit_known_unit Example.declared Example.UNIT_SHOP
           (Entity.Obj UNIT_ENTITY 3 EntityTypes.unit) Hboot Hu).
Defined.




(** ** Schema statements, value conversion and the connection of a pass *)

(** X14.  [table_schemas] returns the [CREATE TABLE] statement of every
    table of the type whether or not the tables exist:
    [__table_exists_internal] asks the backend and drops the answer.
    Asking changes neither the database nor the store. *)
Theorem table_schemas_ignores_existing_tables t u conn p :
  __unit_meta_unit p !! FieldProps.key t = Some u →
  let out := SqlPersist.table_schemas t conn p in
  out.1 = Ok (CreateTable <$> tables_for u t)
  ∧ database out.2 = database p
  ∧ world out.2 = world p.
Proof.
  intros Hu out. unfold out, SqlPersist.table_schemas, SqlPersist.__table_name.
  erewrite bind_ok; cycle 1.
  { erewrite bind_ok; [|reflexivity]. cbv beta. rewrite Hu. reflexivity. }
  unfold SqlPersist.__table_exists_internal, SqlPersist.table_exits,
    SqlPersist._create_cursor, SqlPersist._close_cursor, SqlPersist._create_connection,
    SqlPersist._close_connection, SqlPersist.execute.
  destruct conn as [c|]; cbv [bind try_finally modify ret run]; cbn; done.
Qed.

Lemma table_schemas_ignores_existing_tables_witness :
  let out := SqlPersist.table_schemas Example.ShopTypes.item None
               (Example.with_schema Example.scored) in
  is_Some (database (Example.with_schema Example.scored) !! "shop_item")
  ∧ out.1 = Ok (CreateTable <$> tables_for "shop" Example.ShopTypes.item)
  ∧ database out.2 = database (Example.with_schema Example.scored)
  ∧ world out.2 = world (Example.with_schema Example.scored).
Proof.
  assert (Hu : __unit_meta_unit (Example.with_schema Example.scored)
               !! FieldProps.key Example.ShopTypes.item = Some "shop").
  { vm_compute; reflexivity. }
  split; [apply (bool_decide_unpack _); vm_compute; exact I|].
  exact (table_schemas_ignores_existing_tables Example.ShopTypes.item "shop" None
           (Example.with_schema Example.scored) Hu).
Defined.

(** X15.  [convert_value_to_db] followed by [convert_value_from_db].  On a
    [BOOL] field every value comes back as a boolean, [True] exactly when
    the value equals [True].  On any other field a value that is no
    entity comes back unchanged, and an entity on an [ENTITY] field comes
    back as its global id, not as the entity. *)
Theorem convert_value_round_trip field a :
  SqlPersist.convert_value_from_db field (VAtom (SqlPersist.convert_value_to_db field a))
  = match MetaProps.datatype field, a with
    | Datatypes.BOOL, _ => VAtom (AInt (if bool_decide (a = AInt 1) then 1 else 0))
    | Datatypes.ENTITY, AEntity e => VAtom (AGid (Entity.global_id e))
    | _, _ => VAtom a
    end.
Proof.
  unfold SqlPersist.convert_value_from_db, SqlPersist.convert_value_to_db.
  destruct (MetaProps.datatype field); try done.
  - by destruct (bool_decide (a = AInt 1)).
  - by destruct a.
Qed.

(** X16.  [persist_entities] closes the connection it opened whatever
    happens to the entities: the last event of the pass is the closing of
    that connection, also when an insertion or an update raised. *)
Theorem persist_entities_closes_connection entities p :
  last (trace (SqlPersist.persist_entities entities p).2)
  = Some (CloseConnection (next_conn p)).
Proof.
  unfold SqlPersist.persist_entities.
  erewrite bind_ok; [|reflexivity]. unfold try_finally.
  destruct (for_each _ _ _) as [r s1]. cbn. by rewrite last_snoc.
Qed.

(** ** Insertion *)

Lemma fresh_without_rows entity rows k :
  without_rows_of entity rows → fresh_from (Entity.global_id entity) k rows.
Proof.
  intros Hall r j Hin _ Heq. eapply Forall_forall in Hall; [|exact Hin].
  apply Hall. by destruct r as [|a [|b r]]; simplify_eq/=.
Qed.

Section Append.
Context (entity : Entity.t) (name : string) (reads : MetaProps.t → Value).

Lemma insert_entity_multivalues_spec primary multivalues conn mfs :
  NoDup (MetaProps.name <$> mfs) →
  ∀ p,
    (∀ f, f ∈ mfs →
       ∃ rows, database p !! table_name (SqlPersist.multivalue_table name f) = Some rows
               ∧ without_rows_of entity rows) →
    (∀ f, f ∈ mfs →
       dict_get (table_name (SqlPersist.multivalue_table name f)) multivalues
       = Some (MetaProps.name f, reads f)) →
    (∀ f, f ∈ mfs → reads f = VNone ∨ ∃ l, reads f = VList l) →
    SqlPersist.__update_entity_multivalues entity
      (primary :: (SqlPersist.multivalue_table name <$> mfs)) multivalues conn false p
    = (Ok true,
       executed conn
         (mfs ≫= λ f, insertions (Entity.global_id entity) (SqlPersist.multivalue_table name f)
                        (MetaProps.name f) 0 (items (reads f)))
         (foldl (append_rows entity name reads) (database p) mfs) p).
Proof.
  induction mfs as [|f mfs IH]; intros Hnd p Hdb Hmv Hrd.
  - cbn. by rewrite executed_nil.
  - rewrite fmap_cons in Hnd. apply NoDup_cons in Hnd as [Hf Hnd].
    unfold SqlPersist.__update_entity_multivalues.
    cbn [tail fmap list_fmap foldM].
    destruct (Hdb f) as (rows & Hrows & Hfresh); [by left|].
    set (body := λ (return_value : bool) (sql_table : SqlTable), _).
    assert (Hstep : body true (SqlPersist.multivalue_table name f) p
                    = (Ok true,
                       executed conn
                         (insertions (Entity.global_id entity)
                            (SqlPersist.multivalue_table name f) (MetaProps.name f) 0
                            (items (reads f)))
                         (append_rows entity name reads (database p) f) p)).
    { unfold body, append_rows, appended_rows, rows_in.
      rewrite Hrows. cbn [default].
      erewrite bind_ok; [|reflexivity].
      cbv beta iota. rewrite (Hmv f) by (by left). unfold getitem.
      erewrite bind_ok; [|reflexivity]. cbn [fst snd].
      destruct (Hrd f) as [->|[[|v l] ->]]; [by left|..].
      - cbn. by rewrite app_nil_r, insert_id, executed_nil.
      - cbn. by rewrite app_nil_r, insert_id, executed_nil.
      - cbn [truthy items].
        by rewrite (insert_multivalues_spec name f _ conn (v :: l) 0 rows);
          [|done|apply fresh_without_rows]. }
    erewrite bind_ok; [|exact Hstep].
    change (foldM body true (SqlPersist.multivalue_table name <$> mfs))
      with (SqlPersist.__update_entity_multivalues entity
              (primary :: (SqlPersist.multivalue_table name <$> mfs)) multivalues conn false).
    rewrite IH; [|done|..].
    + rewrite executed_executed. reflexivity.
    + intros f' Hf'. cbn [database executed]. unfold append_rows.
      destruct (Hdb f') as (rows' & Hrows' & Hfresh'); [by right|].
      exists rows'. split; [|done]. rewrite lookup_insert_ne; [done|].
      intros Heq. apply Hf. apply (multivalue_table_name_inj name) in Heq.
      rewrite Heq. by apply list_elem_of_fmap_2.
    + intros f' Hf'. apply Hmv. by right.
    + intros f' Hf'. apply Hrd. by right.
Qed.

Lemma append_rows_other db mfs t :
  (∀ f, f ∈ mfs → table_name (SqlPersist.multivalue_table name f) ≠ t) →
  foldl (append_rows entity name reads) db mfs !! t = db !! t.
Proof.
  revert db. induction mfs as [|f mfs IH]; intros db Hne; [done|].
  cbn [foldl]. rewrite IH by (intros f' Hf'; apply Hne; by right).
  unfold append_rows. apply lookup_insert_ne. apply Hne. by left.
Qed.

Lemma append_rows_lookup db mfs f :
  NoDup (MetaProps.name <$> mfs) →
  f ∈ mfs →
  foldl (append_rows entity name reads) db mfs
    !! table_name (SqlPersist.multivalue_table name f)
  = Some (appended_rows entity reads
            (rows_in db (table_name (SqlPersist.multivalue_table name f))) f).
Proof.
  revert db. induction mfs as [|f0 mfs IH]; intros db Hnd Hin.
  - by apply elem_of_nil in Hin.
  - rewrite fmap_cons in Hnd. apply NoDup_cons in Hnd as [Hf0 Hnd].
    cbn [foldl]. apply elem_of_cons in Hin as [->|Hin].
    + rewrite append_rows_other.
      * unfold append_rows. apply lookup_insert_eq.
      * intros f' Hf' Heq. apply Hf0. apply multivalue_table_name_inj in Heq.
        rewrite <- Heq. by apply list_elem_of_fmap_2.
    + rewrite IH by done. f_equal. f_equal. unfold rows_in, append_rows.
      rewrite lookup_insert_ne; [done|].
      intros Heq. apply Hf0. apply multivalue_table_name_inj in Heq.
      rewrite Heq. by apply list_elem_of_fmap_2.
Qed.
End Append.

Lemma gathered_other name reads fs a k :
  (∀ f, f ∈ fs → k ≠ "_" ++ MetaProps.name f) →
  dict_get k (foldl (gather_step name reads) a fs).1 = dict_get k a.1.
Proof.
  revert a. induction fs as [|f fs IH]; intros a Hk; [done|].
  cbn [foldl]. rewrite IH by (intros f' Hf'; apply Hk; by right).
  unfold gather_step. destruct (negb _); cbn [fst]; [|done].
  apply dict_get_set_ne. intros Heq. by apply (Hk f); [left|].
Qed.

(** Only the first column of a primary table is a key column. *)
Lemma key_of_primary name sfs primary (r : list Value) :
  fields primary
  = (fields (SqlPersist.primary_table name) ++ (single_column <$> sfs))%list →
  key_of primary r = take 1 r.
Proof.
  intros Hf. unfold key_of. rewrite Hf.
  assert (H : ∀ (cols : list SqlField) (r : list Value),
             Forall (λ c, primary_key c = false) cols →
             omap (λ p : SqlField * Value, if primary_key p.1 then Some p.2 else None)
                  (zip cols r) = []).
  { induction cols as [|c cols IH]; intros r0 Hall; [done|].
    destruct r0 as [|b r0]; [done|]. apply Forall_cons in Hall as [Hc Hall].
    cbn. rewrite Hc. by apply IH. }
  destruct r as [|a r]; [done|].
  change (fields (SqlPersist.primary_table name))
    with (mkSqlField "_global_id" "VARCHAR(100)" true true
            :: [mkSqlField "_unit" "TEXT" false true;
                mkSqlField "_meta_type" "TEXT" false true;
                mkSqlField "_entity_id" "INT" false true]).
  rewrite <- app_comm_cons.
  remember ([mkSqlField "_unit" "TEXT" false true;
             mkSqlField "_meta_type" "TEXT" false true;
             mkSqlField "_entity_id" "INT" false true]
              ++ (single_column <$> sfs))%list as cols eqn:Hcols.
  cbn. rewrite H; [done|]. subst cols. apply Forall_app. split.
  - repeat (apply Forall_cons_2; [reflexivity|]). apply Forall_nil_2.
  - apply Forall_fmap, Forall_forall. done.
Qed.

Lemma bind_row_primary name fs primary reads values :
  fields primary
  = (fields (SqlPersist.primary_table name) ++ (single_column <$> single_fields fs))%list →
  Forall (λ k, dict_mem k values = true) ["_global_id"; "_unit"; "_meta_type"; "_entity_id"] →
  (∀ f, f ∈ fs → "_global_id" ≠ "_" ++ MetaProps.name f) →
  ∃ row,
    bind_row primary (foldl (gather_step name reads) (values, []) fs).1 = Some row
    ∧ head row = dict_get "_global_id" values
    ∧ length row = (4 + length (single_fields fs))%nat.
Proof.
  intros Hf Hbase Hgid. unfold bind_row. rewrite Hf.
  set (g := (foldl (gather_step name reads) (values, []) fs).1).
  assert (Hall : Forall (λ c, is_Some (dict_get (field_name c) g))
                   (fields (SqlPersist.primary_table name)
                      ++ (single_column <$> single_fields fs))).
  { apply Forall_app. split.
    - change (fields (SqlPersist.primary_table name))
        with (mkSqlField "_global_id" "VARCHAR(100)" true true
                :: [mkSqlField "_unit" "TEXT" false true;
                    mkSqlField "_meta_type" "TEXT" false true;
                    mkSqlField "_entity_id" "INT" false true]).
      apply Forall_forall. intros c Hc.
      assert (Hm : dict_mem (field_name c) values = true).
      { eapply Forall_forall in Hbase; [exact Hbase|].
        set_unfold in Hc. set_unfold. destruct Hc as [->|[->|[->|[->|[]]]]]; cbn; tauto. }
      pose proof (gathered_bound_mono name reads fs (values, []) (field_name c) Hm) as H.
      fold g in H. unfold dict_mem in H. destruct (dict_get _ g); [by eexists|done].
    - apply Forall_fmap, Forall_forall. intros f Hin.
      apply list_elem_of_filter in Hin as [Hs Hin].
      pose proof (gathered_single_bound name reads fs (values, []) f Hin Hs) as H.
      fold g in H. unfold dict_mem in H. cbn.
      destruct (dict_get _ g); [by eexists|done]. }
  apply mapM_is_Some in Hall as [row Hrow]. exists row. split; [exact Hrow|].
  split.
  - change (fields (SqlPersist.primary_table name))
      with (mkSqlField "_global_id" "VARCHAR(100)" true true
              :: [mkSqlField "_unit" "TEXT" false true;
                  mkSqlField "_meta_type" "TEXT" false true;
                  mkSqlField "_entity_id" "INT" false true]) in Hrow.
    cbn [app] in Hrow. rewrite mapM_Some in Hrow. apply Forall2_cons_inv_l in Hrow
      as (x & row' & Hx & _ & ->).
    cbn in Hx |- *. rewrite <- Hx. unfold g. by apply gathered_other.
  - rewrite mapM_Some in Hrow. apply Forall2_length in Hrow.
    rewrite <- Hrow, length_app, length_fmap. reflexivity.
Qed.

Lemma identity_values_ok entity hu hm q :
  enum_units (world q) !! Entity.unit entity = Some hu →
  enum_types (world q) !! FieldProps.key (Entity.meta_type entity) = Some hm →
  SqlPersist.identity_values entity q
  = (Ok [ ("_global_id", VAtom (AGid (Entity.global_id entity)));
          ("_unit", VAtom (AGid (Entity.global_id hu)));
          ("_meta_type", VAtom (AGid (Entity.global_id hm)));
          ("_entity_id", VAtom (AInt (Entity.entity_id entity))) ], q).
Proof.
  intros Hu Hm. unfold SqlPersist.identity_values.
  erewrite bind_ok; [|reflexivity]. cbv beta. rewrite Hu.
  erewrite bind_ok; [|reflexivity]. rewrite Hm.
  erewrite bind_ok; [|reflexivity]. reflexivity.
Qed.

(** The statements of [insert_entity] between opening and closing the
    connection. *)
Lemma insert_statements_spec entity sl name fs c q values prows primary :
  stored (world q) entity sl →
  Forall (λ f, is_ok (read_for_db (world q) entity f) = true) fs →
  NoDup (MetaProps.name <$> fs) →
  Forall (λ f, MetaProps.name f ≠ "global_id") fs →
  Forall (λ k, dict_mem k values = true) ["_global_id"; "_unit"; "_meta_type"; "_entity_id"] →
  dict_get "_global_id" values = Some (VAtom (AGid (Entity.global_id entity))) →
  SqlPersist.__sql_tables name fs
  = primary :: (SqlPersist.multivalue_table name <$> multivalued_fields fs) →
  table_name primary = name →
  fields primary
  = (fields (SqlPersist.primary_table name) ++ (single_column <$> single_fields fs))%list →
  database q !! name = Some prows →
  without_rows_of entity prows →
  Forall (λ f, ∃ rows, database q !! table_name (SqlPersist.multivalue_table name f)
                       = Some rows ∧ without_rows_of entity rows)
         (multivalued_fields fs) →
  let g := foldl (gather_step name (reading (world q) entity)) (values, []) fs in
  ∃ row,
    head row = Some (VAtom (AGid (Entity.global_id entity)))
    ∧ length row = (4 + length (single_fields fs))%nat
    ∧ (return_value <- SqlPersist.__update_entity_values (InsertInto primary g.1) c ;;
       if return_value
       then SqlPersist.__update_entity_multivalues entity (SqlPersist.__sql_tables name fs)
              g.2 c false
       else ret return_value) q
      = (Ok true,
         executed c
           (InsertInto primary g.1
              :: (multivalued_fields fs
                    ≫= λ f, insertions (Entity.global_id entity)
                              (SqlPersist.multivalue_table name f) (MetaProps.name f) 0
                              (items (reading (world q) entity f))))
           (foldl (append_rows entity name (reading (world q) entity))
                  (<[name := (prows ++ [row])%list]> (database q)) (multivalued_fields fs)) q).
Proof.
  intros Hst Hread Hnd Hnogid Hbase Hgid Htabs Hname Hfields Hrows Hnone Haux g.
  destruct (bind_row_primary name fs primary (reading (world q) entity) values)
    as (row & Hrow & Hhead & Hlen); [done|done| |].
  { intros f Hf Heq. eapply Forall_forall in Hnogid; [|exact Hf].
    apply Hnogid. by injection Heq. }
  fold g in Hrow. rewrite Hgid in Hhead.
  exists row. split; [done|]. split; [done|].
  erewrite bind_ok; cycle 1.
  { eapply update_entity_values_ok. cbn [run]. rewrite Hname, Hrows, Hrow.
    rewrite bool_decide_eq_false_2; [reflexivity|].
    intros Hin. apply list_elem_of_fmap in Hin as (r & Hr & Hin).
    rewrite !(key_of_primary name (single_fields fs)) in Hr by done.
    eapply Forall_forall in Hnone; [|exact Hin]. apply Hnone.
    destruct row as [|x row]; [done|]. destruct r as [|y r]; [done|].
    cbn in Hr, Hhead |- *. by simplify_eq. }
  cbv beta iota. rewrite Htabs.
  rewrite (insert_entity_multivalues_spec entity name (reading (world q) entity)).
  - by rewrite executed_executed.
  - by apply NoDup_fmap_filter.
  - intros f Hf. cbn [database executed].
    eapply Forall_forall in Haux; [|exact Hf]. destruct Haux as (rows & Hr & Hw).
    exists rows. split; [|done]. rewrite lookup_insert_ne; [done|].
    intros Heq. by apply (aux_table_not_primary name f).
  - intros f Hf. apply list_elem_of_filter in Hf as [Hm Hf].
    by apply gathered_multivalue.
  - intros f Hf. apply list_elem_of_filter in Hf as [Hm Hf].
    eapply Forall_forall in Hread; [|exact Hf].
    unfold reading. destruct (read_for_db (world q) entity f) as [v|] eqn:Hr; [|done].
    by eapply read_for_db_multivalued.
Qed.

(** X17.  [insert_entity] on an entity of a registered type that has no
    row yet, tables existing and no field named [global_id]: one row is
    added to the primary table, starting with the entity's global id and
    with one cell per column; then, for every [SET] or [LIST] field in
    field order, one row per element that is read is added to the field's
    table, numbered from zero.  Nothing is deleted.  The call then ends
    in [entity.set_committed()], which class [Entity] does not define: it
    raises [AttributeError] after the statements have run. *)
Theorem insert_entity_writes_rows entity sl unit_name hu hm conn p prows :
  let meta_type := Entity.meta_type entity in
  let fs := FieldProps.fields_enum meta_type in
  let name := unit_name ++ "_" ++ FieldProps.type_name meta_type in
  let reads := reading (world p) entity in
  let out := SqlPersist.insert_entity entity conn p in
  persisted p meta_type = true →
  __unit_meta_unit p !! FieldProps.key meta_type = Some unit_name →
  enum_units (world p) !! Entity.unit entity = Some hu →
  enum_types (world p) !! FieldProps.key meta_type = Some hm →
  stored (world p) entity sl →
  Forall (λ f, is_ok (read_for_db (world p) entity f) = true) fs →
  NoDup (MetaProps.name <$> fs) →
  Forall (λ f, MetaProps.name f ≠ "global_id") fs →
  database p !! name = Some prows →
  without_rows_of entity prows →
  Forall (λ f, ∃ rows, database p !! table_name (SqlPersist.multivalue_table name f)
                       = Some rows ∧ without_rows_of entity rows)
         (multivalued_fields fs) →
  out.1 = Raise AttributeError
  ∧ world out.2 = world p
  ∧ (∃ row, database out.2 !! name = Some (prows ++ [row])%list
            ∧ head row = Some (VAtom (AGid (Entity.global_id entity)))
            ∧ length row = (4 + length (single_fields fs))%nat)
  ∧ (∃ primary values,
       table_name primary = name
       ∧ statements_of (trace out.2)
         = (statements_of (trace p)
              ++ InsertInto primary values
                   :: (multivalued_fields fs
                         ≫= λ f, insertions (Entity.global_id entity)
                                   (SqlPersist.multivalue_table name f) (MetaProps.name f) 0
                                   (items (reads f))))%list)
  ∧ ∀ f, f ∈ fs → ValueTypes.multivalued (MetaProps.valuetype f) = true →
      database out.2 !! table_name (SqlPersist.multivalue_table name f)
      = Some (appended_rows entity reads
                (rows_in (database p) (table_name (SqlPersist.multivalue_table name f))) f).
Proof.
  intros meta_type fs name reads out Hpers Hunit Hhu Hhm Hst Hread Hnd Hnogid Hrows
    Hnone Haux.
  destruct (sql_tables_spec name fs) as (primary & Htabs & Hname & Hfields).
  set (values := [ ("_global_id", VAtom (AGid (Entity.global_id entity)));
                   ("_unit", VAtom (AGid (Entity.global_id hu)));
                   ("_meta_type", VAtom (AGid (Entity.global_id hm)));
                   ("_entity_id", VAtom (AInt (Entity.entity_id entity))) ]).
  set (g := foldl (gather_step name reads) (values, []) fs).
  set (sts := InsertInto primary g.1
                :: (multivalued_fields fs
                      ≫= λ f, insertions (Entity.global_id entity)
                                (SqlPersist.multivalue_table name f) (MetaProps.name f) 0
                                (items (reads f)))).
  assert (Hcore : ∀ c q,
    world q = world p → database q = database p →
    __persisted_types q = __persisted_types p → __unit_meta_unit q = __unit_meta_unit p →
    ∃ row,
      head row = Some (VAtom (AGid (Entity.global_id entity)))
      ∧ length row = (4 + length (single_fields fs))%nat
      ∧ (p0 <- get ;;
         return_value <-
           (if persisted p0 meta_type then
              name <- SqlPersist.__table_name meta_type ;;
              let sql_tables := SqlPersist.__sql_tables name (FieldProps.fields_enum meta_type) in
              primary <- SqlPersist.first_table sql_tables ;;
              values <- SqlPersist.identity_values entity ;;
              g <- SqlPersist.gather_values entity name (FieldProps.fields_enum meta_type)
                     values ;;
              try_finally
                (return_value <- SqlPersist.__update_entity_values (InsertInto primary g.1) c ;;
                 if return_value
                 then SqlPersist.__update_entity_multivalues entity sql_tables g.2 c false
                 else ret return_value)
                (SqlPersist.close_if_owned conn c)
            else ret false) ;;
         (if return_value then SqlPersist.set_committed entity else ret tt) ;;;
         ret return_value) q
        = (Raise AttributeError,
           (SqlPersist.close_if_owned conn c
              (executed c sts
                 (foldl (append_rows entity name reads)
                        (<[name := (prows ++ [row])%list]> (database p))
                        (multivalued_fields fs)) q)).2)).
  { intros c q Hw Hdb Hpt Hum.
    destruct (insert_statements_spec entity sl name fs c q values prows primary)
      as (row & Hhead & Hlen & Hrun); rewrite ?Hw, ?Hdb; try done.
    { repeat (apply Forall_cons_2; [reflexivity|]). apply Forall_nil_2. }
    exists row. split; [done|]. split; [done|].
    assert (Htn : SqlPersist.__table_name meta_type q = (Ok name, q)).
    { unfold SqlPersist.__table_name, bind, get, getitem. cbn. by rewrite Hum, Hunit. }
    erewrite bind_ok; [|reflexivity]. cbv beta iota.
    unfold persisted. rewrite Hpt. fold (persisted p meta_type). rewrite Hpers.
    erewrite bind_ok; cycle 1.
    { erewrite bind_ok; [|exact Htn]. cbv beta iota zeta.
      change (FieldProps.fields_enum meta_type) with fs.
      rewrite Htabs at 1. erewrite bind_ok; [|reflexivity].
      erewrite bind_ok; [|apply (identity_values_ok entity hu hm); by rewrite Hw].
      fold values. unfold SqlPersist.gather_values.
      erewrite bind_ok; [|by eapply gather_values_stored; rewrite ?Hw].
      rewrite Hw. fold reads. fold g.
      eapply try_finally_ok_close. rewrite Hw, Hdb in Hrun. exact Hrun. }
    reflexivity. }
  assert (Hout : ∃ c q row,
    world q = world p ∧ statements_of (trace q) = statements_of (trace p)
    ∧ head row = Some (VAtom (AGid (Entity.global_id entity)))
    ∧ length row = (4 + length (single_fields fs))%nat
    ∧ out = (Raise AttributeError,
             (SqlPersist.close_if_owned conn c
                (executed c sts
                   (foldl (append_rows entity name reads)
                          (<[name := (prows ++ [row])%list]> (database p))
                          (multivalued_fields fs)) q)).2)).
  { unfold out, SqlPersist.insert_entity.
    destruct conn as [c|]; cbn [SqlPersist.connection_or_new].
    - destruct (Hcore c p) as (row & Hhead & Hlen & Hrun); try done.
      exists c, p, row. split_and!; try done.
    - destruct (Hcore (next_conn p) (SqlPersist._create_connection p).2)
        as (row & Hhead & Hlen & Hrun); try done.
      exists (next_conn p), (SqlPersist._create_connection p).2, row.
      split_and!;
        first [ done
              | cbn; by rewrite statements_of_app, app_nil_r
              | erewrite bind_ok; [exact Hrun|reflexivity] ]. }
  destruct Hout as (c & q & row & Hw & Htr & Hhead & Hlen & ->).
  assert (Hclose : ∀ s, world (SqlPersist.close_if_owned conn c s).2 = world s
                      ∧ database (SqlPersist.close_if_owned conn c s).2 = database s
                      ∧ statements_of (trace (SqlPersist.close_if_owned conn c s).2)
                        = statements_of (trace s)).
  { intros s. destruct conn; cbn; [done|]. by rewrite statements_of_app, app_nil_r. }
  cbn [fst snd].
  destruct (Hclose (executed c sts
                      (foldl (append_rows entity name reads)
                             (<[name := (prows ++ [row])%list]> (database p))
                             (multivalued_fields fs)) q))
    as (-> & -> & ->).
  cbn [world database trace executed]. split_and!; try done.
  - exists row. split; [|done].
    rewrite append_rows_other; [apply lookup_insert_eq|].
    intros f _. apply aux_table_not_primary.
  - exists primary, g.1. split; [done|].
    by rewrite statements_of_app, statements_of_cursor_events, Htr.
  - intros f Hf Hm.
    assert (Hin : f ∈ multivalued_fields fs) by (by apply list_elem_of_filter).
    rewrite (append_rows_lookup entity name reads); [|by apply NoDup_fmap_filter|done].
    unfold rows_in. rewrite lookup_insert_ne; [done|].
    intros Heq. by apply (aux_table_not_primary name f).
Qed.

Lemma insert_entity_writes_rows_witness :
  let out := SqlPersist.insert_entity (Example.item 1) None
               (Example.with_schema Example.scored_123) in
  let scores_table :=
    table_name (SqlPersist.multivalue_table "shop_item" Example.ItemMeta.scores) in
  out.1 = Raise AttributeError
  ∧ database out.2 !! scores_table
    = Some (appended_rows (Example.item 1)
              (reading (world (Example.with_schema Example.scored_123)) (Example.item 1))
              (rows_in (database (Example.with_schema Example.scored_123)) scores_table)
              Example.ItemMeta.scores)
  ∧ Example.rows out.2 "shop_item_scores"
    = [ [VAtom (AGid ("shop", 1, "item")); VAtom (AInt 0); VAtom (AInt 1)];
        [VAtom (AGid ("shop", 1, "item")); VAtom (AInt 1); VAtom (AInt 2)];
        [VAtom (AGid ("shop", 1, "item")); VAtom (AInt 2); VAtom (AInt 3)] ]
  ∧ length (Example.rows out.2 "shop_item") = 1%nat.
Proof.
  assert (Hst : stored (world (Example.with_schema Example.scored_123)) (Example.item 1)
                  (Example.slot (world (Example.with_schema Example.scored_123))
                     (Example.item 1))).
  { apply stored_slot; vm_compute; reflexivity. }
  assert (H1 : persisted (Example.with_schema Example.scored_123) Example.ShopTypes.item
               = true).
  { vm_compute; reflexivity. }
  assert (H2 : __unit_meta_unit (Example.with_schema Example.scored_123)
               !! FieldProps.key Example.ShopTypes.item = Some "shop").
  { vm_compute; reflexivity. }
  assert (Hhu : enum_units (world (Example.with_schema Example.scored_123))
                !! Entity.unit (Example.item 1)
                = Some (Entity.Obj UNIT_ENTITY 3 EntityTypes.unit)).
  { vm_compute; reflexivity. }
  assert (Hhm : enum_types (world (Example.with_schema Example.scored_123))
                !! FieldProps.key Example.ShopTypes.item
                = Some (Entity.Obj "shop_meta" 1 EntityTypes.type_meta)).
  { vm_compute; reflexivity. }
  assert (H4 : Forall (λ f, is_ok (read_for_db (world (Example.with_schema
                                                        Example.scored_123))
                                     (Example.item 1) f) = true)
                 Example.ItemMeta.members).
  { apply (bool_decide_unpack _); vm_compute; exact I. }
  assert (H5 : NoDup (MetaProps.name <$> Example.ItemMeta.members)).
  { apply (bool_decide_unpack _); vm_compute; exact I. }
  assert (H6 : Forall (λ f, MetaProps.name f ≠ "global_id") Example.ItemMeta.members).
  { apply (bool_decide_unpack _); vm_compute; exact I. }
  assert (H7 : database (Example.with_schema Example.scored_123) !! "shop_item" = Some []).
  { vm_compute; reflexivity. }
  assert (H8 : without_rows_of (Example.item 1) []).
  { apply Forall_nil_2. }
  assert (H9 : Forall (λ f, ∃ rows,
                         database (Example.with_schema Example.scored_123)
                           !! table_name (SqlPersist.multivalue_table "shop_item" f)
                         = Some rows ∧ without_rows_of (Example.item 1) rows)
                 (multivalued_fields Example.ItemMeta.members)).
  { change (multivalued_fields Example.ItemMeta.members)
      with [Example.ItemMeta.tags; Example.ItemMeta.scores; Example.ItemMeta.friends].
    repeat (apply Forall_cons_2;
            [exists []; split; [vm_compute; reflexivity|apply Forall_nil_2]|]).
    apply Forall_nil_2. }
  assert (Hin : Example.ItemMeta.scores ∈ Example.ItemMeta.members).
  { apply (bool_decide_unpack _); vm_compute; exact I. }
  pose proof (insert_entity_writes_rows (Example.item 1)
                (Example.slot (world (Example.with_schema Example.scored_123))
                   (Example.item 1))
                "shop" (Entity.Obj UNIT_ENTITY 3 EntityTypes.unit)
                (Entity.Obj "shop_meta" 1 EntityTypes.type_meta) None
                (Example.with_schema Example.scored_123) []
                H1 H2 Hhu Hhm Hst H4 H5 H6 H7 H8 H9) as (Hres & _ & _ & _ & Hrows).
  split_and!.
  - exact Hres.
  - exact (Hrows Example.ItemMeta.scores Hin eq_refl).
  - vm_compute; reflexivity.
  - vm_compute; reflexivity.
Defined.

(** ** The flat JSON form *)

Lemma get_field_config_spec g w :
  EntityOps._get_field_config g w
  = (match config_of w g with Some cfg => Ok cfg | None => Raise KeyError end, w).
Proof.
  unfold EntityOps._get_field_config, config_of. destruct g as [[u t] f].
  erewrite bind_ok; [|reflexivity]. cbv beta iota.
  destruct (bool_decide _); by destruct (enum_configs w !! _).
Qed.

Lemma dict_set_fresh {K V} `{EqDecision K} (k : K) (v : V) d :
  k ∉ d.*1 → dict_set k v d = (d ++ [(k, v)])%list.
Proof.
  induction d as [|[k' v'] d IH]; intros Hk; [done|].
  cbn. rewrite fmap_cons, not_elem_of_cons in Hk. destruct Hk as [Hne Hk].
  rewrite decide_False by done. by rewrite IH.
Qed.

(** X18.  [to_json] returns one entry per item of the entity's
    dictionary, in the dictionary's order and under the same qualified
    names, base fields and the committed flag included: a set held by a
    [SET] or [LIST] field becomes the list of its elements, every other
    value is passed as it is.  The store is not changed. *)
Theorem to_json_lists_stored_fields w e sl :
  stored w e sl →
  NoDup (e_map sl).*1 →
  Forall (λ item, is_Some (config_of w item.1)) (e_map sl) →
  EntityOps.to_json e w = (Ok (json_entry w <$> e_map sl), w).
Proof.
  intros Hst Hnd Hcfg. unfold EntityOps.to_json.
  erewrite bind_ok; [|by apply slot_of_stored].
  set (body := λ (json_map : list (FieldName * Value)) (item : FieldName * Value), _).
  assert (H : ∀ its acc,
             NoDup (acc.*1 ++ its.*1) →
             Forall (λ item, is_Some (config_of w item.1)) its →
             foldM body acc its w = (Ok (acc ++ (json_entry w <$> its))%list, w)).
  { induction its as [|item its IH]; intros acc Hn Hc.
    - cbn. by rewrite app_nil_r.
    - apply Forall_cons in Hc as [[cfg Hc1] Hc]. cbn [foldM].
      assert (Hfresh : item.1 ∉ acc.*1).
      { rewrite fmap_cons in Hn. apply NoDup_app in Hn as (_ & Hn & _).
        intros Hin. apply (Hn _ Hin). by left. }
      assert (Hstep : body acc item w = (Ok (acc ++ [json_entry w item])%list, w)).
      { unfold body, bind. rewrite get_field_config_spec, Hc1.
        unfold json_entry. rewrite Hc1.
        destruct (ValueTypes.multivalued (cfg_valuetype cfg)), item.2 as [a|l|s|d];
          unfold ret; by rewrite dict_set_fresh. }
      erewrite bind_ok; [|exact Hstep]. rewrite IH; [|..|done].
      + by rewrite <- app_assoc.
      + rewrite fmap_app, <- app_assoc. exact Hn. }
  rewrite H; [done| |done]. by rewrite app_nil_l.
Qed.

Lemma to_json_lists_stored_fields_witness :
  (EntityOps.to_json (Example.item 1) Example.tagged).1
  = Ok [ ("entity_meta", "_entity_base", "unit", VAtom (AGid ("entity", 3, "unit")));
         ("entity_meta", "_entity_base", "entity_id", VAtom (AInt 1));
         ("entity_meta", "_entity_base", "meta_type",
          VAtom (AGid ("shop_meta", 1, "type_meta")));
         ("entity_meta", "_entity_base", "committed", VAtom (AInt 0));
         ("shop_meta", "item", "tags", VList [AStr "new"]) ]
  ∧ EntityOps.to_json (Example.item 1) Example.tagged
    = (Ok (json_entry Example.tagged
             <$> e_map (Example.slot Example.tagged (Example.item 1))),
       Example.tagged).
Proof.
  assert (Hst : stored Example.tagged (Example.item 1)
                  (Example.slot Example.tagged (Example.item 1))).
  { apply stored_slot; vm_compute; reflexivity. }
  assert (Hnd : NoDup (e_map (Example.slot Example.tagged (Example.item 1))).*1).
  { apply (bool_decide_unpack _); vm_compute; exact I. }
  assert (Hcfg : Forall (λ item, is_Some (config_of Example.tagged item.1))
                   (e_map (Example.slot Example.tagged (Example.item 1)))).
  { apply (bool_decide_unpack _); vm_compute; exact I. }
  split; [vm_compute; reflexivity|].
  exact (to_json_lists_stored_fields Example.tagged (Example.item 1)
           (Example.slot Example.tagged (Example.item 1)) Hst Hnd Hcfg).
Defined.

(** ** Loading from empty tables *)

Lemma select_body_ok {A} t conn p rows (k : list Row → M Persist A) (a : A) :
  database p !! table_name t = Some rows →
  k rows (emit (Execute conn (SelectFrom t)) (emit (OpenCursor conn) p))
  = (Ok a, emit (Execute conn (SelectFrom t)) (emit (OpenCursor conn) p)) →
  try_finally (rows <- SqlPersist.execute conn (SelectFrom t) ;; k rows)
              (SqlPersist._close_cursor conn) (emit (OpenCursor conn) p)
  = (Ok a, executed conn [SelectFrom t] (database p) p).
Proof.
  intros Hdb Hk.
  unfold SqlPersist._close_cursor, SqlPersist.execute, try_finally, bind, modify, ret in *.
  cbn in *. rewrite Hdb.
  replace (with_database (λ _, database p) (emit (OpenCursor conn) p))
    with (emit (OpenCursor conn) p) by (by destruct p).
  rewrite Hk. unfold executed, emit. cbn. by rewrite <- !app_assoc.
Qed.

Lemma select_ok {A} t conn p rows (k : list Row → M Persist A) (a : A) :
  database p !! table_name t = Some rows →
  k rows (emit (Execute conn (SelectFrom t)) (emit (OpenCursor conn) p))
  = (Ok a, emit (Execute conn (SelectFrom t)) (emit (OpenCursor conn) p)) →
  (cur <- SqlPersist._create_cursor conn ;;
   try_finally (rows <- SqlPersist.execute cur (SelectFrom t) ;; k rows)
               (SqlPersist._close_cursor cur)) p
  = (Ok a, executed conn [SelectFrom t] (database p) p).
Proof.
  intros Hdb Hk. erewrite bind_ok; [|reflexivity]. by eapply select_body_ok.
Qed.

Lemma load_multivalue_rows_unknown field rows q :
  Forall (λ r : list Value, r ≠ []) rows →
  for_each rows (SqlPersist.load_multivalue_row field []) q = (Ok tt, q).
Proof.
  induction 1 as [|r rows Hr _ IH]; [done|].
  cbn [for_each]. erewrite bind_ok; [exact IH|].
  unfold SqlPersist.load_multivalue_row. destruct r as [|x r]; [done|].
  erewrite bind_ok; [|reflexivity]. reflexivity.
Qed.

Lemma NoDup_fmap_inj_on {A B} (g : A → B) l x y :
  NoDup (g <$> l) → x ∈ l → y ∈ l → g x = g y → x = y.
Proof.
  induction l as [|a l IH]; intros Hnd Hx Hy Hg; [by apply elem_of_nil in Hx|].
  rewrite fmap_cons in Hnd. apply NoDup_cons in Hnd as [Ha Hnd].
  apply elem_of_cons in Hx as [->|Hx]; apply elem_of_cons in Hy as [->|Hy]; try done.
  - exfalso. apply Ha. rewrite Hg. by apply list_elem_of_fmap_2.
  - exfalso. apply Ha. rewrite <- Hg. by apply list_elem_of_fmap_2.
  - by apply IH.
Qed.

Lemma find_multivalue_table name primary mfs f :
  table_name primary = name →
  NoDup (MetaProps.name <$> mfs) →
  f ∈ mfs →
  ∃ i, list_find (λ stbl, table_name stbl = table_name primary ++ "_" ++ MetaProps.name f)
                 (primary :: (SqlPersist.multivalue_table name <$> mfs))
       = Some (i, SqlPersist.multivalue_table name f).
Proof.
  intros Hname Hnd Hf.
  destruct (list_find_elem_of
              (λ stbl, table_name stbl = table_name primary ++ "_" ++ MetaProps.name f)
              (primary :: (SqlPersist.multivalue_table name <$> mfs))
              (SqlPersist.multivalue_table name f)) as [[i t] Hfind].
  { right. by apply list_elem_of_fmap_2. }
  { by rewrite Hname. }
  exists i. rewrite Hfind. do 2 f_equal.
  apply list_find_Some in Hfind as (Hi & Ht & _).
  apply list_elem_of_lookup_2, elem_of_cons in Hi as [->|Hi].
  { exfalso. rewrite Hname in Ht. symmetry in Ht. revert Ht.
    by apply string_app_not_self. }
  apply list_elem_of_fmap in Hi as (f' & -> & Hf').
  rewrite Hname in Ht. cbn in Ht. apply string_app_inj, string_app_inj in Ht.
  f_equal. by apply (NoDup_fmap_inj_on MetaProps.name mfs).
Qed.

(** The second pass of [load_entities] when the first pass loaded
    nothing. *)
Lemma load_multivalues_nothing name primary c fs mfs :
  table_name primary = name →
  NoDup (MetaProps.name <$> mfs) →
  ∀ q,
    Forall (λ f, ValueTypes.multivalued (MetaProps.valuetype f) = true → f ∈ mfs) fs →
    Forall (λ f, ∃ rows, database q !! table_name (SqlPersist.multivalue_table name f)
                         = Some rows ∧ Forall (λ r : list Value, r ≠ []) rows) mfs →
    for_each fs (λ field,
      if ValueTypes.multivalued (MetaProps.valuetype field) then
        match list_find (λ stbl, table_name stbl
                                 = table_name primary ++ "_" ++ MetaProps.name field)
                        (primary :: (SqlPersist.multivalue_table name <$> mfs)) with
        | Some (_, multivalue_sql_table) =>
            cur <- SqlPersist._create_cursor c ;;
            try_finally
              (rows <- SqlPersist.execute cur (SelectFrom multivalue_sql_table) ;;
               for_each rows (SqlPersist.load_multivalue_row field []))
              (SqlPersist._close_cursor cur)
        | None => raise Unmodelled
        end
      else ret tt) q
    = (Ok tt,
       executed c (SelectFrom ∘ SqlPersist.multivalue_table name <$> multivalued_fields fs)
                (database q) q).
Proof.
  intros Hname Hnd. induction fs as [|f fs IH]; intros q Hin Haux.
  - cbn. by rewrite executed_nil.
  - apply Forall_cons in Hin as [Hf Hin]. cbn [for_each].
    unfold multivalued_fields. rewrite filter_cons.
    destruct (ValueTypes.multivalued (MetaProps.valuetype f)) eqn:Hm.
    + rewrite decide_True by done. specialize (Hf eq_refl).
      destruct (find_multivalue_table name primary mfs f Hname Hnd Hf) as [i Hfind].
      rewrite Hfind.
      pose proof Haux as Haux'. eapply Forall_forall in Haux'; [|exact Hf].
      destruct Haux' as (rows & Hrows & Hne).
      erewrite bind_ok; cycle 1.
      { apply (select_ok _ c q rows); [exact Hrows|].
        by apply load_multivalue_rows_unknown. }
      fold (multivalued_fields fs). rewrite IH; [|done|done].
      rewrite executed_executed. reflexivity.
    + rewrite decide_False by done. erewrite bind_ok; [|reflexivity].
      fold (multivalued_fields fs). by apply IH.
Qed.

(** X19.  [load_entities] on a type whose primary table is empty:
    it selects from the primary table and then from the table of every
    [SET] or [LIST] field, in field order, loads nothing and returns no
    entity; rows left in the auxiliary tables belong to no loaded entity
    and are skipped.  Store and database are unchanged. *)
Theorem load_entities_of_empty_table meta_type unit_name conn p :
  let fs := FieldProps.fields_enum meta_type in
  let name := unit_name ++ "_" ++ FieldProps.type_name meta_type in
  let out := SqlPersist.load_entities meta_type conn p in
  __unit_meta_unit p !! FieldProps.key meta_type = Some unit_name →
  NoDup (MetaProps.name <$> fs) →
  database p !! name = Some [] →
  Forall (λ f, ∃ rows, database p !! table_name (SqlPersist.multivalue_table name f)
                       = Some rows ∧ Forall (λ r : list Value, r ≠ []) rows)
         (multivalued_fields fs) →
  out.1 = Ok []
  ∧ world out.2 = world p
  ∧ database out.2 = database p
  ∧ ∃ primary,
      table_name primary = name
      ∧ statements_of (trace out.2)
        = (statements_of (trace p)
             ++ SelectFrom primary
                  :: (SelectFrom ∘ SqlPersist.multivalue_table name
                        <$> multivalued_fields fs))%list.
Proof.
  intros fs name out Hunit Hnd Hrows Haux.
  destruct (sql_tables_spec name fs) as (primary & Htabs & Hname & Hfields).
  assert (Hcore : ∀ c q,
    world q = world p → database q = database p →
    __unit_meta_unit q = __unit_meta_unit p →
    (name <- SqlPersist.__table_name meta_type ;;
     let sql_tables := SqlPersist.__sql_tables name (FieldProps.fields_enum meta_type) in
     primary <- SqlPersist.first_table sql_tables ;;
     cur <- SqlPersist._create_cursor c ;;
     entities <-
       try_finally
         (rows <- SqlPersist.execute cur (SelectFrom primary) ;;
          foldM (λ (entities : list (Value * Value)) row,
                   SqlPersist.load_row meta_type row entities) [] rows)
         (SqlPersist._close_cursor cur) ;;
     for_each (FieldProps.fields_enum meta_type) (λ field,
       if ValueTypes.multivalued (MetaProps.valuetype field) then
         match list_find (λ stbl, table_name stbl
                                  = table_name primary ++ "_" ++ MetaProps.name field)
                         sql_tables with
         | Some (_, multivalue_sql_table) =>
             cur <- SqlPersist._create_cursor c ;;
             try_finally
               (rows <- SqlPersist.execute cur (SelectFrom multivalue_sql_table) ;;
                for_each rows (SqlPersist.load_multivalue_row field entities))
               (SqlPersist._close_cursor cur)
         | None => raise Unmodelled
         end
       else ret tt) ;;;
     ret entities.*2) q
    = (Ok [],
       executed c (SelectFrom primary
                     :: (SelectFrom ∘ SqlPersist.multivalue_table name
                           <$> multivalued_fields fs))
                (database p) q)).
  { intros c q Hw Hdb Hum.
    assert (Htn : SqlPersist.__table_name meta_type q = (Ok name, q)).
    { unfold SqlPersist.__table_name, bind, get, getitem. cbn. by rewrite Hum, Hunit. }
    erewrite bind_ok; [|exact Htn]. cbv beta iota zeta.
    change (FieldProps.fields_enum meta_type) with fs. rewrite Htabs.
    erewrite bind_ok; [|reflexivity].
    erewrite bind_ok; [|reflexivity].
    erewrite bind_ok; cycle 1.
    { apply (select_body_ok primary c q []); [by rewrite Hname, Hdb|reflexivity]. }
    erewrite bind_ok; cycle 1.
    { apply (load_multivalues_nothing name primary c fs (multivalued_fields fs));
        [done|by apply NoDup_fmap_filter| |].
      - apply Forall_forall. intros f Hf Hm. by apply list_elem_of_filter.
      - cbn [database executed]. by rewrite Hdb. }
    rewrite executed_executed. cbn [database executed]. by rewrite Hdb. }
  assert (Hout : ∃ c q,
    world q = world p ∧ database q = database p
    ∧ statements_of (trace q) = statements_of (trace p)
    ∧ out = (Ok [],
             (SqlPersist.close_if_owned conn c
                (executed c (SelectFrom primary
                               :: (SelectFrom ∘ SqlPersist.multivalue_table name
                                     <$> multivalued_fields fs))
                          (database p) q)).2)).
  { unfold out, SqlPersist.load_entities.
    destruct conn as [c|]; cbn [SqlPersist.connection_or_new].
    - exists c, p. split_and!; try done.
      erewrite bind_ok; [|reflexivity].
      erewrite try_finally_ok_close; [reflexivity|]. by apply Hcore.
    - exists (next_conn p), (SqlPersist._create_connection p).2. split_and!; try done.
      + cbn. by rewrite statements_of_app, app_nil_r.
      + erewrite bind_ok; [|reflexivity].
        erewrite try_finally_ok_close; [reflexivity|]. by apply Hcore. }
  destruct Hout as (c & q & Hw & Hdb & Htr & ->).
  assert (Hclose : ∀ s, world (SqlPersist.close_if_owned conn c s).2 = world s
                      ∧ database (SqlPersist.close_if_owned conn c s).2 = database s
                      ∧ statements_of (trace (SqlPersist.close_if_owned conn c s).2)
                        = statements_of (trace s)).
  { intros s. destruct conn; cbn; [done|]. by rewrite statements_of_app, app_nil_r. }
  cbn [fst snd].
  destruct (Hclose (executed c (SelectFrom primary
                                  :: (SelectFrom ∘ SqlPersist.multivalue_table name
                                        <$> multivalued_fields fs))
                             (database p) q))
    as (-> & -> & ->).
  cbn [world database trace executed]. split_and!; try done.
  exists primary. split; [done|].
  by rewrite statements_of_app, statements_of_cursor_events, Htr.
Qed.

Lemma load_entities_of_empty_table_witness :
  let out := SqlPersist.load_entities Example.ShopTypes.item None
               (Example.with_schema Example.scored) in
  out.1 = Ok []
  ∧ world out.2 = world (Example.with_schema Example.scored)
  ∧ database out.2 = database (Example.with_schema Example.scored).
Proof.
  assert (H1 : __unit_meta_unit (Example.with_schema Example.scored)
               !! FieldProps.key Example.ShopTypes.item = Some "shop").
  { vm_compute; reflexivity. }
  assert (H2 : NoDup (MetaProps.name <$> Example.ItemMeta.members)).
  { apply (bool_decide_unpack _); vm_compute; exact I. }
  assert (H3 : database (Example.with_schema Example.scored) !! "shop_item" = Some []).
  { vm_compute; reflexivity. }
  assert (H4 : Forall (λ f, ∃ rows,
                         database (Example.with_schema Example.scored)
                           !! table_name (SqlPersist.multivalue_table "shop_item" f)
                         = Some rows ∧ Forall (λ r : list Value, r ≠ []) rows)
                 (multivalued_fields Example.ItemMeta.members)).
  { change (multivalued_fields Example.ItemMeta.members)
      with [Example.ItemMeta.tags; Example.ItemMeta.scores; Example.ItemMeta.friends].
    repeat (apply Forall_cons_2;
            [exists []; split; [vm_compute; reflexivity|apply Forall_nil_2]|]).
    apply Forall_nil_2. }
  pose proof (load_entities_of_empty_table Example.ShopTypes.item "shop" None
                (Example.with_schema Example.scored) H1 H2 H3 H4) as (R1 & R2 & R3 & _).
  split_and!; [exact R1|exact R2|exact R3].
Defined.

(** ** What is reported to the message bus *)

(** X20.  [_create_message] sends nothing when no message hook is
    installed, when the operation is none of [ADD], [SET], [DEL] and
    [CHANGE], and when the entity belongs to the unit [entity], to the
    unit of the messages themselves or to a unit whose name ends in
    [_meta]: the outbox and the store are as before. *)
Theorem create_message_filters w e sl f operation :
  stored w e sl →
  unit_registered w (Entity.unit e) →
  _messages_create_message w = false
  ∨ Store.notifying operation = false
  ∨ reserved_unit w (Entity.unit e) = true →
  Store._create_message operation
    [AStr (Entity.unit e); AInt (Entity.entity_id e); AType (Entity.meta_type e); AField f]
    [AGid (Entity.global_id e)] w
  = (Ok tt, w).
Proof.
  intros Hst Hu Hcase. rewrite (create_message_stored w e sl f operation Hst Hu).
  f_equal. unfold notified.
  assert (Hc : _messages_create_message w && Store.notifying operation
               && negb (reserved_unit w (Entity.unit e)) = false).
  { destruct Hcase as [H|[H|H]]; rewrite H; [done|by rewrite andb_false_r..]. }
  rewrite Hc. by destruct w.
Qed.

Lemma create_message_filters_witness :
  reserved_unit Example.declared "entity" = true
  ∧ Store._create_message Operation.SET
      [AStr "entity"; AInt 3; AType EntityTypes.unit; AField UnitMeta.name]
      [AGid ("entity", 3, "unit")] Example.declared
    = (Ok tt, Example.declared).
Proof.
  assert (Hst : stored Example.declared (Entity.Obj "entity" 3 EntityTypes.unit)
                  (Example.slot Example.declared (Entity.Obj "entity" 3 EntityTypes.unit))).
  { apply stored_slot; vm_compute; reflexivity. }
  assert (Hu : unit_registered Example.declared "entity").
  { eexists; split; vm_compute; reflexivity. }
  assert (Hr : reserved_unit Example.declared "entity" = true).
  { vm_compute; reflexivity. }
  split; [exact Hr|].
  exact (create_message_filters Example.declared (Entity.Obj "entity" 3 EntityTypes.unit)
           (Example.slot Example.declared (Entity.Obj "entity" 3 EntityTypes.unit))
           UnitMeta.name Operation.SET Hst Hu (or_intror (or_intror Hr))).
Defined.

(** ** Entity references, empty paths and unknown units *)

Lemma field_access_changed_after_read w e sl f operation value rv sl1 :
  stored w e sl →
  unit_registered w (Entity.unit e) →
  is_ok (Store._access_data_get_value (VAtom (AEntity e)) (AField f) VNone w).1 = true →
  operation ∈ [Operation.SET; Operation.ADD; Operation.CHANGE] →
  entity sl1 = e →
  Store._access_data_set_value (VAtom (AEntity e)) (AField f) value operation w
  = (Ok (true, rv), put_slot (Entity.global_id e) sl1 w) →
  field_access e f operation value w
  = (Ok rv, with_outbox (λ _, notified operation e f w)
              (put_slot (Entity.global_id e) sl1 w)).
Proof.
  intros Hst Hu Hread Hop He Hset.
  assert (Hst1 : stored (put_slot (Entity.global_id e) sl1 w) e sl1)
    by (by apply stored_put_slot).
  pose proof (get_value_pure (VAtom (AEntity e)) (AField f) VNone w) as Hpure.
  destruct (Store._access_data_get_value (VAtom (AEntity e)) (AField f) VNone w)
    as [[lo|x] w0] eqn:Hget; [|done]. cbn in Hpure. subst w0.
  unfold field_access.
  erewrite bind_ok; [|reflexivity].
  erewrite bind_ok; [|exact Hget].
  assert (Hgoal :
    (r <- Store._access_data_set_value (VAtom (AEntity e)) (AField f) value operation ;;
     (if r.1 && _messages_create_message w
      then Store._create_message operation
             [AStr (Entity.unit e); AInt (Entity.entity_id e);
              AType (Entity.meta_type e); AField f] [AGid (Entity.global_id e)]
      else ret ()) ;;; ret r.2) w
    = (Ok rv, with_outbox (λ _, notified operation e f w)
                (put_slot (Entity.global_id e) sl1 w))).
  { erewrite bind_ok; [|exact Hset]. cbn [fst snd andb].
    destruct (_messages_create_message w) eqn:Hhook.
    - erewrite bind_ok; [|eapply create_message_stored; [exact Hst1|exact Hu]]. done.
    - erewrite bind_ok; [|reflexivity]. unfold ret. f_equal.
      unfold notified. cbn. rewrite Hhook. cbn. by destruct w. }
  rewrite !elem_of_cons in Hop. rewrite elem_of_nil in Hop.
  by destruct Hop as [->|[->|[->|[]]]].
Qed.

(** X21.  An entity written to a single-valued [ENTITY] field is stored
    as its global id, and the write always counts as a change, under
    [SET], [ADD] and [CHANGE] alike: the field is compared with the
    object, which the dictionary never holds, so the entity becomes
    uncommitted and the write is reported also when the field already
    holds the id of that very entity. *)
Theorem entity_on_single_field_always_rewrites w e sl f g cfg ve operation :
  stored w e sl →
  unit_registered w (Entity.unit e) →
  enum_fields w !! MetaProps.key f = Some g →
  enum_configs w !! g = Some cfg →
  MetaProps.datatype f = Datatypes.ENTITY →
  MetaProps.valuetype f = ValueTypes.SINGLE →
  g ≠ Store.committed_field →
  is_ok (Store._access_data_get_value (VAtom (AEntity e)) (AField f) VNone w).1 = true →
  dict_get g (e_map sl) ≠ Some (VAtom (AEntity ve)) →
  operation ∈ [Operation.SET; Operation.ADD; Operation.CHANGE] →
  let out := Store.entity_access e operation (VAtom (AEntity ve)) [AField f] w in
  out.1 = Ok (VAtom (AEntity ve))
  ∧ ∃ sl',
      stored out.2 e sl'
      ∧ dict_get g (e_map sl') = Some (VAtom (AGid (Entity.global_id ve)))
      ∧ committed sl' = VFalse
      ∧ outbox out.2 = notified operation e f w.
Proof.
  intros Hst Hu Hf Hc Hdt Hvt Hg Hread Hne Hop out. unfold out.
  rewrite (entity_access_field _ _ _ _ _ _ Hst).
  rewrite (field_access_changed_after_read w e sl f operation (VAtom (AEntity ve))
             (VAtom (AEntity ve))
             (uncommitted (with_e_map (dict_set g (VAtom (AGid (Entity.global_id ve)))) sl)));
    try done.
  - split; [done|]. eexists.
    split_and!; [apply stored_put_slot; by destruct Hst|..|done|done].
    cbn. rewrite dict_get_set_ne by (intros ?; by apply Hg). apply dict_get_set_eq.
  - by destruct Hst.
  - unfold Store._access_data_set_value.
    erewrite bind_ok; [|by apply slot_of_stored].
    erewrite bind_ok; [|reflexivity].
    rewrite Hf. erewrite bind_ok; [|reflexivity].
    rewrite Hc. erewrite bind_ok; [|reflexivity].
    rewrite Hdt, Hvt. cbv beta iota. unfold py_ne.
    rewrite bool_decide_eq_false_2; cycle 1.
    { destruct (dict_get g (e_map sl)) as [v|]; cbn; [|done]. intros ->. by apply Hne. }
    cbn [negb].
    erewrite bind_ok; [|by apply set_item_stored].
    erewrite bind_ok; [|apply set_uncommitted_stored, stored_put_slot; by destruct Hst].
    by rewrite put_slot_put_slot.
Qed.

Lemma entity_on_single_field_always_rewrites_witness :
  let out := Store.entity_access (Example.item 1) Operation.SET
               (VAtom (AEntity (Example.item 2))) [AField Example.ItemMeta.owner]
               Example.owned in
  Example.stored_value Example.owned (Example.item 1) ("shop_meta", "item", "owner")
  = Some (VAtom (AGid (Entity.global_id (Example.item 2))))
  ∧ out.1 = Ok (VAtom (AEntity (Example.item 2)))
  ∧ ∃ sl',
      stored out.2 (Example.item 1) sl'
      ∧ dict_get ("shop_meta", "item", "owner") (e_map sl')
        = Some (VAtom (AGid (Entity.global_id (Example.item 2))))
      ∧ committed sl' = VFalse
      ∧ outbox out.2
        = notified Operation.SET (Example.item 1) Example.ItemMeta.owner Example.owned.
Proof.
  assert (Hst : stored Example.owned (Example.item 1)
                  (Example.slot Example.owned (Example.item 1))).
  { apply stored_slot; vm_compute; reflexivity. }
  assert (Hu : unit_registered Example.owned (Entity.unit (Example.item 1))).
  { eexists; split; vm_compute; reflexivity. }
  assert (Hf : enum_fields Example.owned !! MetaProps.key Example.ItemMeta.owner
               = Some ("shop_meta", "item", "owner")).
  { vm_compute; reflexivity. }
  assert (Hc : ∃ cfg, enum_configs Example.owned !! ("shop_meta", "item", "owner")
                      = Some cfg).
  { eexists; vm_compute; reflexivity. }
  destruct Hc as [cfg Hc].
  assert (Hg : ("shop_meta", "item", "owner") ≠ Store.committed_field).
  { vm_compute; discriminate. }
  assert (Hread : is_ok (Store._access_data_get_value (VAtom (AEntity (Example.item 1)))
                           (AField Example.ItemMeta.owner) VNone Example.owned).1 = true).
  { vm_compute; reflexivity. }
  assert (Hne : dict_get ("shop_meta", "item", "owner")
                  (e_map (Example.slot Example.owned (Example.item 1)))
                ≠ Some (VAtom (AEntity (Example.item 2)))).
  { vm_compute; discriminate. }
  assert (Hop : Operation.SET ∈ [Operation.SET; Operation.ADD; Operation.CHANGE]).
  { apply (bool_decide_unpack _); vm_compute; exact I. }
  split; [vm_compute; reflexivity|].
  exact (entity_on_single_field_always_rewrites Example.owned (Example.item 1)
           (Example.slot Example.owned (Example.item 1)) Example.ItemMeta.owner
           ("shop_meta", "item", "owner") cfg (Example.item 2) Operation.SET
           Hst Hu Hf Hc eq_refl eq_refl Hg Hread Hne Hop).
Defined.

(** X22.  An entity written to a [SET] field of entities always counts
    as a change: membership is tested with the bound method
    [value.global_id], which no set holds, so the global id is added (the
    set keeps one occurrence), the entity becomes uncommitted and the
    write is reported also when the set already holds the id. *)
Theorem entity_on_set_field_always_changes w e sl f g cfg ve s operation :
  stored w e sl →
  unit_registered w (Entity.unit e) →
  enum_fields w !! MetaProps.key f = Some g →
  enum_configs w !! g = Some cfg →
  MetaProps.datatype f = Datatypes.ENTITY →
  MetaProps.valuetype f = ValueTypes.SET →
  g ≠ Store.committed_field →
  default (VSet ∅) (dict_get g (e_map sl)) = VSet s →
  operation ∈ [Operation.SET; Operation.ADD; Operation.CHANGE] →
  let out := Store.entity_access e operation (VAtom (AEntity ve)) [AField f] w in
  out.1 = Ok (VAtom (AEntity ve))
  ∧ ∃ sl',
      stored out.2 e sl'
      ∧ dict_get g (e_map sl') = Some (VSet (s ∪ {[ AGid (Entity.global_id ve) ]}))
      ∧ committed sl' = VFalse
      ∧ outbox out.2 = notified operation e f w.
Proof.
  intros Hst Hu Hf Hc Hdt Hvt Hg Hs Hop out. unfold out.
  rewrite (entity_access_field _ _ _ _ _ _ Hst).
  assert (Hv : ∀ gid, dict_get g (e_map sl) ≠ Some (VAtom (AGid gid))).
  { intros gid Hgid. rewrite Hgid in Hs. done. }
  rewrite (field_access_changed w e sl f g operation (VAtom (AEntity ve))
             (VAtom (AEntity ve))
             (uncommitted (with_e_map
                (dict_set g (VSet (s ∪ {[ AGid (Entity.global_id ve) ]}))) sl)));
    try done.
  - split; [done|]. eexists.
    split_and!; [apply stored_put_slot; by destruct Hst|..|done|done].
    cbn. rewrite dict_get_set_ne by (intros ?; by apply Hg). apply dict_get_set_eq.
  - by destruct Hst.
  - unfold Store._access_data_set_value.
    erewrite bind_ok; [|by apply slot_of_stored].
    erewrite bind_ok; [|reflexivity].
    rewrite Hf. erewrite bind_ok; [|reflexivity].
    rewrite Hc. erewrite bind_ok; [|reflexivity].
    rewrite Hdt, Hvt. cbv beta iota.
    destruct (dict_get g (e_map sl)) as [v|] eqn:Hget; cbn in Hs.
    + subst v. erewrite bind_ok; [|reflexivity]. cbn [negb].
      erewrite bind_ok; cycle 1.
      { unfold Store.setdefault_add. erewrite bind_ok; [|by apply slot_of_stored].
        rewrite Hget. by apply set_item_stored. }
      erewrite bind_ok; [|apply set_uncommitted_stored, stored_put_slot; by destruct Hst].
      by rewrite put_slot_put_slot.
    + injection Hs as <-. erewrite bind_ok; [|reflexivity]. cbn [negb].
      erewrite bind_ok; cycle 1.
      { unfold Store.setdefault_add. erewrite bind_ok; [|by apply slot_of_stored].
        rewrite Hget. by apply set_item_stored. }
      erewrite bind_ok; [|apply set_uncommitted_stored, stored_put_slot; by destruct Hst].
      by rewrite put_slot_put_slot, (left_id_L ∅ (∪)).
Qed.

Lemma entity_on_set_field_always_changes_witness :
  let out := Store.entity_access (Example.item 1) Operation.ADD
               (VAtom (AEntity (Example.item 2))) [AField Example.ItemMeta.friends]
               Example.befriended in
  out.1 = Ok (VAtom (AEntity (Example.item 2)))
  ∧ ∃ sl',
      stored out.2 (Example.item 1) sl'
      ∧ dict_get ("shop_meta", "item", "friends") (e_map sl')
        = Some (VSet ({[ AGid (Entity.global_id (Example.item 2)) ]}
                        ∪ {[ AGid (Entity.global_id (Example.item 2)) ]}))
      ∧ committed sl' = VFalse
      ∧ outbox out.2
        = notified Operation.ADD (Example.item 1) Example.ItemMeta.friends
            Example.befriended.
Proof.
  assert (Hst : stored Example.befriended (Example.item 1)
                  (Example.slot Example.befriended (Example.item 1))).
  { apply stored_slot; vm_compute; reflexivity. }
  assert (Hu : unit_registered Example.befriended (Entity.unit (Example.item 1))).
  { eexists; split; vm_compute; reflexivity. }
  assert (Hf : enum_fields Example.befriended !! MetaProps.key Example.ItemMeta.friends
               = Some ("shop_meta", "item", "friends")).
  { vm_compute; reflexivity. }
  assert (Hc : ∃ cfg, enum_configs Example.befriended !! ("shop_meta", "item", "friends")
                      = Some cfg).
  { eexists; vm_compute; reflexivity. }
  destruct Hc as [cfg Hc].
  assert (Hg : ("shop_meta", "item", "friends") ≠ Store.committed_field).
  { vm_compute; discriminate. }
  assert (Hs : default (VSet ∅) (dict_get ("shop_meta", "item", "friends")
                                   (e_map (Example.slot Example.befriended
                                             (Example.item 1))))
               = VSet {[ AGid (Entity.global_id (Example.item 2)) ]}).
  { apply (bool_decide_unpack _); vm_compute; exact I. }
  assert (Hop : Operation.ADD ∈ [Operation.SET; Operation.ADD; Operation.CHANGE]).
  { apply (bool_decide_unpack _); vm_compute; exact I. }
  exact (entity_on_set_field_always_changes Example.befriended (Example.item 1)
           (Example.slot Example.befriended (Example.item 1)) Example.ItemMeta.friends
           ("shop_meta", "item", "friends") cfg (Example.item 2)
           {[ AGid (Entity.global_id (Example.item 2)) ]} Operation.ADD
           Hst Hu Hf Hc eq_refl eq_refl Hg Hs Hop).
Defined.

(** [Store.access] with an empty path: [GET] and [VISIT] return the
    list of all stored entities; [SET], [ADD] and [CHANGE] fail with
    [NameError] on the unbound loop index; the other operations return
    [None].  The store is not changed. *)
Lemma access_with_empty_path operation value w :
  Store.access operation value [] w
  = (match operation with
     | Operation.GET | Operation.VISIT => Ok (Store.all_entities w)
     | Operation.SET | Operation.ADD | Operation.CHANGE => Raise NameError
     | _ => Ok VNone
     end, w).
Proof. unfold Store.access, Store.access_body. by destruct operation. Qed.



(** ** Reading through a field *)

(** [GET] through a field and one more key: what the second step of the
    loop of [Store.access] starts from. *)
Lemma entity_access_get_two w e sl f key value :
  stored w e sl →
  Store.entity_access e Operation.GET value [AField f; key] w
  = (lo <- Store._access_data_get_value (VAtom (AEntity e)) (AField f) VNone ;;
     c <- Store.walk [AStr (Entity.unit e); AInt (Entity.entity_id e);
                      AType (Entity.meta_type e); AField f; key]
            (AField f) 1 [key]
            (Store.mkCursor lo (VAtom (AEntity e)) (AGid (Entity.global_id e))
               [AStr (Entity.unit e); AInt (Entity.entity_id e);
                AType (Entity.meta_type e); AField f; key]) ;;
     ret (Store.last_obj c)) w.
Proof.
  intros [Hsl He].
  unfold Store.entity_access, Store.entity_access_with, Store.access, Store.access_body.
  unfold Entity.global_id in Hsl.
  cbv [bind get ret Store.locate Store._resolve_global_id Store._ref Store.idx_of drop].
  rewrite Hsl.
  cbn -[Store._access_data_get_value Store._access_data_set_value Store._create_message
        Store._access_data_create_container].
  rewrite He. cbv [bind ret].
  destruct (Store._access_data_get_value _ _ _ w) as [[a|x] s']; [|done].
  reflexivity.
Qed.

Lemma get_value_list_index_eq (l : list Atom) (k : Z) d w :
  Store._access_data_get_value (VList l) (AInt k) d w
  = if Z.leb (Z.of_nat (length l)) k then (Ok d, w)
    else if Z.leb 0 k then (Ok (from_option VAtom d (l !! Z.to_nat k)), w)
    else if Z.leb (- Z.of_nat (length l)) k
      then (Ok (from_option VAtom d (l !! Z.to_nat (k + Z.of_nat (length l)))), w)
    else (Raise IndexError, w).
Proof.
  unfold Store._access_data_get_value, Store.list_getitem.
  destruct (Z.leb_spec (Z.of_nat (length l)) k) as [H1|H1].
  - by rewrite (proj2 (Z.ltb_ge k _)).
  - rewrite (proj2 (Z.ltb_lt k _)) by done.
    destruct (Z.leb_spec 0 k) as [H2|H2].
    + rewrite (proj2 (Z.ltb_ge k 0)) by done. rewrite (proj2 (Z.ltb_ge k 0)) by done.
      destruct (lookup_lt_is_Some_2 l (Z.to_nat k)) as [a Ha]; [lia|].
      by rewrite Ha.
    + rewrite (proj2 (Z.ltb_lt k 0)) by done.
      destruct (Z.leb_spec (- Z.of_nat (length l)) k) as [H3|H3].
      * rewrite (proj2 (Z.ltb_ge (k + _) 0)) by lia.
        destruct (lookup_lt_is_Some_2 l (Z.to_nat (k + Z.of_nat (length l)))) as [a Ha];
          [lia|].
        by rewrite Ha.
      * by rewrite (proj2 (Z.ltb_lt (k + _) 0)) by lia.
Qed.

(** X24.  [GET] with a field and an index, on a field that holds a list,
    returns the element at the index as Python's subscript does; at or
    beyond the length it returns [None], below minus the length it raises
    [IndexError].  Nothing in the store changes. *)
Theorem get_element_of_list_field w e sl f g l k value :
  stored w e sl →
  enum_fields w !! MetaProps.key f = Some g →
  dict_get g (e_map sl) = Some (VList l) →
  let n := Z.of_nat (length l) in
  Store.entity_access e Operation.GET value [AField f; AInt k] w
  = if Z.leb n k then (Ok VNone, w)
    else if Z.leb 0 k then (Ok (from_option VAtom VNone (l !! Z.to_nat k)), w)
    else if Z.leb (- n) k then (Ok (from_option VAtom VNone (l !! Z.to_nat (k + n))), w)
    else (Raise IndexError, w).
Proof.
  intros Hst Hf Hg n. rewrite (entity_access_get_two _ _ _ _ _ _ Hst).
  erewrite bind_ok; cycle 1.
  { rewrite (get_value_stored w e sl f g VNone Hst Hf); [by rewrite Hg|].
    intros gid. by rewrite Hg. }
  change (default VNone (Some (VList l))) with (VList l).
  cbn [Store.walk Store.last_obj Store.parent Store.last_global_id
       Store.last_entity_path].
  cbv [bind ret].
  cbn [Store.last_obj Store.parent Store.last_global_id Store.last_entity_path]. rewrite (get_value_list_index_eq l k VNone w). fold n.
  by destruct (Z.leb n k), (Z.leb 0 k), (Z.leb (- n) k).
Qed.

Lemma get_element_of_list_field_witness :
  (Store.entity_access (Example.item 1) Operation.GET VNone
     [AField Example.ItemMeta.scores; AInt (-1)] Example.scored).1
  = Ok (VAtom (AInt 30))
  ∧ (Store.entity_access (Example.item 1) Operation.GET VNone
       [AField Example.ItemMeta.scores; AInt (-4)] Example.scored).1
    = Raise IndexError
  ∧ (let n := Z.of_nat (length [AInt 10; AInt 20; AInt 30]) in
     Store.entity_access (Example.item 1) Operation.GET VNone
       [AField Example.ItemMeta.scores; AInt (-1)] Example.scored
     = if Z.leb n (-1) then (Ok VNone, Example.scored)
       else if Z.leb 0 (-1)
         then (Ok (from_option VAtom VNone
                     ([AInt 10; AInt 20; AInt 30] !! Z.to_nat (-1))), Example.scored)
       else if Z.leb (- n) (-1)
         then (Ok (from_option VAtom VNone
                     ([AInt 10; AInt 20; AInt 30] !! Z.to_nat (-1 + n))), Example.scored)
       else (Raise IndexError, Example.scored)).
Proof.
  assert (Hst : stored Example.scored (Example.item 1)
                  (Example.slot Example.scored (Example.item 1))).
  { apply stored_slot; vm_compute; reflexivity. }
  assert (Hf : enum_fields Example.scored !! MetaProps.key Example.ItemMeta.scores
               = Some ("shop_meta", "item", "scores")).
  { vm_compute; reflexivity. }
  assert (Hg : dict_get ("shop_meta", "item", "scores")
                 (e_map (Example.slot Example.scored (Example.item 1)))
               = Some (VList [AInt 10; AInt 20; AInt 30])).
  { vm_compute; reflexivity. }
  split_and!; [vm_compute; reflexivity|vm_compute; reflexivity|].
  exact (get_element_of_list_field Example.scored (Example.item 1)
           (Example.slot Example.scored (Example.item 1)) Example.ItemMeta.scores
           ("shop_meta", "item", "scores") [AInt 10; AInt 20; AInt 30] (-1) VNone
           Hst Hf Hg).
Defined.

(** X25.  [GET] with a field and one more key, on a field the entity does
    not hold: the read writes an empty container into the entity, without
    marking it uncommitted and without a message.  For a [SET] field an
    empty set is stored and [None] is returned; for a [LIST] field an
    empty list is stored and the call fails with [NameError] on the
    undefined name [global_name]; for other fields nothing is stored and
    [None] is returned. *)
Theorem get_through_missing_field w e sl f g cfg key value :
  stored w e sl →
  enum_fields w !! MetaProps.key f = Some g →
  enum_configs w !! g = Some cfg →
  dict_get g (e_map sl) = None →
  Store.entity_access e Operation.GET value [AField f; key] w
  = match cfg_valuetype cfg with
    | ValueTypes.SET =>
        (Ok VNone, put_slot (Entity.global_id e) (with_e_map (dict_set g (VSet ∅)) sl) w)
    | ValueTypes.LIST =>
        (Raise NameError,
         put_slot (Entity.global_id e) (with_e_map (dict_set g (VList [])) sl) w)
    | _ => (Ok VNone, w)
    end.
Proof.
  intros Hst Hf Hc Hg. rewrite (entity_access_get_two _ _ _ _ _ _ Hst).
  erewrite bind_ok; cycle 1.
  { rewrite (get_value_stored w e sl f g VNone Hst Hf); [by rewrite Hg|].
    intros gid. by rewrite Hg. }
  change (default VNone None) with VNone.
  cbn [Store.walk Store.last_obj Store.parent Store.last_global_id
       Store.last_entity_path].
  assert (Hcreate :
    Store._access_data_create_container (VAtom (AEntity e)) (AField f) key w
    = match cfg_valuetype cfg with
      | ValueTypes.SET =>
          (Ok VNone, put_slot (Entity.global_id e) (with_e_map (dict_set g (VSet ∅)) sl) w)
      | ValueTypes.LIST =>
          (Raise NameError,
           put_slot (Entity.global_id e) (with_e_map (dict_set g (VList [])) sl) w)
      | _ => (Ok VNone, w)
      end).
  { unfold Store._access_data_create_container.
    erewrite bind_ok; [|reflexivity]. cbv beta iota. rewrite Hf.
    erewrite bind_ok; [|reflexivity]. rewrite Hc.
    erewrite bind_ok; [|reflexivity].
    erewrite bind_ok; [|by apply slot_of_stored].
    destruct (cfg_valuetype cfg); try done.
    - erewrite bind_ok; [|by apply set_item_stored]. reflexivity.
    - erewrite bind_ok; [|by apply set_item_stored]. reflexivity. }
  cbv [bind ret].
  cbn [Store.last_obj Store.parent Store.last_global_id Store.last_entity_path].
  unfold VNone. cbv beta iota. fold VNone. rewrite Hcreate.
  destruct (cfg_valuetype cfg); reflexivity.
Qed.

Lemma get_through_missing_field_witness :
  Example.stored_value Example.one_item (Example.item 1) ("shop_meta", "item", "scores")
  = None
  ∧ Store.entity_access (Example.item 1) Operation.GET VNone
      [AField Example.ItemMeta.scores; AInt 0] Example.one_item
    = match cfg_valuetype (Store.field_config_of Example.ItemMeta.scores 12) with
      | ValueTypes.SET =>
          (Ok VNone,
           put_slot (Entity.global_id (Example.item 1))
             (with_e_map (dict_set ("shop_meta", "item", "scores") (VSet ∅))
                (Example.slot Example.one_item (Example.item 1))) Example.one_item)
      | ValueTypes.LIST =>
          (Raise NameError,
           put_slot (Entity.global_id (Example.item 1))
             (with_e_map (dict_set ("shop_meta", "item", "scores") (VList []))
                (Example.slot Example.one_item (Example.item 1))) Example.one_item)
      | _ => (Ok VNone, Example.one_item)
      end.
Proof.
  assert (Hst : stored Example.one_item (Example.item 1)
                  (Example.slot Example.one_item (Example.item 1))).
  { apply stored_slot; vm_compute; reflexivity. }
  assert (Hf : enum_fields Example.one_item !! MetaProps.key Example.ItemMeta.scores
               = Some ("shop_meta", "item", "scores")).
  { vm_compute; reflexivity. }
  assert (Hc : enum_configs Example.one_item !! ("shop_meta", "item", "scores")
               = Some (Store.field_config_of Example.ItemMeta.scores 12)).
  { vm_compute; reflexivity. }
  assert (Hg : dict_get ("shop_meta", "item", "scores")
                 (e_map (Example.slot Example.one_item (Example.item 1))) = None).
  { vm_compute; reflexivity. }
  split; [vm_compute; reflexivity|].
  exact (get_through_missing_field Example.one_item (Example.item 1)
           (Example.slot Example.one_item (Example.item 1)) Example.ItemMeta.scores
           ("shop_meta", "item", "scores") (Store.field_config_of Example.ItemMeta.scores 12)
           (AInt 0) VNone Hst Hf Hc Hg).
Defined.

(** ** A failing update *)

Lemma update_entity_values_failed st conn p e db' :
  run st (database p) = (Raise e, db') →
  SqlPersist.__update_entity_values st conn p = (Raise e, executed conn [st] db' p).
Proof.
  intros Hrun.
  unfold SqlPersist.__update_entity_values, SqlPersist._create_cursor,
    SqlPersist._close_cursor, SqlPersist.execute, try_finally, bind, modify, ret.
  cbn. rewrite Hrun. unfold executed, emit, with_database. cbn.
  by rewrite <- !app_assoc.
Qed.

Lemma try_finally_raise_close {A} (body : M Persist A) conn c q x s1 :
  body q = (Raise x, s1) →
  try_finally body (SqlPersist.close_if_owned conn c) q
  = (Raise x, (SqlPersist.close_if_owned conn c s1).2).
Proof. intros H. unfold try_finally. rewrite H. by destruct conn. Qed.

(** X26.  When the [UPDATE] of the primary row fails, [update_entity]
    lets the failure through: no row of a multi-valued field is deleted
    or inserted, the statement is the only one executed, and a connection
    the call opened itself is still closed. *)
Theorem update_entity_stops_at_failed_update entity sl unit_name conn p x db' :
  let meta_type := Entity.meta_type entity in
  let fs := FieldProps.fields_enum meta_type in
  let name := unit_name ++ "_" ++ FieldProps.type_name meta_type in
  let values :=
    (foldl (gather_step name (reading (world p) entity))
           ([("_global_id", VAtom (AGid (Entity.global_id entity)))], []) fs).1 in
  let out := SqlPersist.update_entity entity conn p in
  persisted p meta_type = true →
  __unit_meta_unit p !! FieldProps.key meta_type = Some unit_name →
  stored (world p) entity sl →
  Forall (λ f, is_ok (read_for_db (world p) entity f) = true) fs →
  run (UpdateWhere (primary_of name fs) values) (database p) = (Raise x, db') →
  out.1 = Raise x
  ∧ world out.2 = world p
  ∧ database out.2 = db'
  ∧ statements_of (trace out.2)
    = (statements_of (trace p) ++ [UpdateWhere (primary_of name fs) values])%list
  ∧ (conn = None → last (trace out.2) = Some (CloseConnection (next_conn p))).
Proof.
  intros meta_type fs name values out Hpers Hunit Hst Hread Hrun.
  assert (Hcore : ∀ c q,
    world q = world p → database q = database p →
    __persisted_types q = __persisted_types p → __unit_meta_unit q = __unit_meta_unit p →
    (p0 <- get ;;
     return_value <-
       (if persisted p0 meta_type then
          name <- SqlPersist.__table_name meta_type ;;
          let sql_tables := SqlPersist.__sql_tables name (FieldProps.fields_enum meta_type) in
          try_finally
            (primary <- SqlPersist.first_table sql_tables ;;
             g <- SqlPersist.gather_values entity name (FieldProps.fields_enum meta_type)
                    [("_global_id", VAtom (AGid (Entity.global_id entity)))] ;;
             return_value <- SqlPersist.__update_entity_values (UpdateWhere primary g.1) c ;;
             if return_value
             then SqlPersist.__update_entity_multivalues entity sql_tables g.2 c true
             else ret return_value)
            (SqlPersist.close_if_owned conn c)
        else ret false) ;;
     (if return_value then SqlPersist.set_committed entity else ret tt) ;;;
     ret return_value) q
    = (Raise x,
       (SqlPersist.close_if_owned conn c
          (executed c [UpdateWhere (primary_of name fs) values] db' q)).2)).
  { intros c q Hw Hdb Hpt Hum.
    assert (Htn : SqlPersist.__table_name meta_type q = (Ok name, q)).
    { unfold SqlPersist.__table_name, bind, get, getitem. cbn. by rewrite Hum, Hunit. }
    erewrite bind_ok; [|reflexivity]. cbv beta iota.
    unfold persisted. rewrite Hpt. fold (persisted p meta_type). rewrite Hpers.
    apply bind_raise.
    erewrite bind_ok; [|exact Htn]. cbv beta iota zeta.
    change (FieldProps.fields_enum meta_type) with fs.
    apply try_finally_raise_close.
    destruct (sql_tables_spec name fs) as (primary & Htabs & _ & _).
    assert (Hprim : primary_of name fs = primary).
    { unfold primary_of. by rewrite Htabs. }
    rewrite Htabs. erewrite bind_ok; [|reflexivity]. cbv beta iota.
    unfold SqlPersist.gather_values.
    erewrite bind_ok; [|by eapply gather_values_stored; rewrite ?Hw].
    rewrite Hw. fold values. rewrite <- Hprim.
    apply bind_raise. apply update_entity_values_failed. by rewrite Hdb. }
  assert (Hout : ∃ c q,
    world q = world p ∧ statements_of (trace q) = statements_of (trace p)
    ∧ (conn = None → c = next_conn p)
    ∧ out = (Raise x,
             (SqlPersist.close_if_owned conn c
                (executed c [UpdateWhere (primary_of name fs) values] db' q)).2)).
  { unfold out, SqlPersist.update_entity.
    destruct conn as [c|]; cbn [SqlPersist.connection_or_new].
    - exists c, p. split_and!; try done.
      erewrite bind_ok; [|reflexivity]. by apply Hcore.
    - exists (next_conn p), (SqlPersist._create_connection p).2.
      split_and!; try done.
      + cbn. by rewrite statements_of_app, app_nil_r.
      + erewrite bind_ok; [|reflexivity]. by apply Hcore. }
  destruct Hout as (c & q & Hw & Htr & Hc & ->).
  remember (UpdateWhere (primary_of name fs) values) as st eqn:Est.
  clear Hcore Hrun. unfold statements_of in *.
  cbn [fst snd]. split; [done|].
  destruct conn as [c0|]; cbn.
  - split_and!; try done.
    rewrite omap_app, Htr. by cbn.
  - split_and!; try done.
    + rewrite !omap_app, Htr. cbn. by rewrite app_nil_r.
    + intros _. rewrite last_snoc. by rewrite Hc.
Qed.

Lemma run_update_unknown_table t values db :
  db !! table_name t = None → run (UpdateWhere t values) db = (Raise DatabaseError, db).
Proof. intros H. unfold run. by rewrite H. Qed.

Lemma update_entity_stops_at_failed_update_witness :
  database (with_database (λ _, ∅) Example.rescored) !! "shop_item" = None
  ∧ (SqlPersist.update_entity (Example.item 1) None
       (with_database (λ _, ∅) Example.rescored)).1 = Raise DatabaseError
  ∧ length (statements_of
              (trace (SqlPersist.update_entity (Example.item 1) None
                        (with_database (λ _, ∅) Example.rescored)).2))
    = S (length (statements_of (trace (with_database (λ _, ∅) Example.rescored))))
  ∧ last (trace (SqlPersist.update_entity (Example.item 1) None
                   (with_database (λ _, ∅) Example.rescored)).2)
    = Some (CloseConnection (next_conn (with_database (λ _, ∅) Example.rescored))).
Proof.
  assert (Hst : stored (world (with_database (λ _, ∅) Example.rescored)) (Example.item 1)
                  (Example.slot (world (with_database (λ _, ∅) Example.rescored))
                     (Example.item 1))).
  { apply stored_slot; vm_compute; reflexivity. }
  assert (H1 : persisted (with_database (λ _, ∅) Example.rescored) Example.ShopTypes.item
               = true)
    by (vm_compute; reflexivity).
  assert (H2 : __unit_meta_unit (with_database (λ _, ∅) Example.rescored)
                 !! FieldProps.key Example.ShopTypes.item = Some "shop")
    by (vm_compute; reflexivity).
  assert (H4 : Forall (λ f, is_ok (read_for_db
                                     (world (with_database (λ _, ∅) Example.rescored))
                                     (Example.item 1) f) = true)
                 Example.ItemMeta.members)
    by (apply (bool_decide_unpack _); vm_compute; exact I).
  assert (H5 : database (with_database (λ _, ∅) Example.rescored)
                 !! table_name (primary_of ("shop" ++ "_" ++ FieldProps.type_name
                                                  (Entity.meta_type (Example.item 1)))
                      (FieldProps.fields_enum (Entity.meta_type (Example.item 1))))
               = None)
    by (vm_compute; reflexivity).
  pose proof (update_entity_stops_at_failed_update (Example.item 1) _ "shop" None _
                DatabaseError _ H1 H2 Hst H4 (run_update_unknown_table _ _ _ H5))
    as (Hres & _ & _ & Htr & Hlast).
  split_and!.
  - vm_compute; reflexivity.
  - exact Hres.
  - rewrite Htr, length_app; cbn [length]; lia.
  - exact (Hlast eq_refl).
Defined.
